(** * Hand tracker: capture / classify / transmit loop

    Shallow embedding of [Modelo/python/hand_tracker.py] (class
    [HandTracker]) and the properties of its telemetry and preview
    channels.

    Conventions of the embedding:
    - Python floats (coordinates, confidences, clock readings, fps) are
      rationals [Q], the exact values of the doubles; no NaN and no
      infinities.  Where the outcome of the program depends on the
      rounding of a float operation (the test of the preview rate limiter
      and the height computed by the preview resize) the operation is
      rounded to the nearest double by [fl]; elsewhere floats are only
      stored and passed on, and the rolling fps, which is only displayed,
      is computed exactly.
    - [self] is the record [HandTracker], threaded explicitly.
    - Everything that leaves the process (datagrams, windows, console
      lines, resource releases) is appended to a trace of [Event]s.
    - What the outside world answers during one iteration of the main
      loop (camera, MediaPipe, clock, JPEG encoder, network, keyboard) is
      the record [CycleEnv]; a run is driven by a list of them, and a run
      whose list is used up before the loop is left is still running.
    - OpenCV, MediaPipe and ONNX Runtime are outside the program: their
      calls are total except where an outcome of [CycleEnv] says they
      raise, and a KeyboardInterrupt is taken at the blocking camera read. *)

From Stdlib Require Import List String Ascii Strings.Byte ZArith QArith Qround
  Qpower Qfield Bool Lia Lqa.
Import ListNotations.

Local Open Scope string_scope.
Local Open Scope list_scope.
Local Open Scope Z_scope.

(* ===================================================================== *)
(** ** Configuration constants *)

Definition UDP_IP : string := "127.0.0.1".
Definition UDP_PORT : Z := 5005.
Definition UDP_VIDEO_PORT : Z := 5006.
Definition MAX_NUM_HANDS : Z := 1.

(* ===================================================================== *)
(** ** Python-level helpers *)

(** [a < b] on floats, as a boolean test. *)
Definition Qltb (a b : Q) : bool := negb (Qle_bool b a).

(** [a >= b] on floats. *)
Definition Qgeb (a b : Q) : bool := Qle_bool b a.

(** [int(q)]: truncation toward zero. *)
Definition py_int (q : Q) : Z := Z.quot (Qnum q) (Zpos (Qden q)).

(** *** Double-precision rounding

    The result of a float operation is the double nearest to the exact
    result, ties going to the even significand (IEEE 754 binary64,
    round-to-nearest-even), subnormals included; overflow to infinity is
    not modelled. *)

(** Round to the nearest integer, ties to even. *)
Definition rne (y : Q) : Z :=
  let f := Qfloor y in
  match (y - inject_Z f ?= 1 # 2)%Q with
  | Lt => f
  | Gt => f + 1
  | Eq => if Z.even f then f else f + 1
  end.

(** For [q > 0], the exponent [e] with [2^e <= q < 2^(e+1)]. *)
Definition ilog2 (q : Q) : Z :=
  let k := Z.log2 (Qnum q) - Z.log2 (Zpos (Qden q)) in
  if Qle_bool (2 ^ k) q then k else k - 1.

(** Exponent of the unit in the last place of the doubles around [q]: 53
    significant bits, and never below the subnormal spacing [2^-1074]. *)
Definition ulp_exp (q : Q) : Z := Z.max (ilog2 q - 52) (-1074).

(** Round to the nearest multiple of [2^x], ties to even. *)
Definition grid (x : Z) (q : Q) : Q := (inject_Z (rne (q / 2 ^ x)) * 2 ^ x)%Q.

(** The double nearest to the exact value [q]. *)
Definition fl (q : Q) : Q :=
  if Qle_bool 0 q then grid (ulp_exp q) q
  else (- grid (ulp_exp (- q)) (- q))%Q.

(** [max(values)] for a non-empty sequence: the first maximal element;
    [None] stands for the [ValueError] raised on an empty sequence. *)
Definition py_max (values : list Q) : option Q :=
  match values with
  | [] => None
  | v :: rest => Some (fold_left (fun m w => if Qltb m w then w else m) rest v)
  end.

(** [np.clip(v, lo, hi)] on integers. *)
Definition np_clip (v lo hi : Z) : Z := Z.min (Z.max v lo) hi.

(** Outcome of a [try] body: a value, or an exception of class
    [Exception]. *)
Inductive result (A : Type) : Type :=
| Ok (a : A)
| Raise (what : string).
Arguments Ok {A} a.
Arguments Raise {A} what.

(* ===================================================================== *)
(** ** Frames and pictures (OpenCV side) *)

Definition Pixel : Type := (Z * Z * Z)%type.

(** A captured frame: rows of BGR pixels. *)
Definition Frame : Type := list (list Pixel).

(** [cv2.flip(frame, 1)]: every row is reversed. *)
Definition cv2_flip (f : Frame) : Frame := map (@rev Pixel) f.

Definition frame_shape (f : Frame) : Z * Z :=
  (Z.of_nat (List.length f), Z.of_nat (List.length (hd [] f))).

Module Landmark.
(** One MediaPipe keypoint. *)
Record t : Type := mk { x : Q; y : Q; z : Q }.
End Landmark.

(** [hand_landmarks]: the message whose [landmark] field is iterated. *)
Record Hand : Type := mkHand { landmark : list Landmark.t }.

(** Text handed to [cv2.putText]; the two formatted floats stay symbolic. *)
Inductive Text : Type :=
| TStr (s : string)
| TConf (confidence : Q)        (* f"Conf: {confidence:.1%}" *)
| TFps (fps : Q).               (* f"FPS: {self.fps:.1f}"    *)

(** What has been done to the pixels of a frame, in order. *)
Inductive ImgOp : Type :=
| OpLandmarks (hand : Hand)               (* mp_drawing.draw_landmarks *)
| OpShade                                 (* rectangle + addWeighted    *)
| OpText (t : Text) (px py : Z)           (* cv2.putText                *)
| OpResize (w h : Z).                     (* cv2.resize                 *)

(** An image buffer ([np.ndarray]): the captured frame it comes from and
    the operations applied to it since. *)
Record Picture : Type := mkPicture { base : Frame; ops : list ImgOp }.

Definition of_frame (f : Frame) : Picture := mkPicture f [].

Definition apply_op (p : Picture) (o : ImgOp) : Picture :=
  mkPicture (base p) (ops p ++ [o]).

Fixpoint ops_shape (sh : Z * Z) (l : list ImgOp) : Z * Z :=
  match l with
  | [] => sh
  | OpResize w h :: r => ops_shape (h, w) r
  | _ :: r => ops_shape sh r
  end.

(** [frame.shape[:2]] as (height, width). *)
Definition pic_shape (p : Picture) : Z * Z :=
  ops_shape (frame_shape (base p)) (ops p).

Definition is_drawing (o : ImgOp) : bool :=
  match o with
  | OpResize _ _ => false
  | _ => true
  end.

(* ===================================================================== *)
(** ** Inference engine (ONNX Runtime side) *)

(** [outputs[1][0]]: a dict label -> probability (ZipMap output), or
    something that is not a dict (a row of a probability tensor). *)
Inductive ProbRow : Type :=
| RowDict (d : list (string * Q))
| RowArray (a : list Q).

(** [outputs[1]]: [None] or a sequence of rows. *)
Inductive ProbOut : Type :=
| ProbNone
| ProbRows (rows : list ProbRow).

(** [outputs]: the label tensor [outputs[0]] followed by the remaining
    outputs, so that [len(outputs) = 1 + length out_rest]. *)
Record Outputs : Type := mkOutputs {
  out_labels : list string;
  out_rest : list ProbOut
}.

Inductive EngineOutcome : Type :=
| EngineRaises (what : string)
| EngineReturns (outputs : Outputs).

(** An [InferenceSession]: [session_run] is what
    [run(None, {input_name: input_data})] does on a feature vector. *)
Record Session : Type := mkSession {
  input_name : string;
  session_run : list Q -> EngineOutcome
}.

(* ===================================================================== *)
(** ** Resources and tracker state *)

Record Socket : Type := mkSocket { sock_fd : nat; sock_closed : bool }.
Record Capture : Type := mkCapture { cap_opened : bool }.
Record HandsSession : Type := mkHands { hands_closed : bool }.

(** [self]. *)
Record HandTracker : Type := mkHandTracker {
  udp_ip : string;
  udp_port : Z;
  udp_video_port : option Z;
  video_fps : Q;
  video_width : Z;
  video_jpeg_quality : Z;
  camera_id : Z;
  mirror_mode : bool;
  show_window : bool;
  is_running : bool;
  current_letter : string;
  confidence : Q;
  fps : Q;
  _last_video_send_time : Q;
  hands : HandsSession;
  onnx_session : option Session;
  sock : Socket;
  cap : Capture
}.

Definition set_mirror_mode (s : HandTracker) (v : bool) : HandTracker :=
  mkHandTracker (udp_ip s) (udp_port s) (udp_video_port s) (video_fps s)
    (video_width s) (video_jpeg_quality s) (camera_id s) v (show_window s)
    (is_running s) (current_letter s) (confidence s) (fps s)
    (_last_video_send_time s) (hands s) (onnx_session s) (sock s) (cap s).

Definition set_is_running (s : HandTracker) (v : bool) : HandTracker :=
  mkHandTracker (udp_ip s) (udp_port s) (udp_video_port s) (video_fps s)
    (video_width s) (video_jpeg_quality s) (camera_id s) (mirror_mode s)
    (show_window s) v (current_letter s) (confidence s) (fps s)
    (_last_video_send_time s) (hands s) (onnx_session s) (sock s) (cap s).

Definition set_prediction (s : HandTracker) (l : string) (c : Q) : HandTracker :=
  mkHandTracker (udp_ip s) (udp_port s) (udp_video_port s) (video_fps s)
    (video_width s) (video_jpeg_quality s) (camera_id s) (mirror_mode s)
    (show_window s) (is_running s) l c (fps s)
    (_last_video_send_time s) (hands s) (onnx_session s) (sock s) (cap s).

Definition set_fps (s : HandTracker) (v : Q) : HandTracker :=
  mkHandTracker (udp_ip s) (udp_port s) (udp_video_port s) (video_fps s)
    (video_width s) (video_jpeg_quality s) (camera_id s) (mirror_mode s)
    (show_window s) (is_running s) (current_letter s) (confidence s) v
    (_last_video_send_time s) (hands s) (onnx_session s) (sock s) (cap s).

Definition set_last_video_send_time (s : HandTracker) (v : Q) : HandTracker :=
  mkHandTracker (udp_ip s) (udp_port s) (udp_video_port s) (video_fps s)
    (video_width s) (video_jpeg_quality s) (camera_id s) (mirror_mode s)
    (show_window s) (is_running s) (current_letter s) (confidence s) (fps s)
    v (hands s) (onnx_session s) (sock s) (cap s).

Definition set_resources (s : HandTracker) (h : HandsSession) (k : Socket)
    (c : Capture) : HandTracker :=
  mkHandTracker (udp_ip s) (udp_port s) (udp_video_port s) (video_fps s)
    (video_width s) (video_jpeg_quality s) (camera_id s) (mirror_mode s)
    (show_window s) (is_running s) (current_letter s) (confidence s) (fps s)
    (_last_video_send_time s) h (onnx_session s) k c.

(* ===================================================================== *)
(** ** Observable events *)

#[local] Set Warnings "-register-all".
Inductive json : Type :=
| JBool (b : bool)
| JNum (q : Q)
| JStr (s : string)
| JArr (l : list json).

(** A datagram body: the JSON text of the telemetry dict, or raw bytes. *)
Inductive Payload : Type :=
| PJson (data : list (string * json))
| PBytes (b : list byte).

Inductive Msg : Type :=
| WarnNoFrame | ErrPrediction | ErrUdp | ErrNoCamera
| InfoQuit | InfoMirror (on : bool) | InfoInterrupt
| InfoCleaning | OkReleased.

Inductive Event : Type :=
| EvSendto (fd : nat) (data : Payload) (host : string) (port : Z) (ok : bool)
| EvImshow (p : Picture)
| EvImencode (p : Picture) (quality : Z)
| EvWaitKey (key : Z)
| EvCapRelease
| EvHandsClose
| EvSockClose (fd : nat)
| EvDestroyAllWindows
| EvPrint (m : Msg).

(** Lookup of a key in the telemetry dict. *)
Fixpoint field (k : string) (d : list (string * json)) : option json :=
  match d with
  | [] => None
  | (k', v) :: r => if String.eqb k k' then Some v else field k r
  end.

(* ===================================================================== *)
(** ** The outside world during one iteration of the main loop *)

Inductive ReadOutcome : Type :=
| ReadFrame (f : Frame)       (* ret = True                              *)
| ReadFail                    (* ret = False                             *)
| ReadError (what : string)   (* cap.read() raises (device error)        *)
| ReadInterrupt.              (* KeyboardInterrupt, taken while blocked here *)

Inductive EncodeOutcome : Type :=
| EncRaises (what : string)               (* cv2.resize or cv2.imencode raises *)
| EncResult (ok : bool) (buf : list byte).

Record CycleEnv : Type := mkCycleEnv {
  env_read : ReadOutcome;        (* self.cap.read()                       *)
  env_hands : list Hand;         (* results.multi_hand_landmarks, [] if None *)
  env_t_msg : Q;                 (* time.time() in send_to_unity          *)
  env_net_ok : bool;             (* telemetry sendto does not raise       *)
  env_t_fps : Q;                 (* time.time() of the FPS update         *)
  env_t_video : Q;               (* time.time() in the preview sender     *)
  env_encode : EncodeOutcome;    (* cv2.imencode                          *)
  env_video_net_ok : bool;       (* preview sendto does not raise         *)
  env_key : Z                    (* cv2.waitKey(1)                        *)
}.

(** What [__init__] finds: the loaded model (or a load failure), whether
    the camera opens, and the descriptor the OS gives the socket. *)
Record InitEnv : Type := mkInitEnv {
  init_model : option Session;
  init_camera_opens : bool;
  init_fd : nat
}.

(** Local variables of [run] that live across iterations. *)
Record LoopVars : Type := mkLoopVars { prev_time : Q; frame_count : Z }.

(* ===================================================================== *)
(** ** Methods of [HandTracker] *)

(** [extract_landmarks]: three appends per landmark, in iteration order. *)
Definition extract_landmarks (hand_landmarks : Hand) : list Q :=
  fold_left
    (fun points lm =>
       ((points ++ [Landmark.x lm]) ++ [Landmark.y lm]) ++ [Landmark.z lm])
    (landmark hand_landmarks) [].

(** Body of the [try] block of [predict_letter]. *)
Definition predict_try (session : Session) (landmarks : list Q)
    : result (string * Q) :=
  match session_run session landmarks with
  | EngineRaises what => Raise what
  | EngineReturns outputs =>
      match out_labels outputs with
      | [] => Raise "IndexError"
      | predicted_label :: _ =>
          match out_rest outputs with
          | ProbRows rows :: _ =>
              match rows with
              | [] => Raise "IndexError"
              | RowDict probabilities :: _ =>
                  match py_max (map snd probabilities) with
                  | Some m => Ok (predicted_label, m)
                  | None => Ok (predicted_label, 0%Q)
                  end
              | RowArray _ :: _ => Ok (predicted_label, 1%Q)
              end
          | ProbNone :: _ => Ok (predicted_label, 1%Q)
          | [] => Ok (predicted_label, 1%Q)
          end
      end
  end.

(** [predict_letter]: the result and what it prints. *)
Definition predict_letter (s : HandTracker) (landmarks : list Q)
    : (string * Q) * list Event :=
  match onnx_session s with
  | None => (("?", 0%Q), [])
  | Some session =>
      match predict_try session landmarks with
      | Ok r => (r, [])
      | Raise _ => (("?", 0%Q), [EvPrint ErrPrediction])
      end
  end.

(** [self.sock.sendto(...)]: raises on a closed socket or when the
    network layer refuses the datagram. *)
Definition sendto (k : Socket) (data : Payload) (host : string) (port : Z)
    (net_ok : bool) : bool * list Event :=
  let ok := negb (sock_closed k) && net_ok in
  (ok, [EvSendto (sock_fd k) data host port ok]).

(** [send_to_unity]. *)
Definition send_to_unity (s : HandTracker) (landmarks : list Q)
    (letter : string) (confidence : Q) (hand_detected : bool)
    (now : Q) (net_ok : bool) : list Event :=
  let data :=
    [ ("hand_detected", JBool hand_detected);
      ("landmarks", JArr (if hand_detected then map JNum landmarks else []));
      ("letter", JStr letter);
      ("confidence", JNum confidence);
      ("timestamp", JNum now) ] in
  let '(ok, evs) := sendto (sock s) (PJson data) (udp_ip s) (udp_port s) net_ok in
  if ok then evs else evs ++ [EvPrint ErrUdp].

(** The resize step of the preview sender; [scale] and the product
    [frame.shape[0] * scale] are doubles. *)
Definition shrink (s : HandTracker) (frame : Picture) : Picture :=
  let '(h, w) := pic_shape frame in
  if (0 <? video_width s) && (video_width s <? w) then
    let scale := fl (inject_Z (video_width s) / inject_Z w)%Q in
    let new_h := Z.max 1 (py_int (fl (inject_Z h * scale)%Q)) in
    apply_op frame (OpResize (video_width s) new_h)
  else frame.

(** [_send_video_frame_to_unity]; the limiter compares the double
    [now - self._last_video_send_time] with the double
    [1.0 / self.video_fps]. *)
Definition _send_video_frame_to_unity (s : HandTracker) (frame_bgr : Picture)
    (now : Q) (enc : EncodeOutcome) (net_ok : bool)
    : HandTracker * list Event :=
  match udp_video_port s with
  | None => (s, [])
  | Some video_port =>
      if Qltb 0 (video_fps s)
         && Qltb (fl (now - _last_video_send_time s)) (fl (1 / video_fps s))
      then (s, [])
      else
        let frame := shrink s frame_bgr in
        let quality := np_clip (video_jpeg_quality s) 10 95 in
        let ev_enc := EvImencode frame quality in
        match enc with
        | EncRaises _ => (s, [ev_enc])
        | EncResult false _ => (s, [ev_enc])
        | EncResult true payload =>
            if Z.of_nat (List.length payload) >? 65000 then (s, [ev_enc])
            else
              let '(ok, evs) :=
                sendto (sock s) (PBytes payload) (udp_ip s) video_port net_ok in
              if ok then (set_last_video_send_time s now, ev_enc :: evs)
              else (s, ev_enc :: evs)
        end
  end.

(** [draw_overlay]: returns the caller's buffer (on which
    [draw_landmarks] draws in place) and the new display frame. *)
Definition draw_overlay (s : HandTracker) (frame : Picture)
    (hand_landmarks : option Hand) (letter : string) (confidence : Q)
    : Picture * Picture :=
  let '(h, w) := pic_shape frame in
  let frame0 :=
    match hand_landmarks with
    | Some hl => apply_op frame (OpLandmarks hl)
    | None => frame
    end in
  let has_hand := match hand_landmarks with Some _ => true | None => false end in
  let has_letter := has_hand && negb (String.eqb letter "") in
  let d1 := apply_op frame0 OpShade in
  let status_text := if has_hand then "MANO DETECTADA" else "SIN MANO" in
  let d2 := apply_op d1 (OpText (TStr status_text) 20 35) in
  let d3 :=
    if has_letter then
      apply_op (apply_op d2 (OpText (TStr (String.append "Letra: " letter)) 20 65))
               (OpText (TConf confidence) 20 95)
    else d2 in
  let d4 := apply_op d3 (OpText (TFps (fps s)) 20 120) in
  let d5 :=
    if has_letter && negb (String.eqb letter "?") then
      apply_op d4 (OpText (TStr letter) (w - 100) 80)
    else d4 in
  let d6 :=
    apply_op d5
      (OpText (TStr "Presiona 'q' para salir | 'm' para espejo") 10 (h - 15)) in
  (frame0, d6).

(** [cleanup]. The guards [if self.cap:], [if self.hands:] and
    [if self.sock:] test objects that [__init__] always creates and that
    define neither [__bool__] nor [__len__]: they are always taken. *)
Definition cleanup (s : HandTracker) : HandTracker * list Event :=
  let s1 := set_is_running s false in
  let s2 :=
    set_resources s1 (mkHands true)
      (mkSocket (sock_fd (sock s1)) true) (mkCapture false) in
  (s2, [ EvPrint InfoCleaning; EvCapRelease; EvHandsClose;
         EvSockClose (sock_fd (sock s)); EvDestroyAllWindows;
         EvPrint OkReleased ]).

(** [ord(c)]. *)
Definition ord (c : ascii) : Z := Z.of_nat (nat_of_ascii c).

(** [if self.mirror_mode: frame = cv2.flip(frame, 1)]. *)
Definition mirrored (s : HandTracker) (raw : Frame) : Frame :=
  if mirror_mode s then cv2_flip raw else raw.

(** [self.mirror_mode = not self.mirror_mode]. *)
Definition toggle_mirror (s : HandTracker) : HandTracker :=
  set_mirror_mode s (negb (mirror_mode s)).

(** How one iteration of the [while] loop ends. *)
Inductive Flow : Type :=
| FlowNext                    (* falls through or [continue] *)
| FlowBreak                   (* [break]                     *)
| FlowInterrupt               (* KeyboardInterrupt           *)
| FlowError (what : string).  (* any other exception         *)

(** The per-frame variables of the loop body. *)
Record FrameVars : Type := mkFrameVars {
  fv_hand_detected : bool;
  fv_landmarks : list Q;
  fv_letter : string;
  fv_confidence : Q;
  fv_hand_landmarks_draw : option Hand
}.

(** Detection and classification step of the loop body: the first hand
    reported, if any, is extracted and classified. *)
Definition detect (s : HandTracker) (multi_hand_landmarks : list Hand)
    : FrameVars * HandTracker * list Event :=
  match multi_hand_landmarks with
  | hand_landmarks :: _ =>
      let landmarks := extract_landmarks hand_landmarks in
      let '((letter, confidence), evs) := predict_letter s landmarks in
      (mkFrameVars true landmarks letter confidence (Some hand_landmarks),
       set_prediction s letter confidence, evs)
  | [] => (mkFrameVars false [] "" 0%Q None, s, [])
  end.

(** FPS step of the loop body. *)
Definition update_fps (s : HandTracker) (loc : LoopVars) (current_time : Q)
    : HandTracker * LoopVars :=
  let frame_count := frame_count loc + 1 in
  if Qgeb (current_time - prev_time loc) 1 then
    (set_fps s (inject_Z frame_count / (current_time - prev_time loc))%Q,
     mkLoopVars current_time 0)
  else (s, mkLoopVars (prev_time loc) frame_count).

(** Key handling of the loop body: [cv2.waitKey(1) & 0xFF], then 'q'
    leaves the loop and 'm' toggles mirror mode. *)
Definition handle_key (s : HandTracker) (waitkey : Z)
    : Flow * HandTracker * list Event :=
  let key := Z.land waitkey 255 in
  if key =? ord "q" then
    (FlowBreak, s, [EvWaitKey waitkey; EvPrint InfoQuit])
  else if key =? ord "m" then
    let s' := toggle_mirror s in
    (FlowNext, s', [EvWaitKey waitkey; EvPrint (InfoMirror (mirror_mode s'))])
  else (FlowNext, s, [EvWaitKey waitkey]).

(** One iteration of the [while self.is_running] loop of [run]. *)
Definition cycle (s : HandTracker) (loc : LoopVars) (e : CycleEnv)
    : Flow * HandTracker * LoopVars * list Event :=
  match env_read e with
  | ReadInterrupt => (FlowInterrupt, s, loc, [])
  | ReadError what => (FlowError what, s, loc, [])
  | ReadFail => (FlowNext, s, loc, [EvPrint WarnNoFrame])
  | ReadFrame raw =>
      let frame := of_frame (mirrored s raw) in
      (* rgb_frame only feeds MediaPipe, whose answer is [env_hands] *)
      let '(v, s1, ev_pred) := detect s (env_hands e) in
      let ev_tel :=
        send_to_unity s1 (fv_landmarks v) (fv_letter v) (fv_confidence v)
          (fv_hand_detected v) (env_t_msg e) (env_net_ok e) in
      let '(s2, loc2) := update_fps s1 loc (env_t_fps e) in
      if show_window s2 then
        let '(_, display_frame) :=
          draw_overlay s2 frame (fv_hand_landmarks_draw v)
            (fv_letter v) (fv_confidence v) in
        let '(s3, ev_vid) :=
          _send_video_frame_to_unity s2 display_frame (env_t_video e)
            (env_encode e) (env_video_net_ok e) in
        (FlowNext, s3, loc2,
         ev_pred ++ ev_tel ++ [EvImshow display_frame] ++ ev_vid)
      else
        let '(s3, ev_vid) :=
          _send_video_frame_to_unity s2 frame (env_t_video e)
            (env_encode e) (env_video_net_ok e) in
        let '(flow, s4, ev_key) := handle_key s3 (env_key e) in
        (flow, s4, loc2, ev_pred ++ ev_tel ++ ev_vid ++ ev_key)
  end.

(** How the [while] loop stands after the observed iterations. *)
Inductive LoopEnd : Type :=
| LoopPending                 (* still inside the loop          *)
| LoopDone                    (* condition false, or [break]    *)
| LoopInterrupted             (* left by KeyboardInterrupt      *)
| LoopRaised (what : string). (* left by another exception      *)

(** The [while self.is_running] loop over the iterations [envs]. *)
Fixpoint run_loop (s : HandTracker) (loc : LoopVars) (envs : list CycleEnv)
    : LoopEnd * HandTracker * list Event :=
  if negb (is_running s) then (LoopDone, s, [])
  else
    match envs with
    | [] => (LoopPending, s, [])
    | e :: rest =>
        match cycle s loc e with
        | (FlowNext, s', loc', evs) =>
            let '(r, s'', evs') := run_loop s' loc' rest in
            (r, s'', evs ++ evs')
        | (FlowBreak, s', _, evs) => (LoopDone, s', evs)
        | (FlowInterrupt, s', _, evs) => (LoopInterrupted, s', evs)
        | (FlowError what, s', _, evs) => (LoopRaised what, s', evs)
        end
    end.

(** How a call of [run] stands. *)
Inductive RunEnd : Type :=
| RunAborted                  (* camera unavailable: early [return] *)
| RunPending                  (* still in the loop                  *)
| RunReturned                 (* left the [try] normally            *)
| RunRaised (what : string).  (* exception re-raised after [finally] *)

(** [run]; [t0] is the clock reading that initialises [prev_time]. *)
Definition run (s : HandTracker) (t0 : Q) (envs : list CycleEnv)
    : RunEnd * HandTracker * list Event :=
  if negb (cap_opened (cap s)) then (RunAborted, s, [EvPrint ErrNoCamera])
  else
    let s1 := set_is_running s true in
    match run_loop s1 (mkLoopVars t0 0) envs with
    | (LoopPending, s2, evs) => (RunPending, s2, evs)
    | (LoopDone, s2, evs) =>
        let '(s3, evc) := cleanup s2 in (RunReturned, s3, evs ++ evc)
    | (LoopInterrupted, s2, evs) =>
        let '(s3, evc) := cleanup s2 in
        (RunReturned, s3, evs ++ [EvPrint InfoInterrupt] ++ evc)
    | (LoopRaised what, s2, evs) =>
        let '(s3, evc) := cleanup s2 in (RunRaised what, s3, evs ++ evc)
    end.

(** [__init__]: one socket, one capture handle, one MediaPipe session,
    and the ONNX session unless loading failed. *)
Definition __init__ (udp_ip : string) (udp_port : Z)
    (udp_video_port : option Z) (video_fps : Q) (video_width : Z)
    (video_jpeg_quality : Z) (camera_id : Z) (mirror_mode : bool)
    (show_window : bool) (env : InitEnv) : HandTracker :=
  mkHandTracker udp_ip udp_port udp_video_port video_fps video_width
    video_jpeg_quality camera_id mirror_mode show_window
    false "" 0%Q 0%Q 0%Q
    (mkHands false)                       (* _init_mediapipe *)
    (init_model env)                      (* _init_onnx      *)
    (mkSocket (init_fd env) false)        (* _init_socket    *)
    (mkCapture (init_camera_opens env)).  (* _init_camera    *)

(** Parsed command line. *)
Record Args : Type := mkArgs {
  arg_camera : Z;
  arg_port : Z;
  arg_video_port : Z;
  arg_no_video : bool;
  arg_video_fps : Q;
  arg_video_width : Z;
  arg_video_quality : Z;
  arg_ip : string;
  arg_no_mirror : bool;
  arg_no_window : bool
}.

Definition default_args : Args :=
  mkArgs 0 UDP_PORT UDP_VIDEO_PORT false 10%Q 320 55 UDP_IP false false.

(** [main], after argument parsing. *)
Definition main (args : Args) (ienv : InitEnv) (t0 : Q)
    (envs : list CycleEnv) : RunEnd * HandTracker * list Event :=
  let tracker :=
    __init__ (arg_ip args) (arg_port args)
      (if arg_no_video args then None else Some (arg_video_port args))
      (arg_video_fps args) (arg_video_width args) (arg_video_quality args)
      (arg_camera args) (negb (arg_no_mirror args))
      (negb (arg_no_window args)) ienv in
  run tracker t0 envs.

(* ===================================================================== *)
(** ** Vocabulary used to state the properties *)

(** The three coordinates of a keypoint, in wire order. *)
Definition xyz (lm : Landmark.t) : list Q :=
  [Landmark.x lm; Landmark.y lm; Landmark.z lm].

(** [c] is a greatest element of [values]. *)
Definition is_max (c : Q) (values : list Q) : Prop :=
  In c values /\ Forall (fun v => (v <= c)%Q) values.

(** The confidence rule, read off the engine's outputs: a dict gives its
    greatest value, or 0.0 when it is empty; a probability output that is
    not a dict, is [None], or is missing gives 1.0. *)
Definition confidence_rule (outputs : Outputs) (c : Q) : Prop :=
  match out_rest outputs with
  | ProbRows (RowDict [] :: _) :: _ => c = 0%Q
  | ProbRows (RowDict d :: _) :: _ => is_max c (map snd d)
  | ProbRows (RowArray _ :: _) :: _ => c = 1%Q
  | ProbRows [] :: _ => False
  | ProbNone :: _ => c = 1%Q
  | [] => c = 1%Q
  end.

(** The landmarks field of a telemetry dict is either empty with
    [hand_detected] false, or the 63 coordinates of 21 keypoints, point by
    point, with [hand_detected] true. *)
Definition landmarks_wellformed (d : list (string * json)) : Prop :=
  (field "hand_detected" d = Some (JBool false)
   /\ field "landmarks" d = Some (JArr []))
  \/ (exists pts : list Landmark.t,
        List.length pts = 21%nat
        /\ field "hand_detected" d = Some (JBool true)
        /\ field "landmarks" d = Some (JArr (map JNum (flat_map xyz pts)))
        /\ List.length (flat_map xyz pts) = 63%nat
        /\ forall i lm, nth_error pts i = Some lm ->
             nth_error (flat_map xyz pts) (3 * i) = Some (Landmark.x lm)
             /\ nth_error (flat_map xyz pts) (3 * i + 1) = Some (Landmark.y lm)
             /\ nth_error (flat_map xyz pts) (3 * i + 2) = Some (Landmark.z lm)).

(** Descriptors through which telemetry, resp. preview, datagrams go. *)
Fixpoint telemetry_fds (evs : list Event) : list nat :=
  match evs with
  | [] => []
  | EvSendto fd (PJson _) _ _ _ :: r => fd :: telemetry_fds r
  | _ :: r => telemetry_fds r
  end.

Fixpoint preview_fds (evs : list Event) : list nat :=
  match evs with
  | [] => []
  | EvSendto fd (PBytes _) _ _ _ :: r => fd :: preview_fds r
  | _ :: r => preview_fds r
  end.

(** Two sockets, one per channel: no descriptor carries both kinds. *)
Definition distinct_channel_sockets (evs : list Event) : Prop :=
  forall fd1 fd2,
    In fd1 (telemetry_fds evs) -> In fd2 (preview_fds evs) -> fd1 <> fd2.

Definition is_waitkey (ev : Event) : bool :=
  match ev with EvWaitKey _ => true | _ => false end.

Definition is_release (ev : Event) : bool :=
  match ev with
  | EvCapRelease | EvHandsClose | EvSockClose _ | EvDestroyAllWindows => true
  | _ => false
  end.

Definition is_print (ev : Event) : bool :=
  match ev with EvPrint _ => true | _ => false end.

(** A preview datagram was handed to the socket and accepted. *)
Definition preview_sent (ev : Event) : bool :=
  match ev with EvSendto _ (PBytes _) _ _ ok => ok | _ => false end.

(** A preview [sendto] call, accepted or not. *)
Definition is_preview_call (ev : Event) : bool :=
  match ev with EvSendto _ (PBytes _) _ _ _ => true | _ => false end.

(** The encoder was invoked. *)
Definition is_encode (ev : Event) : bool :=
  match ev with EvImencode _ _ => true | _ => false end.

(** What no step of the loop body changes: destination, preview
    settings, window flag, running flag and the acquired resources. *)
Definition wiring (s : HandTracker) :=
  (udp_ip s, udp_port s, udp_video_port s, video_fps s, video_width s,
   video_jpeg_quality s, camera_id s, show_window s, is_running s,
   hands s, onnx_session s, sock s, cap s).

(** The paths through one iteration, as a relation between the state
    before, the answers of the outside world and the outcome. *)
Inductive CycleCase (s : HandTracker) (loc : LoopVars) (e : CycleEnv)
    : Flow * HandTracker * LoopVars * list Event -> Prop :=
| CaseInterrupt :
    env_read e = ReadInterrupt ->
    CycleCase s loc e (FlowInterrupt, s, loc, [])
| CaseError (what : string) :
    env_read e = ReadError what ->
    CycleCase s loc e (FlowError what, s, loc, [])
| CaseNoFrame :
    env_read e = ReadFail ->
    CycleCase s loc e (FlowNext, s, loc, [EvPrint WarnNoFrame])
| CaseWindow raw v s1 ev_pred s2 loc2 buf display s3 ev_vid :
    env_read e = ReadFrame raw ->
    detect s (env_hands e) = (v, s1, ev_pred) ->
    update_fps s1 loc (env_t_fps e) = (s2, loc2) ->
    show_window s2 = true ->
    draw_overlay s2 (of_frame (mirrored s raw)) (fv_hand_landmarks_draw v)
      (fv_letter v) (fv_confidence v) = (buf, display) ->
    _send_video_frame_to_unity s2 display (env_t_video e) (env_encode e)
      (env_video_net_ok e) = (s3, ev_vid) ->
    CycleCase s loc e
      (FlowNext, s3, loc2,
       ev_pred
       ++ send_to_unity s1 (fv_landmarks v) (fv_letter v) (fv_confidence v)
            (fv_hand_detected v) (env_t_msg e) (env_net_ok e)
       ++ [EvImshow display] ++ ev_vid)
| CaseHeadless raw v s1 ev_pred s2 loc2 s3 ev_vid flow s4 ev_key :
    env_read e = ReadFrame raw ->
    detect s (env_hands e) = (v, s1, ev_pred) ->
    update_fps s1 loc (env_t_fps e) = (s2, loc2) ->
    show_window s2 = false ->
    _send_video_frame_to_unity s2 (of_frame (mirrored s raw)) (env_t_video e)
      (env_encode e) (env_video_net_ok e) = (s3, ev_vid) ->
    handle_key s3 (env_key e) = (flow, s4, ev_key) ->
    CycleCase s loc e
      (flow, s4, loc2,
       ev_pred
       ++ send_to_unity s1 (fv_landmarks v) (fv_letter v) (fv_confidence v)
            (fv_hand_detected v) (env_t_msg e) (env_net_ok e)
       ++ ev_vid ++ ev_key).

(** What every datagram of a tracker wired like [s] looks like: it goes
    through the socket of [s] to the host of [s]; JSON goes to the
    telemetry port, raw bytes go to the preview port and are at most
    65000 bytes long. *)
Definition datagram_ok (s : HandTracker) (ev : Event) : Prop :=
  match ev with
  | EvSendto fd (PJson _) host port _ =>
      fd = sock_fd (sock s) /\ host = udp_ip s /\ port = udp_port s
  | EvSendto fd (PBytes b) host port _ =>
      fd = sock_fd (sock s) /\ host = udp_ip s
      /\ udp_video_port s = Some port
      /\ Z.of_nat (List.length b) <= 65000
  | _ => True
  end.

(** Every telemetry datagram of the event, if it is one, is well formed. *)
Definition telemetry_ok (ev : Event) : Prop :=
  match ev with
  | EvSendto _ (PJson d) _ _ _ => landmarks_wellformed d
  | _ => True
  end.

(** Anything the preview sender does that can be observed. *)
Definition is_preview_effect (ev : Event) : bool :=
  is_encode ev || is_preview_call ev.

(** Components of the outcome of an iteration. *)
Definition flow_of (r : Flow * HandTracker * LoopVars * list Event) : Flow :=
  let '(flow, _, _, _) := r in flow.

Definition state_of (r : Flow * HandTracker * LoopVars * list Event)
    : HandTracker :=
  let '(_, s, _, _) := r in s.

Definition events_of (r : Flow * HandTracker * LoopVars * list Event)
    : list Event :=
  let '(_, _, _, evs) := r in evs.

(** The display frame is the acquired frame with the overlay drawn on
    it: shaded box, status line, FPS line, and the landmarks of the hand
    when there is one. *)
Definition annotated (hs : list Hand) (display : Picture) : Prop :=
  In OpShade (ops display)
  /\ (exists status, In (OpText (TStr status) 20 35) (ops display))
  /\ (exists f, In (OpText (TFps f) 20 120) (ops display))
  /\ match hs with
     | h :: _ => In (OpLandmarks h) (ops display)
     | [] => True
     end.

(** Console lines and resource releases. *)
Definition housekeeping (ev : Event) : bool := is_release ev || is_print ev.

(* ===================================================================== *)
(** ** Sample inputs *)

Module Sample.

Definition frame : Frame :=
  [ [ (1, 2, 3); (4, 5, 6); (7, 8, 9) ];
    [ (10, 11, 12); (13, 14, 15); (16, 17, 18) ] ].

(** 21 keypoints, the i-th at (i/100, i/50, -i/200). *)
Definition hand : Hand :=
  mkHand
    (map (fun n : nat =>
            let i := Z.of_nat n in
            Landmark.mk (Qmake i 100) (Qmake i 50) (Qmake (- i) 200))
         (seq 0 21)).

(** A model that answers "A" with a ZipMap of probabilities. *)
Definition session_A : Session :=
  mkSession "float_input"
    (fun _ =>
       EngineReturns
         (mkOutputs ["A"]
            [ProbRows [RowDict [("A", 0.92%Q); ("B", 0.05%Q); ("C", 0.03%Q)]]])).

(** A model whose execution always throws. *)
Definition session_broken : Session :=
  mkSession "float_input" (fun _ => EngineRaises "InvalidArgument").

Definition ienv : InitEnv := mkInitEnv (Some session_A) true 3.
Definition ienv_no_model : InitEnv := mkInitEnv None true 3.
Definition ienv_no_camera : InitEnv := mkInitEnv (Some session_A) false 3.

(** The tracker that [main] builds from the default command line. *)
Definition tracker (show : bool) (env : InitEnv) : HandTracker :=
  __init__ UDP_IP UDP_PORT (Some UDP_VIDEO_PORT) 10%Q 320 55 0 true show env.

Definition jpeg : list byte := [xff; xd8; xff; xe0; xff; xd9].

(** An iteration at clock [t]: a frame is read, one hand is found, the
    encoder answers [enc], the network accepts both datagrams and
    [cv2.waitKey] would answer [key]. *)
Definition env (t : Q) (enc : EncodeOutcome) (key : Z) : CycleEnv :=
  mkCycleEnv (ReadFrame frame) [hand] t true t t enc true key.

(** The same with no hand in view. *)
Definition env_no_hand (t : Q) (enc : EncodeOutcome) (key : Z) : CycleEnv :=
  mkCycleEnv (ReadFrame frame) [] t true t t enc true key.

Definition big_jpeg : list byte := repeat x00 (Z.to_nat 65001).

(** A tracker started with [--video-fps 0]: no rate limit. *)
Definition tracker_unlimited : HandTracker :=
  __init__ UDP_IP UDP_PORT (Some UDP_VIDEO_PORT) 0%Q 320 55 0 true true ienv.

Definition loc0 : LoopVars := mkLoopVars 0%Q 0.

(** The pictures handed to the JPEG encoder, in order. *)
Definition pictures_encoded (evs : list Event) : list Picture :=
  flat_map
    (fun ev => match ev with EvImencode p _ => [p] | _ => [] end) evs.

(** An iteration at clock 100 in which [cv2.waitKey] would report the
    key [c]. *)
Definition press (c : ascii) : CycleEnv :=
  env 100%Q (EncResult true jpeg) (ord c).

(** A tracker whose model failed to load, and one whose model throws. *)
Definition tracker_no_model : HandTracker := tracker true ienv_no_model.
Definition tracker_broken : HandTracker :=
  tracker true (mkInitEnv (Some session_broken) true 3).

End Sample.

(* ===================================================================== *)
(** ** The remaining method, and observers of a run *)

(** [range(0, n, 3)]: the multiples of 3 below [n]. *)
Definition range3 (n : nat) : list nat :=
  map (fun k => (3 * k)%nat) (seq 0 ((n + 2) / 3)).

(** [landmarks_to_vectors]: one tuple per index of [range(0, len, 3)];
    an index past the end raises [IndexError]. *)
Definition landmarks_to_vectors (landmarks : list Q)
    : result (list (Q * Q * Q)) :=
  fold_left
    (fun vectors i =>
       match vectors with
       | Raise what => Raise what
       | Ok vs =>
           match nth_error landmarks i,
                 nth_error landmarks (i + 1),
                 nth_error landmarks (i + 2) with
           | Some a, Some b, Some c => Ok (vs ++ [(a, b, c)])
           | _, _, _ => Raise "IndexError"
           end
       end)
    (range3 (List.length landmarks)) (Ok []).

(** A keypoint as the tuple [(x, y, z)], and a tuple laid out flat. *)
Definition point (lm : Landmark.t) : Q * Q * Q :=
  (Landmark.x lm, Landmark.y lm, Landmark.z lm).

Definition flat3 (v : Q * Q * Q) : list Q :=
  let '(a, b, c) := v in [a; b; c].

(** Reading three values at a time off the front of a list. *)
Fixpoint chunks3 (l : list Q) : result (list (Q * Q * Q)) :=
  match l with
  | [] => Ok []
  | a :: b :: c :: rest =>
      match chunks3 rest with
      | Ok vs => Ok ((a, b, c) :: vs)
      | Raise what => Raise what
      end
  | _ => Raise "IndexError"
  end.

(** The camera delivered a frame. *)
Definition is_frame (r : ReadOutcome) : bool :=
  match r with ReadFrame _ => true | _ => false end.

Definition frames_read (envs : list CycleEnv) : nat :=
  List.length (filter (fun e => is_frame (env_read e)) envs).

(** Clock readings of the iterations of the loop in which a preview
    datagram was accepted by the socket, in order. *)
Fixpoint accepted_times (s : HandTracker) (loc : LoopVars)
    (envs : list CycleEnv) : list Q :=
  if negb (is_running s) then []
  else
    match envs with
    | [] => []
    | e :: rest =>
        let '(flow, s', loc', evs) := cycle s loc e in
        (if existsb preview_sent evs then [env_t_video e] else [])
        ++ match flow with
           | FlowNext => accepted_times s' loc' rest
           | _ => []
           end
    end.

(** Every element passes the limiter's test against the one before it,
    the first one against [t]: the double [t' - t] is not below the double
    [gap], so that the exact [t' - t] falls short of the exact [gap] by
    rounding error at most. *)
Fixpoint spaced (gap : Q) (t : Q) (times : list Q) : Prop :=
  match times with
  | [] => True
  | t' :: rest =>
      ((fl gap <= fl (t' - t))%Q
       /\ (gap * (1 - 2 ^ (-52)) - 2 ^ (-1073) <= t' - t)%Q)
      /\ spaced gap t' rest
  end.

(** The quality handed to the encoder lies in the JPEG range and is the
    configured one clamped. *)
Definition quality_ok (s : HandTracker) (ev : Event) : Prop :=
  match ev with
  | EvImencode _ q =>
      10 <= q <= 95 /\ q = np_clip (video_jpeg_quality s) 10 95
  | _ => True
  end.

(** Letter and confidence of a telemetry dict when the model is missing:
    the defaults without a hand, the sentinel with one. *)
Definition degraded_telemetry (ev : Event) : Prop :=
  match ev with
  | EvSendto _ (PJson d) _ _ _ =>
      field "confidence" d = Some (JNum 0%Q)
      /\ ((field "hand_detected" d = Some (JBool false)
           /\ field "letter" d = Some (JStr ""))
          \/ (field "hand_detected" d = Some (JBool true)
              /\ field "letter" d = Some (JStr "?")))
  | _ => True
  end.

Module Scenario.

(** The default tracker started with [--no-video]. *)
Definition tracker_no_video : HandTracker :=
  __init__ UDP_IP UDP_PORT None 10%Q 320 55 0 true true Sample.ienv.

(** An iteration in which the camera read fails. *)
Definition env_read_fails : CycleEnv :=
  mkCycleEnv ReadFail [] 100%Q true 100%Q 100%Q (EncRaises "unused") true (-1).

(** An iteration in which the camera read raises. *)
Definition env_read_raises : CycleEnv :=
  mkCycleEnv (ReadError "cv2.error") [] 100%Q true 100%Q 100%Q
    (EncRaises "unused") true (-1).

(** An iteration interrupted from the keyboard. *)
Definition env_interrupt : CycleEnv :=
  mkCycleEnv ReadInterrupt [] 100%Q true 100%Q 100%Q
    (EncRaises "unused") true (-1).

(** The default tracker started with [--video-fps 3]. *)
Definition tracker_3fps : HandTracker :=
  __init__ UDP_IP UDP_PORT (Some UDP_VIDEO_PORT) 3%Q 320 55 0 true true
    Sample.ienv.

(** The double [0.3333333333333333], just below one third. *)
Definition third : Q := 6004799503160661 # 18014398509481984.

(** An iteration whose clock readings are that double. *)
Definition env_third : CycleEnv :=
  Sample.env third (EncResult true Sample.jpeg) (-1).

(** A tracker started with [--no-video --video-fps 0]. *)
Definition tracker_no_video_unlimited : HandTracker :=
  __init__ UDP_IP UDP_PORT None 0%Q 320 55 0 true true Sample.ienv.

(** The default tracker started with [--video-width 328], and a picture
    of 640 x 480 pixels. *)
Definition tracker_w328 : HandTracker :=
  __init__ UDP_IP UDP_PORT (Some UDP_VIDEO_PORT) 10%Q 328 55 0 true true
    Sample.ienv.

Definition vga : Picture :=
  apply_op (of_frame Sample.frame) (OpResize 640 480).

End Scenario.

(* ===================================================================== *)
(** * Properties *)

(** ** Rounding to double *)

Lemma rne_bounds (y : Q) : Qfloor y <= rne y <= Qfloor y + 1.
Proof.
  unfold rne. destruct (_ ?= _)%Q; [destruct (Z.even _)| |]; lia.
Qed.

Lemma rne_mono (y1 y2 : Q) : (y1 <= y2)%Q -> rne y1 <= rne y2.
Proof.
  intro H. pose proof (Qfloor_resp_le _ _ H) as Hf.
  destruct (Z.eq_dec (Qfloor y1) (Qfloor y2)) as [E | N].
  - unfold rne. rewrite <- E.
    destruct (y1 - inject_Z (Qfloor y1) ?= 1 # 2)%Q eqn:C1;
      destruct (y2 - inject_Z (Qfloor y1) ?= 1 # 2)%Q eqn:C2;
      try (destruct (Z.even (Qfloor y1))); try lia; exfalso;
      repeat match goal with
             | C : (_ ?= _)%Q = Eq |- _ => apply Qeq_alt in C
             | C : (_ ?= _)%Q = Lt |- _ => apply Qlt_alt in C
             | C : (_ ?= _)%Q = Gt |- _ => apply Qgt_alt in C
             end; lra.
  - pose proof (rne_bounds y1). pose proof (rne_bounds y2). lia.
Qed.

Lemma rne_comp (y1 y2 : Q) : (y1 == y2)%Q -> rne y1 = rne y2.
Proof.
  intro H. apply Z.le_antisymm; apply rne_mono; rewrite H; apply Qle_refl.
Qed.

Lemma rne_Z (z : Z) : rne (inject_Z z) = z.
Proof.
  unfold rne. rewrite Qfloor_Z.
  replace (inject_Z z - inject_Z z ?= 1 # 2)%Q with Lt; [reflexivity|].
  symmetry. rewrite <- Qlt_alt. lra.
Qed.

Lemma pow2_pos (x : Z) : (0 < 2 ^ x)%Q.
Proof. apply Qpower_0_lt. reflexivity. Qed.

Lemma pow2_le (x y : Z) : x <= y -> (2 ^ x <= 2 ^ y)%Q.
Proof. intro H. apply Qpower_le_compat_l; [exact H | discriminate]. Qed.

Lemma pow2_add (x y : Z) : (2 ^ (x + y) == 2 ^ x * 2 ^ y)%Q.
Proof. apply Qpower_plus. discriminate. Qed.

Lemma pow2_Z (n : Z) : 0 <= n -> (inject_Z (2 ^ n) == 2 ^ n)%Q.
Proof. intro H. now rewrite Zpower_Qpower. Qed.

Lemma grid_mono (x : Z) (q1 q2 : Q) : (q1 <= q2)%Q -> (grid x q1 <= grid x q2)%Q.
Proof.
  intro H. unfold grid. apply Qmult_le_compat_r; [|apply Qlt_le_weak, pow2_pos].
  rewrite <- Zle_Qle. apply rne_mono.
  apply Qmult_le_compat_r; [exact H|].
  apply Qlt_le_weak, Qinv_lt_0_compat, pow2_pos.
Qed.

Lemma grid_fix (x e : Z) : x <= e -> (grid x (2 ^ e) == 2 ^ e)%Q.
Proof.
  intro H. unfold grid.
  assert (E : (2 ^ e / 2 ^ x == inject_Z (2 ^ (e - x)))%Q).
  { rewrite pow2_Z by lia. replace e with ((e - x) + x) at 1 by lia.
    rewrite pow2_add. field. apply Qnot_eq_sym, Qlt_not_eq, pow2_pos. }
  rewrite (rne_comp _ _ E), rne_Z, pow2_Z by lia.
  rewrite <- pow2_add. now replace (e - x + x) with e by lia.
Qed.

Lemma grid_0 (x : Z) (q : Q) : (q == 0)%Q -> (grid x q == 0)%Q.
Proof.
  intro H. unfold grid.
  assert (E : (q / 2 ^ x == inject_Z 0)%Q).
  { rewrite H. field. apply Qnot_eq_sym, Qlt_not_eq, pow2_pos. }
  rewrite (rne_comp _ _ E), rne_Z. apply Qmult_0_l.
Qed.

Lemma ilog2_spec (q : Q) :
  (0 < q)%Q -> (2 ^ ilog2 q <= q)%Q /\ (q < 2 ^ (ilog2 q + 1))%Q.
Proof.
  intro Hq. destruct q as [n d].
  assert (Hn : 0 < n) by (unfold Qlt in Hq; simpl in Hq; lia).
  unfold ilog2. cbn [Qnum Qden].
  set (a := Z.log2 n). set (b := Z.log2 (Zpos d)).
  assert (Ha : 0 <= a) by apply Z.log2_nonneg.
  assert (Hb : 0 <= b) by apply Z.log2_nonneg.
  destruct (Z.log2_spec n Hn) as [Ha1 Ha2]. fold a in Ha1, Ha2.
  destruct (Z.log2_spec (Zpos d) ltac:(lia)) as [Hb1 Hb2]. fold b in Hb1, Hb2.
  assert (Qa1 : (2 ^ a <= inject_Z n)%Q)
    by (rewrite <- pow2_Z by lia; now rewrite <- Zle_Qle).
  assert (Qa2 : (inject_Z n < 2 ^ (a + 1))%Q).
  { rewrite <- pow2_Z by lia. rewrite <- Zlt_Qlt.
    now replace (a + 1) with (Z.succ a) by lia. }
  assert (Qb1 : (2 ^ b <= inject_Z (Zpos d))%Q)
    by (rewrite <- pow2_Z by lia; now rewrite <- Zle_Qle).
  assert (Qb2 : (inject_Z (Zpos d) < 2 ^ (b + 1))%Q).
  { rewrite <- pow2_Z by lia. rewrite <- Zlt_Qlt.
    now replace (b + 1) with (Z.succ b) by lia. }
  assert (Hd : (0 < inject_Z (Zpos d))%Q) by (rewrite <- (Zlt_Qlt 0); lia).
  assert (Eq : (n # d == inject_Z n / inject_Z (Zpos d))%Q) by apply Qmake_Qdiv.
  assert (Hup : (n # d < 2 ^ (a - b + 1))%Q).
  { rewrite Eq. apply Qlt_shift_div_r; [exact Hd|].
    eapply Qlt_le_trans; [exact Qa2|].
    replace (a + 1) with ((a - b + 1) + b) by lia. rewrite pow2_add.
    apply Qmult_le_l; [apply pow2_pos | exact Qb1]. }
  assert (Hlo : (2 ^ (a - b - 1) < n # d)%Q).
  { rewrite Eq. apply Qlt_shift_div_l; [exact Hd|].
    eapply Qlt_le_trans; [|exact Qa1].
    replace a with ((a - b - 1) + (b + 1)) at 2 by lia. rewrite pow2_add.
    apply Qmult_lt_l; [apply pow2_pos | exact Qb2]. }
  destruct (Qle_bool (2 ^ (a - b)) (n # d)) eqn:C.
  - apply Qle_bool_iff in C. split; assumption.
  - split; [apply Qlt_le_weak, Hlo|].
    replace (a - b - 1 + 1) with (a - b) by lia.
    apply Qnot_le_lt. intro H. apply Qle_bool_iff in H. congruence.
Qed.

Lemma ilog2_mono (q1 q2 : Q) :
  (0 < q1)%Q -> (q1 <= q2)%Q -> ilog2 q1 <= ilog2 q2.
Proof.
  intros H1 H12.
  destruct (ilog2_spec q1 H1) as [L1 _].
  destruct (ilog2_spec q2 ltac:(lra)) as [_ U2].
  destruct (Z_lt_le_dec (ilog2 q2) (ilog2 q1)) as [Hlt | Hle]; [|exact Hle].
  exfalso. pose proof (pow2_le (ilog2 q2 + 1) (ilog2 q1) ltac:(lia)). lra.
Qed.

Lemma flpos_mono (q1 q2 : Q) :
  (0 <= q1)%Q -> (q1 <= q2)%Q ->
  (grid (ulp_exp q1) q1 <= grid (ulp_exp q2) q2)%Q.
Proof.
  intros H1 H12.
  destruct (Qlt_le_dec 0 q1) as [Hpos | Hzero].
  - pose proof (ilog2_mono q1 q2 Hpos H12) as He.
    destruct (ilog2_spec q1 Hpos) as [_ U1].
    destruct (ilog2_spec q2 ltac:(lra)) as [L2 _].
    unfold ulp_exp.
    destruct (Z.eq_dec (Z.max (ilog2 q1 - 52) (-1074))
                       (Z.max (ilog2 q2 - 52) (-1074))) as [E | N].
    + rewrite E. now apply grid_mono.
    + assert (Hlt : ilog2 q1 < ilog2 q2) by lia.
      pose proof (pow2_le (ilog2 q1 + 1) (ilog2 q2) ltac:(lia)) as Hb.
      apply Qle_trans with (2 ^ ilog2 q2)%Q.
      * rewrite <- (grid_fix (Z.max (ilog2 q1 - 52) (-1074)) (ilog2 q2)) by lia.
        apply grid_mono. lra.
      * rewrite <- (grid_fix (Z.max (ilog2 q2 - 52) (-1074)) (ilog2 q2)) at 1
          by lia.
        apply grid_mono. exact L2.
  - assert (E : (q1 == 0)%Q) by lra.
    rewrite (grid_0 _ _ E).
    rewrite <- (grid_0 (ulp_exp q2) 0 ltac:(reflexivity)).
    apply grid_mono. lra.
Qed.

Lemma fl_mono (q1 q2 : Q) : (q1 <= q2)%Q -> (fl q1 <= fl q2)%Q.
Proof.
  intro H. unfold fl.
  destruct (Qle_bool 0 q1) eqn:C1; destruct (Qle_bool 0 q2) eqn:C2.
  - apply Qle_bool_iff in C1. now apply flpos_mono.
  - apply Qle_bool_iff in C1.
    assert (~ (0 <= q2)%Q) by (intro A; apply Qle_bool_iff in A; congruence).
    lra.
  - apply Qle_bool_iff in C2.
    assert (N1 : ~ (0 <= q1)%Q) by (intro A; apply Qle_bool_iff in A; congruence).
    pose proof (flpos_mono 0 (- q1) ltac:(lra) ltac:(lra)) as A.
    pose proof (flpos_mono 0 q2 ltac:(lra) C2) as B.
    rewrite (grid_0 (ulp_exp 0) 0 ltac:(reflexivity)) in A, B. lra.
  - assert (N1 : ~ (0 <= q1)%Q) by (intro A; apply Qle_bool_iff in A; congruence).
    assert (N2 : ~ (0 <= q2)%Q) by (intro A; apply Qle_bool_iff in A; congruence).
    pose proof (flpos_mono (- q2) (- q1) ltac:(lra) ltac:(lra)). lra.
Qed.

Lemma fl_comp (q1 q2 : Q) : (q1 == q2)%Q -> (fl q1 == fl q2)%Q.
Proof.
  intro H. apply Qle_antisym; apply fl_mono; rewrite H; apply Qle_refl.
Qed.

Lemma fl_0 : (fl 0 == 0)%Q.
Proof. reflexivity. Qed.

Lemma rne_err (y : Q) :
  (y - (1 # 2) <= inject_Z (rne y))%Q /\ (inject_Z (rne y) <= y + (1 # 2))%Q.
Proof.
  pose proof (Qfloor_le y) as Hlo. pose proof (Qlt_floor y) as Hhi.
  rewrite inject_Z_plus in Hhi.
  unfold rne.
  destruct (y - inject_Z (Qfloor y) ?= 1 # 2)%Q eqn:C;
    [apply Qeq_alt in C | apply Qlt_alt in C | apply Qgt_alt in C];
    try destruct (Z.even (Qfloor y)); rewrite ?inject_Z_plus;
    change (inject_Z 1) with 1%Q in *; split; lra.
Qed.

Lemma grid_err (x : Z) (q : Q) :
  (q - (1 # 2) * 2 ^ x <= grid x q)%Q /\ (grid x q <= q + (1 # 2) * 2 ^ x)%Q.
Proof.
  pose proof (pow2_pos x) as Hp.
  destruct (rne_err (q / 2 ^ x)) as [A B].
  unfold grid.
  assert (E : (q == q / 2 ^ x * 2 ^ x)%Q)
    by (field; apply Qnot_eq_sym, Qlt_not_eq, Hp).
  apply (Qmult_le_compat_r _ _ (2 ^ x)) in A; [|lra].
  apply (Qmult_le_compat_r _ _ (2 ^ x)) in B; [|lra].
  set (R := inject_Z (rne (q / 2 ^ x))) in *.
  set (y := (q / 2 ^ x)%Q) in *. set (p := (2 ^ x)%Q) in *.
  split; lra.
Qed.

Lemma ulp_bound (q : Q) :
  (0 < q)%Q -> (2 ^ ulp_exp q <= q * 2 ^ (-52) + 2 ^ (-1074))%Q.
Proof.
  intro Hq. destruct (ilog2_spec q Hq) as [L _].
  pose proof (pow2_pos (-52)) as H52. pose proof (pow2_pos (-1074)) as Hm.
  assert (0 <= q * 2 ^ (-52))%Q by (apply Qmult_le_0_compat; lra).
  unfold ulp_exp.
  destruct (Z.max_spec (ilog2 q - 52) (-1074)) as [[_ ->] | [_ ->]].
  - lra.
  - replace (ilog2 q - 52) with (ilog2 q + (-52)) by lia. rewrite pow2_add.
    apply (Qmult_le_compat_r _ _ (2 ^ (-52))) in L; lra.
Qed.

Lemma flpos_err (q : Q) :
  (0 <= q)%Q ->
  (q - (q * 2 ^ (-53) + 2 ^ (-1075)) <= grid (ulp_exp q) q)%Q
  /\ (grid (ulp_exp q) q <= q + (q * 2 ^ (-53) + 2 ^ (-1075)))%Q.
Proof.
  intro Hq.
  assert (E1 : (2 ^ (-52) == 2 * 2 ^ (-53))%Q) by reflexivity.
  assert (E2 : (2 ^ (-1074) == 2 * 2 ^ (-1075))%Q) by (vm_compute; reflexivity).
  pose proof (pow2_pos (-1075)) as Hm.
  destruct (Qlt_le_dec 0 q) as [Hpos | Hz].
  - pose proof (ulp_bound q Hpos) as U. rewrite E1, E2 in U.
    destruct (grid_err (ulp_exp q) q) as [A B].
    set (u := (2 ^ (-53))%Q) in *. set (m := (2 ^ (-1075))%Q) in *.
    set (p := (2 ^ ulp_exp q)%Q) in *.
    split; lra.
  - assert (E : (q == 0)%Q) by lra.
    rewrite (grid_0 _ _ E). rewrite E. split; lra.
Qed.

Lemma fl_sign (q : Q) :
  ((0 <= q)%Q -> (0 <= fl q)%Q) /\ ((q <= 0)%Q -> (fl q <= 0)%Q).
Proof.
  split; intro H.
  - rewrite <- fl_0. apply (fl_mono 0 q H).
  - rewrite <- fl_0. apply (fl_mono q 0 H).
Qed.

(** If the double test [fl e < fl g] fails, the exact [e] falls short of
    the exact [g] by rounding error only. *)
Lemma gate_tolerance (g e : Q) :
  (0 < g)%Q -> (fl g <= fl e)%Q ->
  (g * (1 - 2 ^ (-52)) - 2 ^ (-1073) <= e)%Q.
Proof.
  intros Hg Hfl.
  assert (E1 : (2 ^ (-52) == 2 * 2 ^ (-53))%Q) by reflexivity.
  assert (E2 : (2 ^ (-1073) == 4 * 2 ^ (-1075))%Q) by (vm_compute; reflexivity).
  assert (Hu2 : (2 ^ (-53) <= 1 # 2)%Q) by (vm_compute; discriminate).
  pose proof (pow2_pos (-53)) as Hu. pose proof (pow2_pos (-1075)) as Hm.
  rewrite E1, E2.
  assert (Gu : (0 <= g * 2 ^ (-53))%Q) by (apply Qmult_le_0_compat; lra).
  assert (Gu2 : (g * 2 ^ (-53) <= g * (1 # 2))%Q)
    by (apply Qmult_le_l; lra).
  assert (Fg : (g - (g * 2 ^ (-53) + 2 ^ (-1075)) <= fl g)%Q).
  { unfold fl. destruct (Qle_bool 0 g) eqn:C.
    - apply flpos_err. lra.
    - exfalso. assert (A : (0 <= g)%Q) by lra.
      apply Qle_bool_iff in A. congruence. }
  destruct (Qlt_le_dec e g) as [Hlt | Hge]; [|lra].
  destruct (Qlt_le_dec e 0) as [Hneg | Hnn].
  - pose proof (proj2 (fl_sign e) ltac:(lra)) as Fe0.
    assert (Fe : (fl e <= e - e * 2 ^ (-53) + 2 ^ (-1075))%Q).
    { unfold fl. destruct (Qle_bool 0 e) eqn:C.
      - apply Qle_bool_iff in C. lra.
      - destruct (flpos_err (- e) ltac:(lra)) as [A _]. lra. }
    assert (Eu : (- e * 2 ^ (-53) <= - e * (1 # 2))%Q)
      by (apply Qmult_le_l; lra).
    set (u := (2 ^ (-53))%Q) in *. set (m := (2 ^ (-1075))%Q) in *.
    lra.
  - assert (Fe : (fl e <= e + (e * 2 ^ (-53) + 2 ^ (-1075)))%Q).
    { unfold fl. destruct (Qle_bool 0 e) eqn:C.
      - apply flpos_err. exact Hnn.
      - exfalso. apply Qle_bool_iff in Hnn. congruence. }
    assert (Eu : (e * 2 ^ (-53) <= g * 2 ^ (-53))%Q)
      by (apply Qmult_le_compat_r; lra).
    set (u := (2 ^ (-53))%Q) in *. set (m := (2 ^ (-1075))%Q) in *.
    lra.
Qed.


(** [1.0 / 3] and [0.1] as Python prints them in full:
    [Fraction(1 / 3)] and [Fraction(0.1)]. *)
Example fl_third : (fl (1 # 3) == Scenario.third)%Q.
Proof. vm_compute. reflexivity. Qed.

Example fl_tenth :
  (fl (1 # 10) == 3602879701896397 # 36028797018963968)%Q.
Proof. vm_compute. reflexivity. Qed.

(** Ties go to the even significand: [float(2**53 + 1)] is [2**53] and
    [float(2**53 + 3)] is [2**53 + 4]. *)
Example fl_ties :
  (fl (inject_Z (2 ^ 53 + 1)) == inject_Z (2 ^ 53))%Q
  /\ (fl (inject_Z (2 ^ 53 + 3)) == inject_Z (2 ^ 53 + 4))%Q.
Proof. split; vm_compute; reflexivity. Qed.

(** ** Comparisons on floats *)

Lemma Qltb_true (a b : Q) : Qltb a b = true <-> (a < b)%Q.
Proof.
  unfold Qltb. rewrite negb_true_iff. split; intro H.
  - apply Qnot_le_lt. intro Hle. apply Qle_bool_iff in Hle. congruence.
  - destruct (Qle_bool b a) eqn:E; [|reflexivity].
    apply Qle_bool_iff in E. exfalso. exact (Qlt_not_le _ _ H E).
Qed.

Lemma Qltb_false (a b : Q) : Qltb a b = false <-> (b <= a)%Q.
Proof.
  unfold Qltb. rewrite negb_false_iff. apply Qle_bool_iff.
Qed.

(** ** [max] *)

Lemma fold_max_ge (rest : list Q) : forall v,
  (v <= fold_left (fun m w => if Qltb m w then w else m) rest v)%Q.
Proof.
  induction rest as [|w rest IH]; intro v; simpl.
  - apply Qle_refl.
  - destruct (Qltb v w) eqn:E.
    + apply Qltb_true in E. eapply Qle_trans; [apply Qlt_le_weak, E | apply IH].
    + apply IH.
Qed.

Lemma fold_max_in (rest : list Q) : forall v,
  In (fold_left (fun m w => if Qltb m w then w else m) rest v) (v :: rest).
Proof.
  induction rest as [|w rest IH]; intro v.
  - now left.
  - cbn [fold_left]. destruct (Qltb v w).
    + destruct (IH w) as [H|H]; [right; left; exact H | right; right; exact H].
    + destruct (IH v) as [H|H]; [left; exact H | right; right; exact H].
Qed.

Lemma fold_max_upper (rest : list Q) : forall v,
  Forall (fun u => (u <= fold_left (fun m w => if Qltb m w then w else m) rest v)%Q)
         rest.
Proof.
  induction rest as [|w rest IH]; intro v; simpl; constructor.
  - destruct (Qltb v w) eqn:E.
    + apply fold_max_ge.
    + apply Qltb_false in E. eapply Qle_trans; [exact E | apply fold_max_ge].
  - apply IH.
Qed.

Lemma py_max_is_max (values : list Q) (m : Q) :
  py_max values = Some m -> is_max m values.
Proof.
  destruct values as [|v rest]; simpl; [discriminate|].
  intro H. injection H as <-. split.
  - apply fold_max_in.
  - constructor; [apply fold_max_ge | apply fold_max_upper].
Qed.

Lemma py_max_none (values : list Q) : py_max values = None <-> values = [].
Proof.
  destruct values; simpl; split; intro H; congruence.
Qed.

(** ** Mirror mode *)

Lemma cv2_flip_involutive (f : Frame) : cv2_flip (cv2_flip f) = f.
Proof.
  unfold cv2_flip. rewrite map_map.
  induction f as [|row f IH]; simpl; [reflexivity|].
  now rewrite rev_involutive, IH.
Qed.

Lemma cv2_flip_shape (f : Frame) :
  List.length (cv2_flip f) = List.length f
  /\ Forall2 (fun r r' => List.length r' = List.length r) f (cv2_flip f).
Proof.
  unfold cv2_flip. split; [apply length_map|].
  induction f as [|row f IH]; simpl; constructor; auto using length_rev.
Qed.

(** [cv2.flip(frame, 1)] keeps every row in place and of the same
    length, and the pixel at column [j] of the flipped row is the pixel at
    column [len - 1 - j] of the original row. *)
Lemma cv2_flip_pixels (f : Frame) (i : nat) (row : list Pixel) :
  nth_error f i = Some row ->
  exists row',
    nth_error (cv2_flip f) i = Some row'
    /\ List.length row' = List.length row
    /\ forall j, (j < List.length row)%nat ->
         nth_error row' j = nth_error row (List.length row - 1 - j)%nat.
Proof.
  intro H. exists (rev row). split; [|split].
  - unfold cv2_flip. now rewrite nth_error_map, H.
  - apply length_rev.
  - intros j Hj. rewrite nth_error_rev.
    destruct (Nat.ltb_spec j (List.length row)) as [_ | Hge]; [|lia].
    f_equal. lia.
Qed.

Example cv2_flip_sample :
  cv2_flip Sample.frame
  = [ [ (7, 8, 9); (4, 5, 6); (1, 2, 3) ];
      [ (16, 17, 18); (13, 14, 15); (10, 11, 12) ] ].
Proof. reflexivity. Qed.

Lemma toggle_mirror_involutive (s : HandTracker) :
  toggle_mirror (toggle_mirror s) = s.
Proof.
  destruct s. unfold toggle_mirror, set_mirror_mode. simpl.
  now rewrite negb_involutive.
Qed.

(** ** Classifier adapter *)

(** C9. When the engine returns a label (and, if it returns probability
    rows at all, at least one row), the prediction succeeds with that
    label and the confidence follows [confidence_rule]: greatest value of
    a non-empty dict, 0.0 for an empty dict, 1.0 when the probability
    output is not a dict or is absent. Nothing is printed. *)
Theorem confidence_of_successful_prediction
    (s : HandTracker) (session : Session) (landmarks : list Q)
    (outputs : Outputs) (label : string) (more : list string) :
  onnx_session s = Some session ->
  session_run session landmarks = EngineReturns outputs ->
  out_labels outputs = label :: more ->
  (forall tl, out_rest outputs <> ProbRows [] :: tl) ->
  exists c : Q,
    predict_letter s landmarks = ((label, c), [])
    /\ confidence_rule outputs c.
Proof.
  intros Hs Hrun Hlab Hrows.
  unfold predict_letter, predict_try, confidence_rule.
  rewrite Hs, Hrun, Hlab.
  destruct (out_rest outputs) as [|[|rows] rest] eqn:Hrest.
  - exists 1%Q. split; reflexivity.
  - exists 1%Q. split; reflexivity.
  - destruct rows as [|[d|a] rows].
    + exfalso. now apply (Hrows rest).
    + destruct d as [|kv d].
      * exists 0%Q. split; reflexivity.
      * destruct (py_max (map snd (kv :: d))) as [m|] eqn:Hm.
        -- exists m. split; [reflexivity | now apply py_max_is_max].
        -- apply py_max_none in Hm. discriminate.
    + exists 1%Q. split; reflexivity.
Qed.

Lemma confidence_of_successful_prediction_witness :
  exists c : Q,
    predict_letter (Sample.tracker true Sample.ienv)
      (extract_landmarks Sample.hand) = (("A", c), [])
    /\ confidence_rule
         (mkOutputs ["A"]
            [ProbRows [RowDict [("A", 0.92%Q); ("B", 0.05%Q); ("C", 0.03%Q)]]]) c.
Proof.
  apply (confidence_of_successful_prediction
           (Sample.tracker true Sample.ienv) Sample.session_A
           (extract_landmarks Sample.hand) _ "A" []).
  - reflexivity.
  - reflexivity.
  - reflexivity.
  - intros tl H. discriminate H.
Defined.

(** An empty distribution yields 0.0; no distribution yields 1.0. *)
Example empty_distribution_gives_zero :
  let session := mkSession "x" (fun _ =>
    EngineReturns (mkOutputs ["B"] [ProbRows [RowDict []]])) in
  predict_try session [] = Ok ("B", 0%Q).
Proof. reflexivity. Qed.

Example no_distribution_gives_one :
  let session := mkSession "x" (fun _ => EngineReturns (mkOutputs ["B"] [])) in
  predict_try session [] = Ok ("B", 1%Q).
Proof. reflexivity. Qed.

(** [predict_letter] answers the sentinel whenever the session is missing
    or the [try] body raises. *)
Lemma predict_letter_fails_closed (s : HandTracker) (landmarks : list Q) :
  (onnx_session s = None
   \/ exists session what,
        onnx_session s = Some session
        /\ predict_try session landmarks = Raise what) ->
  fst (predict_letter s landmarks) = ("?", 0%Q).
Proof.
  unfold predict_letter.
  intros [H | (session & what & H1 & H2)].
  - now rewrite H.
  - now rewrite H1, H2.
Qed.

Lemma predict_try_engine_raises (session : Session) (landmarks : list Q)
    (what : string) :
  session_run session landmarks = EngineRaises what ->
  predict_try session landmarks = Raise what.
Proof.
  unfold predict_try. now intros ->.
Qed.

(** ** Landmark extraction *)

Lemma extract_loop_flat_map (l : list Landmark.t) : forall acc,
  fold_left
    (fun points lm =>
       ((points ++ [Landmark.x lm]) ++ [Landmark.y lm]) ++ [Landmark.z lm])
    l acc
  = acc ++ flat_map xyz l.
Proof.
  induction l as [|lm l IH]; intro acc; simpl.
  - now rewrite app_nil_r.
  - rewrite IH. unfold xyz. now rewrite <- !app_assoc.
Qed.

Lemma extract_landmarks_flat (h : Hand) :
  extract_landmarks h = flat_map xyz (landmark h).
Proof.
  unfold extract_landmarks. now rewrite extract_loop_flat_map.
Qed.

Lemma flat_xyz_length (l : list Landmark.t) :
  List.length (flat_map xyz l) = (3 * List.length l)%nat.
Proof.
  induction l as [|lm l IH]; simpl; [reflexivity|]. rewrite IH. lia.
Qed.

Lemma flat_xyz_nth (l : list Landmark.t) : forall (i : nat) (lm : Landmark.t),
  nth_error l i = Some lm ->
  nth_error (flat_map xyz l) (3 * i) = Some (Landmark.x lm)
  /\ nth_error (flat_map xyz l) (3 * i + 1) = Some (Landmark.y lm)
  /\ nth_error (flat_map xyz l) (3 * i + 2) = Some (Landmark.z lm).
Proof.
  induction l as [|a l IH]; intros i lm H.
  - destruct i; discriminate.
  - destruct i as [|i].
    + injection H as <-. simpl. auto.
    + simpl in H. specialize (IH i lm H).
      replace (3 * S i)%nat with (S (S (S (3 * i)))) by lia.
      simpl. exact IH.
Qed.

(** ** Paths through one iteration *)

Lemma cycle_cases (s : HandTracker) (loc : LoopVars) (e : CycleEnv) :
  CycleCase s loc e (cycle s loc e).
Proof.
  unfold cycle.
  destruct (env_read e) as [raw| |what|] eqn:Hread;
    try (now constructor).
  - destruct (detect s (env_hands e)) as [[v s1] ev_pred] eqn:Hd.
    destruct (update_fps s1 loc (env_t_fps e)) as [s2 loc2] eqn:Hu.
    destruct (show_window s2) eqn:Hw.
    + destruct (draw_overlay s2 (of_frame (mirrored s raw))
                  (fv_hand_landmarks_draw v) (fv_letter v) (fv_confidence v))
        as [buf display] eqn:Ho.
      destruct (_send_video_frame_to_unity s2 display (env_t_video e)
                  (env_encode e) (env_video_net_ok e)) as [s3 ev_vid] eqn:Hv.
      eapply CaseWindow; eauto.
    + destruct (_send_video_frame_to_unity s2 (of_frame (mirrored s raw))
                  (env_t_video e) (env_encode e) (env_video_net_ok e))
        as [s3 ev_vid] eqn:Hv.
      destruct (handle_key s3 (env_key e)) as [[flow s4] ev_key] eqn:Hk.
      eapply CaseHeadless; eauto.
Qed.

(** Inversion of a concrete outcome of [cycle] into its path. *)
Ltac cycle_paths H :=
  match type of H with
  | cycle ?s ?loc ?e = ?r =>
      let C := fresh "C" in
      pose proof (cycle_cases s loc e) as C; rewrite H in C;
      inversion C as
        [ Hrd
        | what Hrd
        | Hrd
        | fr v s1 ev_pred s2 loc2 buf display s3 ev_vid Hrd Hd Hu Hw Ho Hv
        | fr v s1 ev_pred s2 loc2 s3 ev_vid flow' s4 ev_key
            Hrd Hd Hu Hw Hv Hk ];
      subst; clear C
  end.

(** ** What the steps leave unchanged *)

Lemma detect_wiring s hs v s1 evs :
  detect s hs = (v, s1, evs) ->
  wiring s1 = wiring s
  /\ mirror_mode s1 = mirror_mode s
  /\ fps s1 = fps s
  /\ _last_video_send_time s1 = _last_video_send_time s.
Proof.
  unfold detect. destruct hs as [|h hs].
  - intro H. injection H as <- <- <-. auto.
  - destruct (predict_letter s (extract_landmarks h)) as [[l c] evp].
    intro H. injection H as <- <- <-. auto.
Qed.

Lemma update_fps_wiring s loc t s2 loc2 :
  update_fps s loc t = (s2, loc2) ->
  wiring s2 = wiring s
  /\ mirror_mode s2 = mirror_mode s
  /\ _last_video_send_time s2 = _last_video_send_time s.
Proof.
  unfold update_fps. destruct (Qgeb _ _); intro H; injection H as <- <-; auto.
Qed.

Lemma send_video_wiring s pic now enc net s3 evs :
  _send_video_frame_to_unity s pic now enc net = (s3, evs) ->
  wiring s3 = wiring s /\ mirror_mode s3 = mirror_mode s /\ fps s3 = fps s.
Proof.
  unfold _send_video_frame_to_unity.
  destruct (udp_video_port s) as [vp|]; [|intro H; injection H as <- <-; auto].
  destruct (Qltb 0 (video_fps s) && _); [intro H; injection H as <- <-; auto|].
  destruct enc as [what|[|] payload]; try (intro H; injection H as <- <-; auto).
  destruct (_ >? 65000); [intro H; injection H as <- <-; auto|].
  unfold sendto. destruct (negb _ && net); intro H; injection H as <- <-; auto.
Qed.

Lemma handle_key_wiring s k flow s4 evs :
  handle_key s k = (flow, s4, evs) ->
  wiring s4 = wiring s
  /\ _last_video_send_time s4 = _last_video_send_time s.
Proof.
  unfold handle_key.
  destruct (_ =? ord "q"); [intro H; injection H as <- <- <-; auto|].
  destruct (_ =? ord "m"); intro H; injection H as <- <- <-; auto.
Qed.

Lemma cycle_wiring s loc e flow s' loc' evs :
  cycle s loc e = (flow, s', loc', evs) -> wiring s' = wiring s.
Proof.
  intro H. cycle_paths H; try reflexivity.
  - apply detect_wiring in Hd as (W1 & _).
    apply update_fps_wiring in Hu as (W2 & _).
    apply send_video_wiring in Hv as (W3 & _). congruence.
  - apply detect_wiring in Hd as (W1 & _).
    apply update_fps_wiring in Hu as (W2 & _).
    apply send_video_wiring in Hv as (W3 & _).
    apply handle_key_wiring in Hk as (W4 & _). congruence.
Qed.

Lemma wiring_fields s s' :
  wiring s' = wiring s ->
  sock s' = sock s /\ udp_ip s' = udp_ip s /\ udp_port s' = udp_port s
  /\ udp_video_port s' = udp_video_port s /\ video_fps s' = video_fps s
  /\ show_window s' = show_window s /\ is_running s' = is_running s
  /\ cap s' = cap s /\ hands s' = hands s
  /\ onnx_session s' = onnx_session s.
Proof.
  unfold wiring. intro H. injection H. intros. repeat split; assumption.
Qed.

(** ** Events of the steps *)

Lemma housekeeping_all (P : Event -> Prop) (evs : list Event) :
  (forall ev, housekeeping ev = true -> P ev) ->
  Forall (fun ev => housekeeping ev = true) evs -> Forall P evs.
Proof.
  intros HP H. eapply Forall_impl; [|exact H]. exact HP.
Qed.

Lemma predict_letter_events s landmarks r evs :
  predict_letter s landmarks = (r, evs) ->
  Forall (fun ev => housekeeping ev = true) evs.
Proof.
  unfold predict_letter. destruct (onnx_session s) as [session|].
  - destruct (predict_try session landmarks); intro H; injection H as <- <-;
      repeat constructor.
  - intro H; injection H as <- <-. constructor.
Qed.

Lemma detect_events s hs v s1 evs :
  detect s hs = (v, s1, evs) ->
  Forall (fun ev => housekeeping ev = true) evs.
Proof.
  unfold detect. destruct hs as [|h hs].
  - intro H; injection H as <- <- <-. constructor.
  - destruct (predict_letter s (extract_landmarks h)) as [[l c] evp] eqn:Hp.
    intro H; injection H as <- <- <-.
    eapply predict_letter_events; eauto.
Qed.

Lemma handle_key_events s k flow s4 evs :
  handle_key s k = (flow, s4, evs) ->
  exists prints, evs = EvWaitKey k :: prints
                 /\ Forall (fun ev => housekeeping ev = true) prints.
Proof.
  unfold handle_key.
  destruct (_ =? ord "q"); [|destruct (_ =? ord "m")];
    intro H; injection H as <- <- <-; eexists; split; try reflexivity;
    repeat constructor.
Qed.

Lemma send_to_unity_events s landmarks letter c detected now net :
  exists data ok prints,
    send_to_unity s landmarks letter c detected now net
    = EvSendto (sock_fd (sock s)) (PJson data) (udp_ip s) (udp_port s) ok
      :: prints
    /\ Forall (fun ev => housekeeping ev = true) prints
    /\ field "hand_detected" data = Some (JBool detected)
    /\ field "landmarks" data
       = Some (JArr (if detected then map JNum landmarks else []))
    /\ field "letter" data = Some (JStr letter)
    /\ field "confidence" data = Some (JNum c)
    /\ field "timestamp" data = Some (JNum now)
    /\ ok = negb (sock_closed (sock s)) && net.
Proof.
  unfold send_to_unity, sendto.
  destruct (negb (sock_closed (sock s)) && net);
    do 3 eexists; (split; [reflexivity|]);
    (split; [repeat constructor|]); repeat split; reflexivity.
Qed.

(** The preview sender either does nothing, or invokes the encoder once
    and then possibly hands one datagram of at most 65000 bytes to the
    socket. *)
Lemma send_video_events s pic now enc net s3 evs :
  _send_video_frame_to_unity s pic now enc net = (s3, evs) ->
  evs = []
  \/ evs = [EvImencode (shrink s pic) (np_clip (video_jpeg_quality s) 10 95)]
  \/ exists vp payload ok,
       udp_video_port s = Some vp
       /\ enc = EncResult true payload
       /\ Z.of_nat (List.length payload) <= 65000
       /\ evs = [EvImencode (shrink s pic) (np_clip (video_jpeg_quality s) 10 95);
                 EvSendto (sock_fd (sock s)) (PBytes payload) (udp_ip s) vp ok].
Proof.
  unfold _send_video_frame_to_unity.
  destruct (udp_video_port s) as [vp|]; [|intro H; injection H as <- <-; auto].
  destruct (Qltb 0 (video_fps s) && _); [intro H; injection H as <- <-; auto|].
  destruct enc as [what|[|] payload]; try (intro H; injection H as <- <-; auto).
  destruct (_ >? 65000) eqn:Hlen; [intro H; injection H as <- <-; auto|].
  rewrite Z.gtb_ltb in Hlen. apply Z.ltb_ge in Hlen.
  unfold sendto. destruct (negb _ && net); intro H; injection H as <- <-;
    right; right; do 3 eexists; repeat split; eauto.
Qed.

Lemma datagram_ok_wiring s s' ev :
  wiring s' = wiring s -> datagram_ok s' ev -> datagram_ok s ev.
Proof.
  intro W. apply wiring_fields in W as (W1 & W2 & W3 & W4 & _).
  destruct ev as [fd [d|b] host port ok| | | | | | | |]; simpl; auto.
  - now rewrite W1, W2, W3.
  - now rewrite W1, W2, W4.
Qed.

Lemma datagram_ok_housekeeping s ev : housekeeping ev = true -> datagram_ok s ev.
Proof.
  destruct ev; simpl; auto; discriminate.
Qed.

Lemma send_video_datagrams s pic now enc net s3 evs :
  _send_video_frame_to_unity s pic now enc net = (s3, evs) ->
  Forall (datagram_ok s) evs.
Proof.
  intro H. apply send_video_events in H
    as [-> | [-> | (vp & payload & ok & Hvp & _ & Hlen & ->)]];
    repeat constructor; simpl; auto.
Qed.

Lemma cycle_datagrams s loc e flow s' loc' evs :
  cycle s loc e = (flow, s', loc', evs) -> Forall (datagram_ok s) evs.
Proof.
  intro H. cycle_paths H; try (repeat constructor; fail).
  - pose proof (detect_events _ _ _ _ _ Hd) as E1.
    apply detect_wiring in Hd as (W1 & _).
    apply update_fps_wiring in Hu as (W2 & _).
    apply send_video_datagrams in Hv.
    destruct (send_to_unity_events s1 (fv_landmarks v) (fv_letter v)
                (fv_confidence v) (fv_hand_detected v) (env_t_msg e)
                (env_net_ok e)) as (data & ok & prints & -> & Hp & _).
    rewrite !Forall_app. repeat split.
    + eapply housekeeping_all; [apply datagram_ok_housekeeping | exact E1].
    + constructor.
      * apply (datagram_ok_wiring s s1); [exact W1 | simpl; auto].
      * eapply housekeeping_all; [apply datagram_ok_housekeeping | exact Hp].
    + constructor; [exact I|].
      eapply Forall_impl; [|exact Hv]. intros ev.
      apply datagram_ok_wiring. congruence.
  - pose proof (detect_events _ _ _ _ _ Hd) as E1.
    apply detect_wiring in Hd as (W1 & _).
    apply update_fps_wiring in Hu as (W2 & _).
    apply send_video_datagrams in Hv.
    apply handle_key_events in Hk as (pk & -> & Hpk).
    destruct (send_to_unity_events s1 (fv_landmarks v) (fv_letter v)
                (fv_confidence v) (fv_hand_detected v) (env_t_msg e)
                (env_net_ok e)) as (data & ok & prints & -> & Hp & _).
    rewrite !Forall_app. repeat split.
    + eapply housekeeping_all; [apply datagram_ok_housekeeping | exact E1].
    + constructor.
      * apply (datagram_ok_wiring s s1); [exact W1 | simpl; auto].
      * eapply housekeeping_all; [apply datagram_ok_housekeeping | exact Hp].
    + eapply Forall_impl; [|exact Hv]. intros ev.
      apply datagram_ok_wiring. congruence.
    + constructor; [exact I|].
      eapply housekeeping_all; [apply datagram_ok_housekeeping | exact Hpk].
Qed.

(** ** From one iteration to a whole run *)

Section Lifting.

Variable Inv : HandTracker -> Prop.
Variable P : Event -> Prop.
Variable envs : list CycleEnv.

Hypothesis step :
  forall s loc e flow s' loc' evs,
    Inv s -> In e envs ->
    cycle s loc e = (flow, s', loc', evs) ->
    Inv s' /\ Forall P evs.

Lemma run_loop_lift_aux (l : list CycleEnv) :
  incl l envs ->
  forall s loc r s' evs,
    Inv s -> run_loop s loc l = (r, s', evs) -> Inv s' /\ Forall P evs.
Proof.
  induction l as [|e l IH]; intros Hincl s loc r s' evs Hs H; simpl in H.
  - destruct (negb (is_running s)); injection H as <- <- <-; auto.
  - destruct (negb (is_running s)); [injection H as <- <- <-; auto|].
    destruct (cycle s loc e) as [[[flow s1] loc1] ev1] eqn:Hc.
    assert (He : In e envs) by (apply Hincl; now left).
    destruct (step _ _ _ _ _ _ _ Hs He Hc) as [Hs1 Hev1].
    destruct flow; try (injection H as <- <- <-; auto).
    destruct (run_loop s1 loc1 l) as [[r' s''] evs'] eqn:Hr.
    injection H as <- <- <-.
    assert (Hl : incl l envs) by (intros a Ha; apply Hincl; now right).
    destruct (IH Hl _ _ _ _ _ Hs1 Hr) as [Hs2 Hev2].
    split; [exact Hs2 | apply Forall_app; auto].
Qed.

Lemma run_loop_lift s loc r s' evs :
  Inv s -> run_loop s loc envs = (r, s', evs) -> Inv s' /\ Forall P evs.
Proof.
  apply run_loop_lift_aux. apply incl_refl.
Qed.

Hypothesis housekeeping_P : forall ev, housekeeping ev = true -> P ev.

Lemma run_lift s t0 :
  Inv (set_is_running s true) -> Forall P (snd (run s t0 envs)).
Proof.
  intro Hs. unfold run.
  destruct (negb (cap_opened (cap s))).
  - simpl. repeat constructor. now apply housekeeping_P.
  - destruct (run_loop (set_is_running s true) (mkLoopVars t0 0) envs)
      as [[r s2] evs] eqn:Hr.
    destruct (run_loop_lift _ _ _ _ _ Hs Hr) as [_ Hev].
    assert (Hc : Forall P (snd (cleanup s2))).
    { simpl. repeat constructor; now apply housekeeping_P. }
    destruct (cleanup s2) as [s3 evc]; simpl in Hc.
    destruct r; simpl; auto; rewrite ?Forall_app; repeat split; auto.
Qed.

End Lifting.

(** Every event of a run is a datagram of the tracker's single socket to
    its configured destinations, or no datagram at all. *)
Lemma run_datagrams s t0 envs : Forall (datagram_ok s) (snd (run s t0 envs)).
Proof.
  apply (run_lift (fun s' => wiring s' = wiring (set_is_running s true))
                  (datagram_ok s) envs).
  - intros s1 loc e flow s' loc' evs Hs _ Hc. split.
    + apply cycle_wiring in Hc. congruence.
    + apply cycle_datagrams in Hc. eapply Forall_impl; [|exact Hc].
      intros ev Hev. apply (datagram_ok_wiring _ _ _ Hs) in Hev.
      destruct ev as [fd [d|b] host port ok| | | | | | | |]; exact Hev.
  - apply datagram_ok_housekeeping.
  - reflexivity.
Qed.

(** ** Transmitter: sockets *)

(** C3, as stated, fails: in one iteration of the default tracker the
    telemetry datagram and the preview datagram leave through the same
    descriptor. *)
Lemma two_sockets_refuted :
  ~ distinct_channel_sockets
      (snd (run (Sample.tracker true Sample.ienv) 0%Q
              [Sample.env 100%Q (EncResult true Sample.jpeg) (-1)])).
Proof.
  intro H. apply (H 3%nat 3%nat).
  - vm_compute. now left.
  - vm_compute. now left.
  - reflexivity.
Qed.

(** C3, amended. The transmitter owns one datagram socket, created once
    by [__init__]; every telemetry and every preview [sendto] of a run
    goes through it, to the same host, and the two channels differ only
    in the destination port. *)
Theorem single_socket_two_ports
    (s : HandTracker) (t0 : Q) (envs : list CycleEnv)
    (fd : nat) (data : Payload) (host : string) (port : Z) (ok : bool) :
  In (EvSendto fd data host port ok) (snd (run s t0 envs)) ->
  fd = sock_fd (sock s)
  /\ host = udp_ip s
  /\ match data with
     | PJson _ => port = udp_port s
     | PBytes _ => udp_video_port s = Some port
     end.
Proof.
  intro Hin.
  pose proof (run_datagrams s t0 envs) as H.
  rewrite Forall_forall in H. specialize (H _ Hin).
  destruct data; simpl in H; tauto.
Qed.

Lemma single_socket_two_ports_witness :
  3%nat = sock_fd (sock (Sample.tracker true Sample.ienv))
  /\ UDP_IP = udp_ip (Sample.tracker true Sample.ienv)
  /\ udp_video_port (Sample.tracker true Sample.ienv) = Some UDP_VIDEO_PORT.
Proof.
  apply (single_socket_two_ports (Sample.tracker true Sample.ienv) 0%Q
           [Sample.env 100%Q (EncResult true Sample.jpeg) (-1)]
           3%nat (PBytes Sample.jpeg) UDP_IP UDP_VIDEO_PORT true).
  vm_compute. right. right. right. now left.
Defined.

(** ** Preview channel: size bound *)

Lemma send_video_oversize s pic now ok payload net :
  Z.of_nat (List.length payload) > 65000 ->
  _send_video_frame_to_unity s pic now (EncResult ok payload) net = (s, [])
  \/ _send_video_frame_to_unity s pic now (EncResult ok payload) net
     = (s, [EvImencode (shrink s pic) (np_clip (video_jpeg_quality s) 10 95)]).
Proof.
  intro Hlen. unfold _send_video_frame_to_unity.
  destruct (udp_video_port s) as [vp|]; [|now left].
  destruct (Qltb 0 (video_fps s) && _); [now left|].
  destruct ok; [|now right].
  destruct (_ >? 65000) eqn:E; [now right|].
  rewrite Z.gtb_ltb in E. apply Z.ltb_ge in E. lia.
Qed.

Lemma housekeeping_not_preview ev :
  housekeeping ev = true -> is_preview_call ev = false.
Proof.
  destruct ev; cbv; congruence.
Qed.

(** C6. Every preview [sendto] of a run carries at most 65000 bytes.
    When the encoder produces more than 65000 bytes, the preview sender
    returns normally with the tracker unchanged, having called [sendto]
    not at all and printed nothing; the iteration it belongs to ends
    normally and contains no preview datagram. *)
Theorem preview_payload_bounded :
  (forall s t0 envs fd b host port ok,
      In (EvSendto fd (PBytes b) host port ok) (snd (run s t0 envs)) ->
      Z.of_nat (List.length b) <= 65000)
  /\ (forall s pic now ok payload net,
        Z.of_nat (List.length payload) > 65000 ->
        fst (_send_video_frame_to_unity s pic now (EncResult ok payload) net) = s
        /\ Forall (fun ev => is_preview_call ev = false /\ is_print ev = false)
             (snd (_send_video_frame_to_unity s pic now
                     (EncResult ok payload) net)))
  /\ (forall s loc e raw ok payload,
        env_read e = ReadFrame raw ->
        env_encode e = EncResult ok payload ->
        Z.of_nat (List.length payload) > 65000 ->
        let '(flow, s', _, evs) := cycle s loc e in
        (flow = FlowNext \/ flow = FlowBreak)
        /\ _last_video_send_time s' = _last_video_send_time s
        /\ Forall (fun ev => is_preview_call ev = false) evs).
Proof.
  split; [|split].
  - intros s t0 envs fd b host port ok Hin.
    pose proof (run_datagrams s t0 envs) as H.
    rewrite Forall_forall in H. specialize (H _ Hin). simpl in H. tauto.
  - intros s pic now ok payload net Hlen.
    destruct (send_video_oversize s pic now ok payload net Hlen) as [-> | ->];
      simpl; repeat constructor.
  - intros s loc e raw ok payload Hread Henc Hlen.
    destruct (cycle s loc e) as [[[flow s'] loc'] evs] eqn:Hc.
    cycle_paths Hc; try congruence.
    + rewrite Henc in Hv.
      pose proof (detect_events _ _ _ _ _ Hd) as E1.
      apply detect_wiring in Hd as (_ & _ & _ & L1).
      apply update_fps_wiring in Hu as (_ & _ & L2).
      destruct (send_to_unity_events s1 (fv_landmarks v) (fv_letter v)
                  (fv_confidence v) (fv_hand_detected v) (env_t_msg e)
                  (env_net_ok e)) as (data & k & prints & -> & Hp & _).
      assert (Hskip : s' = s2 /\ Forall (fun ev => is_preview_call ev = false) ev_vid).
      { destruct (send_video_oversize s2 display (env_t_video e) ok payload
                    (env_video_net_ok e) Hlen) as [E | E];
          rewrite E in Hv; injection Hv as <- <-; repeat constructor. }
      destruct Hskip as [-> Hvid].
      split; [now left|]. split; [congruence|].
      rewrite !Forall_app. repeat split.
      * eapply Forall_impl; [|exact E1]. apply housekeeping_not_preview.
      * constructor; [reflexivity|].
        eapply Forall_impl; [|exact Hp]. apply housekeeping_not_preview.
      * constructor; [reflexivity | exact Hvid].
    + rewrite Henc in Hv.
      pose proof (detect_events _ _ _ _ _ Hd) as E1.
      apply detect_wiring in Hd as (_ & _ & _ & L1).
      apply update_fps_wiring in Hu as (_ & _ & L2).
      pose proof (handle_key_wiring _ _ _ _ _ Hk) as (_ & L4).
      destruct (send_to_unity_events s1 (fv_landmarks v) (fv_letter v)
                  (fv_confidence v) (fv_hand_detected v) (env_t_msg e)
                  (env_net_ok e)) as (data & k & prints & -> & Hp & _).
      assert (Hskip : s3 = s2 /\ Forall (fun ev => is_preview_call ev = false) ev_vid).
      { destruct (send_video_oversize s2 (of_frame (mirrored s fr))
                    (env_t_video e) ok payload
                    (env_video_net_ok e) Hlen) as [E | E];
          rewrite E in Hv; injection Hv as <- <-; repeat constructor. }
      destruct Hskip as [-> Hvid].
      split.
      { unfold handle_key in Hk.
        destruct (_ =? ord "q"); [|destruct (_ =? ord "m")];
          injection Hk as <- _ _; auto. }
      split; [congruence|].
      apply handle_key_events in Hk as (pk & -> & Hpk).
      rewrite !Forall_app. repeat split.
      * eapply Forall_impl; [|exact E1]. apply housekeeping_not_preview.
      * constructor; [reflexivity|].
        eapply Forall_impl; [|exact Hp]. apply housekeeping_not_preview.
      * exact Hvid.
      * constructor; [reflexivity|].
        eapply Forall_impl; [|exact Hpk]. apply housekeeping_not_preview.
Qed.

Lemma preview_payload_bounded_witness :
  Z.of_nat (List.length Sample.jpeg) <= 65000
  /\ fst (_send_video_frame_to_unity (Sample.tracker true Sample.ienv)
            (of_frame Sample.frame) 100%Q
            (EncResult true Sample.big_jpeg) true)
     = Sample.tracker true Sample.ienv.
Proof.
  destruct preview_payload_bounded as (Hrun & Hskip & _).
  split.
  - apply (Hrun (Sample.tracker true Sample.ienv) 0%Q
             [Sample.env 100%Q (EncResult true Sample.jpeg) (-1)]
             3%nat Sample.jpeg UDP_IP UDP_VIDEO_PORT true).
    vm_compute. right. right. right. now left.
  - apply Hskip. vm_compute. reflexivity.
Defined.

(** ** Telemetry channel *)

Lemma detect_vars s hs v s1 evs :
  detect s hs = (v, s1, evs) ->
  match hs with
  | [] => v = mkFrameVars false [] "" 0%Q None
  | h :: _ =>
      fv_hand_detected v = true
      /\ fv_landmarks v = flat_map xyz (landmark h)
      /\ fv_hand_landmarks_draw v = Some h
      /\ predict_letter s (extract_landmarks h)
         = ((fv_letter v, fv_confidence v), evs)
  end.
Proof.
  unfold detect. destruct hs as [|h hs].
  - intro H. now injection H as <- <- <-.
  - destruct (predict_letter s (extract_landmarks h)) as [[l c] evp].
    intro H. injection H as <- <- <-. simpl.
    now rewrite extract_landmarks_flat.
Qed.

Lemma housekeeping_not_sendto fd data host port ok evs :
  Forall (fun ev => housekeeping ev = true) evs ->
  ~ In (EvSendto fd data host port ok) evs.
Proof.
  intros H Hin. rewrite Forall_forall in H. specialize (H _ Hin). discriminate.
Qed.

Lemma send_video_no_json s pic now enc net s3 evs fd d host port ok :
  _send_video_frame_to_unity s pic now enc net = (s3, evs) ->
  ~ In (EvSendto fd (PJson d) host port ok) evs.
Proof.
  intros H Hin. apply send_video_events in H
    as [-> | [-> | (vp & payload & k & _ & _ & _ & ->)]]; simpl in Hin;
    intuition discriminate.
Qed.

(** The telemetry dict of an iteration carries the per-frame variables
    that [detect] computed in that iteration. *)
Lemma cycle_telemetry s loc e flow s' loc' evs fd d host port ok :
  cycle s loc e = (flow, s', loc', evs) ->
  In (EvSendto fd (PJson d) host port ok) evs ->
  exists v s1 ev_pred,
    detect s (env_hands e) = (v, s1, ev_pred)
    /\ field "hand_detected" d = Some (JBool (fv_hand_detected v))
    /\ field "landmarks" d
       = Some (JArr (if fv_hand_detected v
                     then map JNum (fv_landmarks v) else []))
    /\ field "letter" d = Some (JStr (fv_letter v))
    /\ field "confidence" d = Some (JNum (fv_confidence v)).
Proof.
  intros Hc Hin.
  cycle_paths Hc; try (simpl in Hin; intuition discriminate).
  - exists v, s1, ev_pred. split; [exact Hd|].
    destruct (send_to_unity_events s1 (fv_landmarks v) (fv_letter v)
                (fv_confidence v) (fv_hand_detected v) (env_t_msg e)
                (env_net_ok e))
      as (data & k & prints & E & Hp & F1 & F2 & F3 & F4 & _).
    rewrite E in Hin. rewrite !in_app_iff in Hin.
    destruct Hin as [Hin | [Hin | Hin]].
    + exfalso.
      exact (housekeeping_not_sendto _ _ _ _ _ _
               (detect_events _ _ _ _ _ Hd) Hin).
    + destruct Hin as [Hin | Hin].
      * injection Hin as <- <- <- <- <-. auto.
      * exfalso. exact (housekeeping_not_sendto _ _ _ _ _ _ Hp Hin).
    + destruct Hin as [Hin | Hin]; [discriminate|].
      exfalso. exact (send_video_no_json _ _ _ _ _ _ _ _ _ _ _ _ Hv Hin).
  - exists v, s1, ev_pred. split; [exact Hd|].
    destruct (send_to_unity_events s1 (fv_landmarks v) (fv_letter v)
                (fv_confidence v) (fv_hand_detected v) (env_t_msg e)
                (env_net_ok e))
      as (data & k & prints & E & Hp & F1 & F2 & F3 & F4 & _).
    apply handle_key_events in Hk as (pk & -> & Hpk).
    rewrite E in Hin. rewrite !in_app_iff in Hin.
    destruct Hin as [Hin | [Hin | [Hin | Hin]]].
    + exfalso.
      exact (housekeeping_not_sendto _ _ _ _ _ _
               (detect_events _ _ _ _ _ Hd) Hin).
    + destruct Hin as [Hin | Hin].
      * injection Hin as <- <- <- <- <-. auto.
      * exfalso. exact (housekeeping_not_sendto _ _ _ _ _ _ Hp Hin).
    + exfalso. exact (send_video_no_json _ _ _ _ _ _ _ _ _ _ _ _ Hv Hin).
    + destruct Hin as [Hin | Hin]; [discriminate|].
      exfalso. exact (housekeeping_not_sendto _ _ _ _ _ _ Hpk Hin).
Qed.

(** An iteration that reads a frame calls the telemetry [sendto] with the
    per-frame variables, through the tracker's socket. *)
Lemma cycle_sends_telemetry s loc e raw :
  env_read e = ReadFrame raw ->
  exists v s1 ev_pred d,
    detect s (env_hands e) = (v, s1, ev_pred)
    /\ In (EvSendto (sock_fd (sock s)) (PJson d) (udp_ip s) (udp_port s)
             (negb (sock_closed (sock s)) && env_net_ok e))
          (events_of (cycle s loc e))
    /\ field "hand_detected" d = Some (JBool (fv_hand_detected v))
    /\ field "landmarks" d
       = Some (JArr (if fv_hand_detected v
                     then map JNum (fv_landmarks v) else []))
    /\ field "letter" d = Some (JStr (fv_letter v))
    /\ field "confidence" d = Some (JNum (fv_confidence v)).
Proof.
  intro Hread.
  destruct (cycle s loc e) as [[[flow s'] loc'] evs] eqn:Hc.
  cycle_paths Hc; try congruence.
  all: pose proof (detect_wiring _ _ _ _ _ Hd) as (W & _);
    apply wiring_fields in W as (W1 & W2 & W3 & _);
    destruct (send_to_unity_events s1 (fv_landmarks v) (fv_letter v)
                (fv_confidence v) (fv_hand_detected v) (env_t_msg e)
                (env_net_ok e))
      as (data & k & prints & E & Hp & F1 & F2 & F3 & F4 & _ & Hk');
    exists v, s1, ev_pred, data; split; [exact Hd|];
    split; [|auto];
    simpl; rewrite E, <- W1, <- W2, <- W3, <- Hk';
    rewrite !in_app_iff; right; left; now left.
Qed.

Lemma telemetry_of_detection (hs : list Hand) s v s1 ev_pred d :
  (forall h, In h hs -> List.length (landmark h) = 21%nat) ->
  detect s hs = (v, s1, ev_pred) ->
  field "hand_detected" d = Some (JBool (fv_hand_detected v)) ->
  field "landmarks" d
    = Some (JArr (if fv_hand_detected v then map JNum (fv_landmarks v) else [])) ->
  match hs with
  | [] =>
      field "hand_detected" d = Some (JBool false)
      /\ field "landmarks" d = Some (JArr [])
  | h :: _ =>
      field "hand_detected" d = Some (JBool true)
      /\ field "landmarks" d
         = Some (JArr (map JNum (flat_map xyz (landmark h))))
      /\ List.length (flat_map xyz (landmark h)) = 63%nat
  end.
Proof.
  intros H21 Hd F1 F2. apply detect_vars in Hd.
  destruct hs as [|h hs].
  - subst v. simpl in *. auto.
  - destruct Hd as (D1 & D2 & _). rewrite D1 in *. rewrite D2 in *.
    repeat split; auto.
    rewrite flat_xyz_length, (H21 h); [reflexivity | now left].
Qed.

(** C4. Provided the extractor reports hands of 21 keypoints: every
    telemetry dict sent during a run has a landmarks field that is either
    empty, with [hand_detected] false, or the 63 coordinates
    x0,y0,z0,x1,y1,z1,... of 21 keypoints, with [hand_detected] true; and
    within an iteration the first case is the one without a detected hand
    and the second lists the coordinates of the first hand reported. *)
Theorem telemetry_landmarks_63_or_empty
    (s : HandTracker) (t0 : Q) (envs : list CycleEnv) :
  (forall e h, In e envs -> In h (env_hands e) ->
               List.length (landmark h) = 21%nat) ->
  (forall fd d host port ok,
      In (EvSendto fd (PJson d) host port ok) (snd (run s t0 envs)) ->
      landmarks_wellformed d)
  /\ (forall s' loc e fd d host port ok,
        In e envs ->
        In (EvSendto fd (PJson d) host port ok) (events_of (cycle s' loc e)) ->
        match env_hands e with
        | [] =>
            field "hand_detected" d = Some (JBool false)
            /\ field "landmarks" d = Some (JArr [])
        | h :: _ =>
            field "hand_detected" d = Some (JBool true)
            /\ field "landmarks" d
               = Some (JArr (map JNum (flat_map xyz (landmark h))))
            /\ List.length (flat_map xyz (landmark h)) = 63%nat
        end).
Proof.
  intro H21.
  assert (Hcyc : forall s' loc e fd d host port ok,
             In e envs ->
             In (EvSendto fd (PJson d) host port ok) (events_of (cycle s' loc e)) ->
             match env_hands e with
             | [] =>
                 field "hand_detected" d = Some (JBool false)
                 /\ field "landmarks" d = Some (JArr [])
             | h :: _ =>
                 field "hand_detected" d = Some (JBool true)
                 /\ field "landmarks" d
                    = Some (JArr (map JNum (flat_map xyz (landmark h))))
                 /\ List.length (flat_map xyz (landmark h)) = 63%nat
             end).
  { intros s' loc e fd d host port ok He Hin.
    destruct (cycle s' loc e) as [[[flow s''] loc'] evs] eqn:Hc.
    destruct (cycle_telemetry _ _ _ _ _ _ _ _ _ _ _ _ Hc Hin)
      as (v & s1 & ev_pred & Hd & F1 & F2 & _).
    eapply telemetry_of_detection; eauto. }
  split; [|exact Hcyc].
  intros fd d host port ok Hin.
  assert (Hall : Forall telemetry_ok (snd (run s t0 envs))).
  { apply (run_lift (fun _ => True) telemetry_ok envs); [| |exact I].
    - intros s1 loc e flow s' loc' evs _ He Hc. split; [exact I|].
      apply Forall_forall. intros [fd' [d'|b] host' port' ok'| | | | | | | |] Hev;
        simpl; auto.
      assert (Hev' : In (EvSendto fd' (PJson d') host' port' ok')
                        (events_of (cycle s1 loc e))) by now rewrite Hc.
      specialize (Hcyc _ _ _ _ _ _ _ _ He Hev').
      destruct (env_hands e) as [|h hs] eqn:Hh.
      + left. exact Hcyc.
      + right. exists (landmark h).
        destruct Hcyc as (C1 & C2 & C3).
        repeat split; auto.
        * apply (H21 e h He). rewrite Hh. now left.
        * now apply flat_xyz_nth.
        * now apply flat_xyz_nth.
        * now apply flat_xyz_nth.
    - intros [] Hh; simpl; auto; discriminate. }
  rewrite Forall_forall in Hall. exact (Hall _ Hin).
Qed.

Lemma telemetry_landmarks_63_or_empty_witness :
  landmarks_wellformed
    [ ("hand_detected", JBool true);
      ("landmarks", JArr (map JNum (extract_landmarks Sample.hand)));
      ("letter", JStr "A");
      ("confidence", JNum 0.92%Q);
      ("timestamp", JNum 100%Q) ].
Proof.
  assert (H21 : forall e h,
             In e [Sample.env 100%Q (EncResult true Sample.jpeg) (-1)] ->
             In h (env_hands e) -> List.length (landmark h) = 21%nat).
  { intros e h [<-|[]] [<-|[]]. reflexivity. }
  apply (proj1 (telemetry_landmarks_63_or_empty
                  (Sample.tracker true Sample.ienv) 0%Q
                  [Sample.env 100%Q (EncResult true Sample.jpeg) (-1)] H21)
           3%nat _ UDP_IP UDP_PORT true).
  vm_compute. left. reflexivity.
Defined.

(** ** The preview call of an iteration *)

Lemma housekeeping_not_preview_effect ev :
  housekeeping ev = true -> is_preview_effect ev = false.
Proof.
  destruct ev; cbv; congruence.
Qed.

Lemma no_preview_effect_among evs ev :
  Forall (fun ev => housekeeping ev = true) evs ->
  In ev evs -> is_preview_effect ev = true -> False.
Proof.
  intros H Hin He. rewrite Forall_forall in H.
  apply H, housekeeping_not_preview_effect in Hin. congruence.
Qed.

Lemma housekeeping_not_imshow d evs :
  Forall (fun ev => housekeeping ev = true) evs -> ~ In (EvImshow d) evs.
Proof.
  intros H Hin. rewrite Forall_forall in H. specialize (H _ Hin). discriminate.
Qed.

Lemma send_video_no_imshow s pic now enc net s3 evs d :
  _send_video_frame_to_unity s pic now enc net = (s3, evs) ->
  ~ In (EvImshow d) evs.
Proof.
  intros H Hin. apply send_video_events in H
    as [-> | [-> | (vp & payload & k & _ & _ & _ & ->)]]; simpl in Hin;
    intuition discriminate.
Qed.

(** An iteration that reads a frame calls the preview sender exactly
    once: with the configuration and last-send time the iteration started
    with, on the display frame when the window is shown and on the
    acquired frame otherwise. Every observable preview effect of the
    iteration comes from that call. *)
(** Membership in a concatenation of event lists, as a disjunction. *)
Ltac in_events := cbn [app]; repeat (rewrite in_app_iff || cbn [In]).

Lemma cycle_video s loc e raw flow s' loc' evs :
  cycle s loc e = (flow, s', loc', evs) ->
  env_read e = ReadFrame raw ->
  exists v s1 ev_pred s2 loc2 pic s3 ev_vid,
    detect s (env_hands e) = (v, s1, ev_pred)
    /\ update_fps s1 loc (env_t_fps e) = (s2, loc2)
    /\ wiring s2 = wiring s
    /\ _last_video_send_time s2 = _last_video_send_time s
    /\ pic = (if show_window s
              then snd (draw_overlay s2 (of_frame (mirrored s raw))
                          (fv_hand_landmarks_draw v) (fv_letter v)
                          (fv_confidence v))
              else of_frame (mirrored s raw))
    /\ _send_video_frame_to_unity s2 pic (env_t_video e) (env_encode e)
         (env_video_net_ok e) = (s3, ev_vid)
    /\ _last_video_send_time s' = _last_video_send_time s3
    /\ incl ev_vid evs
    /\ (forall ev, In ev evs -> is_preview_effect ev = true -> In ev ev_vid)
    /\ (forall d, In (EvImshow d) evs <-> show_window s = true /\ d = pic).
Proof.
  intros Hc Hread.
  cycle_paths Hc; try congruence.
  - assert (fr = raw) by congruence. subst fr.
    pose proof (detect_events _ _ _ _ _ Hd) as E1.
    pose proof (detect_wiring _ _ _ _ _ Hd) as (W1 & _ & _ & L1).
    pose proof (update_fps_wiring _ _ _ _ _ Hu) as (W2 & _ & L2).
    destruct (send_to_unity_events s1 (fv_landmarks v) (fv_letter v)
                (fv_confidence v) (fv_hand_detected v) (env_t_msg e)
                (env_net_ok e)) as (data & k & prints & E & Hp & _).
    exists v, s1, ev_pred, s2, loc', display, s', ev_vid.
    assert (Hsw : show_window s = true).
    { pose proof (wiring_fields s s2 ltac:(congruence)) as (_&_&_&_&_&S&_).
      congruence. }
    rewrite Hsw, Ho, E. simpl.
    split; [exact Hd|]. split; [exact Hu|]. split; [congruence|].
    split; [congruence|]. split; [reflexivity|]. split; [exact Hv|].
    split; [reflexivity|]. split; [|split].
    + intros ev Hin. in_events. auto.
    + intros ev Hin He. revert Hin. in_events.
      intros [Hin | [Hin | [Hin | [Hin | Hin]]]]; auto.
      * exfalso. exact (no_preview_effect_among _ _ E1 Hin He).
      * subst ev. discriminate.
      * exfalso. exact (no_preview_effect_among _ _ Hp Hin He).
      * subst ev. discriminate.
    + intro d. in_events. split.
      * intros [Hin | [Hin | [Hin | [Hin | Hin]]]].
        -- now destruct (housekeeping_not_imshow _ _ E1 Hin).
        -- discriminate.
        -- now destruct (housekeeping_not_imshow _ _ Hp Hin).
        -- now injection Hin as <-.
        -- now destruct (send_video_no_imshow _ _ _ _ _ _ _ _ Hv Hin).
      * intros [_ ->]. auto.
  - assert (fr = raw) by congruence. subst fr.
    pose proof (detect_events _ _ _ _ _ Hd) as E1.
    pose proof (detect_wiring _ _ _ _ _ Hd) as (W1 & _ & _ & L1).
    pose proof (update_fps_wiring _ _ _ _ _ Hu) as (W2 & _ & L2).
    pose proof (handle_key_wiring _ _ _ _ _ Hk) as (_ & L4).
    apply handle_key_events in Hk as (pk & -> & Hpk).
    destruct (send_to_unity_events s1 (fv_landmarks v) (fv_letter v)
                (fv_confidence v) (fv_hand_detected v) (env_t_msg e)
                (env_net_ok e)) as (data & k & prints & E & Hp & _).
    exists v, s1, ev_pred, s2, loc', (of_frame (mirrored s raw)), s3, ev_vid.
    assert (Hsw : show_window s = false).
    { pose proof (wiring_fields s s2 ltac:(congruence)) as (_&_&_&_&_&S&_).
      congruence. }
    rewrite Hsw, E.
    split; [exact Hd|]. split; [exact Hu|]. split; [congruence|].
    split; [congruence|]. split; [reflexivity|]. split; [exact Hv|].
    split; [exact L4|]. split; [|split].
    + intros ev Hin. in_events. auto.
    + intros ev Hin He. revert Hin. in_events.
      intros [Hin | [Hin | [Hin | [Hin | [Hin | Hin]]]]]; auto.
      * exfalso. exact (no_preview_effect_among _ _ E1 Hin He).
      * subst ev. discriminate.
      * exfalso. exact (no_preview_effect_among _ _ Hp Hin He).
      * subst ev. discriminate.
      * exfalso. exact (no_preview_effect_among _ _ Hpk Hin He).
    + intro d. in_events. split.
      * intros [Hin | [Hin | [Hin | [Hin | [Hin | Hin]]]]];
          try discriminate; exfalso.
        -- exact (housekeeping_not_imshow _ _ E1 Hin).
        -- exact (housekeeping_not_imshow _ _ Hp Hin).
        -- exact (send_video_no_imshow _ _ _ _ _ _ _ _ Hv Hin).
        -- exact (housekeeping_not_imshow _ _ Hpk Hin).
      * intros [? _]. discriminate.
Qed.

(** An iteration that reads no frame does nothing but print. *)
Lemma cycle_no_frame s loc e flow s' loc' evs :
  cycle s loc e = (flow, s', loc', evs) ->
  (forall raw, env_read e <> ReadFrame raw) ->
  s' = s /\ Forall (fun ev => housekeeping ev = true) evs.
Proof.
  intros Hc Hno. cycle_paths Hc; try (now repeat constructor).
  - now destruct (Hno fr).
  - now destruct (Hno fr).
Qed.

(** ** Preview channel: rate limiter *)

Lemma send_video_gate s pic now enc net s3 evs :
  _send_video_frame_to_unity s pic now enc net = (s3, evs) ->
  ((0 < video_fps s)%Q -> evs <> [] ->
   (fl (1 / video_fps s) <= fl (now - _last_video_send_time s))%Q)
  /\ ((_last_video_send_time s3 = _last_video_send_time s
       /\ forall ev, In ev evs -> preview_sent ev = false)
      \/ (_last_video_send_time s3 = now
          /\ exists fd b host port,
               In (EvSendto fd (PBytes b) host port true) evs))
  /\ ((video_fps s <= 0)%Q -> forall vp, udp_video_port s = Some vp ->
      In (EvImencode (shrink s pic) (np_clip (video_jpeg_quality s) 10 95)) evs
      /\ forall payload,
           enc = EncResult true payload ->
           Z.of_nat (List.length payload) <= 65000 ->
           exists ok,
             In (EvSendto (sock_fd (sock s)) (PBytes payload) (udp_ip s) vp ok)
                evs).
Proof.
  unfold _send_video_frame_to_unity.
  destruct (udp_video_port s) as [vp|].
  2:{ intro H; injection H as <- <-. repeat split.
      - congruence.
      - left. split; [reflexivity | intros ev []].
      - discriminate.
      - discriminate. }
  destruct (Qltb 0 (video_fps s)) eqn:Hpos; simpl;
    [destruct (Qltb (fl (now - _last_video_send_time s))
                    (fl (1 / video_fps s))) eqn:Hgate; simpl|].
  - (* limiter closed *)
    intro H; injection H as <- <-. split; [congruence|]. split.
    + left. split; [reflexivity | intros ev []].
    + intros HF. apply Qltb_true in Hpos. exfalso.
      exact (Qlt_not_le _ _ Hpos HF).
  - (* limiter open, F > 0 *)
    apply Qltb_false in Hgate.
    assert (HF : ~ (video_fps s <= 0)%Q).
    { apply Qltb_true in Hpos. now apply Qlt_not_le. }
    destruct enc as [what|[|] payload].
    + intro H; injection H as <- <-. repeat split; auto; try tauto.
      left. split; [reflexivity | intros ev [<-|[]]; reflexivity].
    + destruct (_ >? 65000).
      * intro H; injection H as <- <-. repeat split; auto; try tauto.
        left. split; [reflexivity | intros ev [<-|[]]; reflexivity].
      * unfold sendto. destruct (negb _ && net) eqn:Hok;
          intro H; injection H as <- <-; repeat split; auto; try tauto.
        -- right. split; [reflexivity|]. do 4 eexists. right. left. reflexivity.
        -- left. split; [reflexivity|].
           intros ev [<-|[<-|[]]]; reflexivity.
    + intro H; injection H as <- <-. repeat split; auto; try tauto.
      left. split; [reflexivity | intros ev [<-|[]]; reflexivity].
  - (* F <= 0 *)
    apply Qltb_false in Hpos.
    assert (HF : ~ (0 < video_fps s)%Q) by now apply Qle_not_lt.
    destruct enc as [what|[|] payload].
    + intro H; injection H as <- <-. split; [tauto|]. split.
      * left. split; [reflexivity | intros ev [<-|[]]; reflexivity].
      * intros _ vp' _. split; [now left | discriminate].
    + destruct (_ >? 65000) eqn:Hlen.
      * intro H; injection H as <- <-. split; [tauto|]. split.
        -- left. split; [reflexivity | intros ev [<-|[]]; reflexivity].
        -- intros _ vp' _. split; [now left|].
           intros p Hp Hle. injection Hp as <-.
           rewrite Z.gtb_ltb in Hlen. apply Z.ltb_lt in Hlen. lia.
      * unfold sendto. destruct (negb _ && net) eqn:Hok;
          intro H; injection H as <- <-; (split; [tauto|]); split.
        -- right. split; [reflexivity|]. do 4 eexists. right. left. reflexivity.
        -- intros _ vp' Hvp. injection Hvp as <-. split; [now left|].
           intros p Hp _. injection Hp as <-. eexists. right. left. reflexivity.
        -- left. split; [reflexivity|].
           intros ev [<-|[<-|[]]]; reflexivity.
        -- intros _ vp' Hvp. injection Hvp as <-. split; [now left|].
           intros p Hp _. injection Hp as <-. eexists. right. left. reflexivity.
    + intro H; injection H as <- <-. split; [tauto|]. split.
      * left. split; [reflexivity | intros ev [<-|[]]; reflexivity].
      * intros _ vp' _. split; [now left | discriminate].
Qed.

Lemma preview_sent_effect ev :
  preview_sent ev = true -> is_preview_effect ev = true.
Proof.
  destruct ev as [fd [d|b] host port ok| | | | | | | |]; cbv; congruence.
Qed.

Lemma period_pos (F : Q) : (0 < F)%Q -> (0 < 1 / F)%Q.
Proof.
  intro H. unfold Qdiv. rewrite Qmult_1_l. now apply Qinv_lt_0_compat.
Qed.

(** C5, as stated, fails.
    - With F = 3 and [last = 0.0], at the clock reading
      [0.3333333333333333] a preview datagram is sent and accepted although
      the elapsed time is less than 1/3: the difference and the period are
      doubles, and [1.0 / 3] is that same double.
    - With F = 0, an iteration whose camera read fails hands nothing to
      the preview sender; and a tracker without preview channel never
      does, although it reads a frame. *)
Lemma preview_rate_limit_refuted :
  ((0 < video_fps Scenario.tracker_3fps)%Q
   /\ existsb preview_sent
        (events_of (cycle Scenario.tracker_3fps Sample.loc0
                      Scenario.env_third)) = true
   /\ (env_t_video Scenario.env_third
       - _last_video_send_time Scenario.tracker_3fps
       < 1 / video_fps Scenario.tracker_3fps)%Q)
  /\ ((video_fps Sample.tracker_unlimited <= 0)%Q
      /\ existsb is_preview_effect
           (events_of (cycle Sample.tracker_unlimited Sample.loc0
                         Scenario.env_read_fails)) = false)
  /\ ((video_fps Scenario.tracker_no_video_unlimited <= 0)%Q
      /\ is_frame (env_read (Sample.press "x")) = true
      /\ existsb is_preview_effect
           (events_of (cycle Scenario.tracker_no_video_unlimited Sample.loc0
                         (Sample.press "x"))) = false).
Proof.
  split; [|split].
  - split; [reflexivity|]. split; [vm_compute; reflexivity|].
    vm_compute. reflexivity.
  - split; [vm_compute; discriminate | vm_compute; reflexivity].
  - split; [vm_compute; discriminate|].
    split; [reflexivity | vm_compute; reflexivity].
Qed.

(** C5, amended. In every iteration, with F the configured preview fps,
    [last] the time of the last successful preview send and [now] the
    clock reading of the preview sender:
    - if F > 0, the encoder is invoked or a preview datagram handed to the
      socket only if the double [now - last] is not below the double
      [1.0 / F]; the exact elapsed time is then at least
      [(1/F) * (1 - 2^-52) - 2^-1073], and it is below 1/F only when both
      round to the same double;
    - [last] either stays as it was, and then no preview datagram was
      accepted, or becomes [now], and then one was;
    - if F <= 0, the preview channel is enabled and a frame was read, the
      encoder is invoked, and whenever it yields a payload of at most
      65000 bytes that payload is handed to the socket. *)
Theorem preview_rate_limited (s : HandTracker) (loc : LoopVars) (e : CycleEnv) :
  ((0 < video_fps s)%Q ->
   (exists ev, In ev (events_of (cycle s loc e))
               /\ is_preview_effect ev = true) ->
   (fl (1 / video_fps s)
    <= fl (env_t_video e - _last_video_send_time s))%Q
   /\ (1 / video_fps s * (1 - 2 ^ (-52)) - 2 ^ (-1073)
       <= env_t_video e - _last_video_send_time s)%Q
   /\ ((env_t_video e - _last_video_send_time s < 1 / video_fps s)%Q ->
       (fl (env_t_video e - _last_video_send_time s)
        == fl (1 / video_fps s))%Q))
  /\ ((_last_video_send_time (state_of (cycle s loc e))
       = _last_video_send_time s
       /\ forall ev, In ev (events_of (cycle s loc e)) ->
                     preview_sent ev = false)
      \/ (_last_video_send_time (state_of (cycle s loc e)) = env_t_video e
          /\ exists fd b host port,
               In (EvSendto fd (PBytes b) host port true)
                  (events_of (cycle s loc e))))
  /\ ((video_fps s <= 0)%Q ->
      forall vp raw,
        udp_video_port s = Some vp ->
        env_read e = ReadFrame raw ->
        (exists p q, In (EvImencode p q) (events_of (cycle s loc e)))
        /\ forall payload,
             env_encode e = EncResult true payload ->
             Z.of_nat (List.length payload) <= 65000 ->
             exists ok,
               In (EvSendto (sock_fd (sock s)) (PBytes payload) (udp_ip s)
                     vp ok)
                  (events_of (cycle s loc e))).
Proof.
  destruct (cycle s loc e) as [[[flow s'] loc'] evs] eqn:Hc. simpl.
  destruct (env_read e) as [raw0| |what|] eqn:Hread.
  2-4: destruct (cycle_no_frame _ _ _ _ _ _ _ Hc) as (-> & Hk);
    [intros raw; congruence|]; (split; [|split]);
    [ intros _ (ev & Hin & He); exfalso;
      exact (no_preview_effect_among _ _ Hk Hin He)
    | left; split; [reflexivity|]; intros ev Hin;
      destruct (preview_sent ev) eqn:Hs; [|reflexivity];
      exfalso; apply preview_sent_effect in Hs;
      exact (no_preview_effect_among _ _ Hk Hin Hs)
    | intros _ vp raw _ Hraw; discriminate ].
  destruct (cycle_video _ _ _ _ _ _ _ _ Hc Hread)
    as (v & s1 & ev_pred & s2 & loc2 & pic & s3 & ev_vid
        & _ & _ & W & L & _ & Hv & L' & Hincl & Hsub & _).
  apply wiring_fields in W as (W1 & W2 & _ & W4 & W5 & _).
  destruct (send_video_gate _ _ _ _ _ _ _ Hv) as (Ga & Gb & Gc).
  rewrite W5, L in Ga. rewrite L in Gb. rewrite W5, W4, W1, W2 in Gc.
  split; [|split].
  - intros HF (ev & Hin & He).
    assert (Hgate : (fl (1 / video_fps s)
                     <= fl (env_t_video e - _last_video_send_time s))%Q).
    { apply Ga; [exact HF|].
      intro Hnil. specialize (Hsub ev Hin He). now rewrite Hnil in Hsub. }
    split; [exact Hgate|]. split.
    + apply gate_tolerance; [now apply period_pos | exact Hgate].
    + intro Hshort. apply Qle_antisym; [|exact Hgate].
      apply fl_mono. now apply Qlt_le_weak.
  - destruct Gb as [(Gl & Gn) | (Gl & fd & b & host & port & Gin)].
    + left. split; [congruence|].
      intros ev Hin. destruct (preview_sent ev) eqn:Hs; [|reflexivity].
      rewrite <- (Gn ev); [symmetry; exact Hs|].
      apply Hsub; [exact Hin | now apply preview_sent_effect].
    + right. split; [congruence|].
      exists fd, b, host, port. now apply Hincl.
  - intros HF vp raw Hvp Hraw.
    destruct (Gc HF vp Hvp) as (Genc & Gsend). split.
    + do 2 eexists. apply Hincl. exact Genc.
    + intros payload Hp Hlen.
      destruct (Gsend payload Hp Hlen) as (ok & Hok).
      exists ok. now apply Hincl.
Qed.

Lemma preview_rate_limited_witness :
  ((fl (1 / video_fps Scenario.tracker_3fps)
    <= fl (env_t_video Scenario.env_third
           - _last_video_send_time Scenario.tracker_3fps))%Q
   /\ (1 / video_fps Scenario.tracker_3fps * (1 - 2 ^ (-52)) - 2 ^ (-1073)
       <= env_t_video Scenario.env_third
          - _last_video_send_time Scenario.tracker_3fps)%Q
   /\ ((env_t_video Scenario.env_third
        - _last_video_send_time Scenario.tracker_3fps
        < 1 / video_fps Scenario.tracker_3fps)%Q ->
       (fl (env_t_video Scenario.env_third
            - _last_video_send_time Scenario.tracker_3fps)
        == fl (1 / video_fps Scenario.tracker_3fps))%Q))
  /\ exists p q,
       In (EvImencode p q)
          (events_of (cycle Sample.tracker_unlimited Sample.loc0
                        (Sample.env 100%Q (EncResult true Sample.jpeg) (-1)))).
Proof.
  split.
  - apply (proj1 (preview_rate_limited Scenario.tracker_3fps Sample.loc0
                    Scenario.env_third)).
    + reflexivity.
    + exists (EvSendto 3 (PBytes Sample.jpeg) UDP_IP UDP_VIDEO_PORT true).
      split; [|reflexivity].
      vm_compute. right. right. right. now left.
  - apply (proj2 (proj2 (preview_rate_limited Sample.tracker_unlimited
                           Sample.loc0
                           (Sample.env 100%Q (EncResult true Sample.jpeg) (-1))))
             ltac:(vm_compute; discriminate) UDP_VIDEO_PORT Sample.frame
             eq_refl eq_refl).
Defined.

(** ** Classification failure does not stop the loop *)

Lemma cycle_frame_flow s loc e raw :
  env_read e = ReadFrame raw ->
  flow_of (cycle s loc e) = FlowNext \/ flow_of (cycle s loc e) = FlowBreak.
Proof.
  intro Hread.
  destruct (cycle s loc e) as [[[flow s'] loc'] evs] eqn:Hc.
  cycle_paths Hc; try congruence; simpl; auto.
  unfold handle_key in Hk.
  destruct (_ =? ord "q"); [|destruct (_ =? ord "m")];
    injection Hk as <- _ _; auto.
Qed.

(** C7. For every feature vector, when the session is missing or its
    execution throws, [predict_letter] returns ("?", 0.0). In an iteration
    where a hand is found and classification fails in that way, the
    iteration ends normally and calls the telemetry [sendto] on the
    tracker's socket with letter "?", confidence 0.0, [hand_detected] true
    and the extracted landmarks; the call succeeds whenever the socket is
    open and the network accepts the datagram. *)
Theorem classifier_fails_closed (s : HandTracker) :
  (forall landmarks,
      (onnx_session s = None
       \/ exists session what,
            onnx_session s = Some session
            /\ session_run session landmarks = EngineRaises what) ->
      fst (predict_letter s landmarks) = ("?", 0%Q))
  /\ (forall loc e raw hand more,
        env_read e = ReadFrame raw ->
        env_hands e = hand :: more ->
        (onnx_session s = None
         \/ exists session what,
              onnx_session s = Some session
              /\ session_run session (extract_landmarks hand)
                 = EngineRaises what) ->
        (flow_of (cycle s loc e) = FlowNext
         \/ flow_of (cycle s loc e) = FlowBreak)
        /\ exists d,
             In (EvSendto (sock_fd (sock s)) (PJson d) (udp_ip s) (udp_port s)
                   (negb (sock_closed (sock s)) && env_net_ok e))
                (events_of (cycle s loc e))
             /\ field "hand_detected" d = Some (JBool true)
             /\ field "landmarks" d
                = Some (JArr (map JNum (extract_landmarks hand)))
             /\ field "letter" d = Some (JStr "?")
             /\ field "confidence" d = Some (JNum 0%Q)).
Proof.
  assert (Hclosed : forall landmarks,
             (onnx_session s = None
              \/ exists session what,
                   onnx_session s = Some session
                   /\ session_run session landmarks = EngineRaises what) ->
             fst (predict_letter s landmarks) = ("?", 0%Q)).
  { intros landmarks H. apply predict_letter_fails_closed.
    destruct H as [H | (session & what & H1 & H2)]; [now left|].
    right. exists session, what. split; [exact H1|].
    now apply predict_try_engine_raises. }
  split; [exact Hclosed|].
  intros loc e raw hand more Hread Hhands Hfail.
  split; [eapply cycle_frame_flow; eauto|].
  destruct (cycle_sends_telemetry s loc e raw Hread)
    as (v & s1 & ev_pred & d & Hd & Hin & F1 & F2 & F3 & F4).
  apply detect_vars in Hd. rewrite Hhands in Hd.
  destruct Hd as (D1 & D2 & _ & D4).
  specialize (Hclosed _ Hfail). rewrite D4 in Hclosed. simpl in Hclosed.
  injection Hclosed as Hl Hc.
  exists d. rewrite D1, Hl in *. rewrite D2, Hc in *.
  rewrite extract_landmarks_flat. auto.
Qed.

Lemma classifier_fails_closed_witness :
  fst (predict_letter Sample.tracker_no_model (extract_landmarks Sample.hand))
  = ("?", 0%Q)
  /\ (flow_of (cycle Sample.tracker_broken Sample.loc0
                 (Sample.env 100%Q (EncResult true Sample.jpeg) (-1)))
      = FlowNext
      \/ flow_of (cycle Sample.tracker_broken Sample.loc0
                    (Sample.env 100%Q (EncResult true Sample.jpeg) (-1)))
         = FlowBreak).
Proof.
  split.
  - apply (proj1 (classifier_fails_closed Sample.tracker_no_model)).
    left. reflexivity.
  - apply (proj2 (classifier_fails_closed Sample.tracker_broken)
             Sample.loc0
             (Sample.env 100%Q (EncResult true Sample.jpeg) (-1))
             Sample.frame Sample.hand [] eq_refl eq_refl).
    right. exists Sample.session_broken, "InvalidArgument".
    split; reflexivity.
Defined.

(** ** Which frame goes to the preview channel *)

Lemma draw_overlay_annotated s frame hl letter c buf display :
  draw_overlay s frame hl letter c = (buf, display) ->
  base display = base frame
  /\ In OpShade (ops display)
  /\ (exists status, In (OpText (TStr status) 20 35) (ops display))
  /\ In (OpText (TFps (fps s)) 20 120) (ops display)
  /\ match hl with
     | Some h => In (OpLandmarks h) (ops display)
     | None => True
     end.
Proof.
  unfold draw_overlay. destruct (pic_shape frame) as [h w].
  destruct hl as [hand|]; simpl;
    destruct (negb (String.eqb letter "")); simpl;
    try destruct (negb (String.eqb letter "?")); simpl;
    intro H; injection H as <- <-; simpl;
    (split; [reflexivity|]);
    rewrite !in_app_iff; simpl;
    repeat split; eauto 10;
    eexists; rewrite !in_app_iff; simpl; eauto 10.
Qed.

Lemma shrink_wiring s s' pic :
  wiring s' = wiring s -> shrink s' pic = shrink s pic.
Proof.
  intro H.
  assert (Hw : video_width s' = video_width s)
    by (unfold wiring in H; congruence).
  unfold shrink. now rewrite Hw.
Qed.

(** At width 328 a picture of 640 x 480 becomes 245 rows high, as
    [int(480 * (328 / 640.0))] is: the exact product is 246. *)
Example shrink_rounds_height :
  pic_shape (shrink Scenario.tracker_w328 Scenario.vga) = (245, 328)
  /\ py_int (inject_Z 480 * (inject_Z 328 / inject_Z 640))%Q = 246.
Proof. split; vm_compute; reflexivity. Qed.

Lemma shrink_keeps_drawing s pic :
  base (shrink s pic) = base pic
  /\ filter is_drawing (ops (shrink s pic)) = filter is_drawing (ops pic).
Proof.
  unfold shrink. destruct (pic_shape pic) as [h w].
  destruct ((0 <? video_width s) && (video_width s <? w)); simpl; auto.
  rewrite filter_app. simpl. now rewrite app_nil_r.
Qed.

(** C10. In an iteration that reads a frame, whatever picture is handed
    to the JPEG encoder of the preview channel is
    - with the debug window enabled: the (resized) display frame shown by
      [cv2.imshow] in that iteration, which is the acquired frame with the
      overlay drawn on it, and differs from the (resized) acquired frame;
    - with the debug window disabled: the (resized) acquired frame, raw or
      mirrored, with nothing drawn on it. *)
Theorem preview_streams_display_frame
    (s : HandTracker) (loc : LoopVars) (e : CycleEnv) (raw : Frame)
    (p : Picture) (q : Z) :
  env_read e = ReadFrame raw ->
  In (EvImencode p q) (events_of (cycle s loc e)) ->
  if show_window s then
    exists display,
      In (EvImshow display) (events_of (cycle s loc e))
      /\ p = shrink s display
      /\ base display = mirrored s raw
      /\ annotated (env_hands e) display
      /\ p <> shrink s (of_frame (mirrored s raw))
  else
    p = shrink s (of_frame (mirrored s raw))
    /\ filter is_drawing (ops p) = []
    /\ forall display, ~ In (EvImshow display) (events_of (cycle s loc e)).
Proof.
  intros Hread Hin.
  destruct (cycle s loc e) as [[[flow s'] loc'] evs] eqn:Hc. simpl in *.
  destruct (cycle_video _ _ _ _ _ _ _ _ Hc Hread)
    as (v & s1 & ev_pred & s2 & loc2 & pic & s3 & ev_vid
        & Hd & Hu & W & _ & Hpic & Hv & _ & _ & Hsub & Hshow).
  assert (Hp : p = shrink s pic).
  { specialize (Hsub _ Hin eq_refl).
    apply send_video_events in Hv
      as [-> | [-> | (vp & payload & ok & _ & _ & _ & ->)]];
      simpl in Hsub.
    - contradiction.
    - destruct Hsub as [Hsub|[]]. injection Hsub as <- _.
      now apply shrink_wiring.
    - destruct Hsub as [Hsub|[Hsub|[]]]; [|discriminate].
      injection Hsub as <- _. now apply shrink_wiring. }
  destruct (show_window s) eqn:Hwin.
  - destruct (draw_overlay s2 (of_frame (mirrored s raw))
                (fv_hand_landmarks_draw v) (fv_letter v) (fv_confidence v))
      as [buf display] eqn:Hov.
    simpl in Hpic. subst pic.
    destruct (draw_overlay_annotated _ _ _ _ _ _ _ Hov)
      as (B & A1 & A2 & A3 & A4).
    exists display. repeat split; auto.
    + now apply Hshow.
    + eauto.
    + apply detect_vars in Hd.
      destruct (env_hands e) as [|h hs]; [exact I|].
      destruct Hd as (_ & _ & D3 & _). now rewrite D3 in A4.
    + intro Heq. subst p.
      assert (F : filter is_drawing (ops (shrink s display))
                  = filter is_drawing
                      (ops (shrink s (of_frame (mirrored s raw)))))
        by now rewrite Heq.
      rewrite (proj2 (shrink_keeps_drawing s display)) in F.
      rewrite (proj2 (shrink_keeps_drawing s (of_frame (mirrored s raw)))) in F.
      simpl in F.
      assert (Hs : In OpShade (filter is_drawing (ops display)))
        by (apply filter_In; split; [exact A1 | reflexivity]).
      rewrite F in Hs. contradiction.
  - subst pic. split; [exact Hp|]. split.
    + subst p. now rewrite (proj2 (shrink_keeps_drawing _ _)).
    + intros display Hd'. apply Hshow in Hd' as [? _]. discriminate.
Qed.

Lemma preview_streams_display_frame_witness :
  (exists display,
      In (EvImshow display)
         (events_of (cycle (Sample.tracker true Sample.ienv) Sample.loc0
                       (Sample.press "x")))
      /\ hd (of_frame [])
            (Sample.pictures_encoded
               (events_of (cycle (Sample.tracker true Sample.ienv)
                             Sample.loc0 (Sample.press "x"))))
         = shrink (Sample.tracker true Sample.ienv) display
      /\ base display = mirrored (Sample.tracker true Sample.ienv) Sample.frame
      /\ annotated [Sample.hand] display
      /\ hd (of_frame [])
            (Sample.pictures_encoded
               (events_of (cycle (Sample.tracker true Sample.ienv)
                             Sample.loc0 (Sample.press "x"))))
         <> shrink (Sample.tracker true Sample.ienv)
              (of_frame (mirrored (Sample.tracker true Sample.ienv)
                           Sample.frame)))
  /\ (of_frame (cv2_flip Sample.frame)
      = shrink (Sample.tracker false Sample.ienv)
          (of_frame (mirrored (Sample.tracker false Sample.ienv) Sample.frame))
      /\ filter is_drawing (ops (of_frame (cv2_flip Sample.frame))) = []
      /\ forall display,
           ~ In (EvImshow display)
               (events_of (cycle (Sample.tracker false Sample.ienv)
                             Sample.loc0 (Sample.press "x")))).
Proof.
  split.
  - apply (preview_streams_display_frame
             (Sample.tracker true Sample.ienv) Sample.loc0 (Sample.press "x")
             Sample.frame _ 55 eq_refl).
    vm_compute. right. right. left. reflexivity.
  - apply (preview_streams_display_frame
             (Sample.tracker false Sample.ienv) Sample.loc0 (Sample.press "x")
             Sample.frame (of_frame (cv2_flip Sample.frame)) 55 eq_refl).
    vm_compute. right. left. reflexivity.
Defined.

(** ** Mirror mode in the loop *)

(** C8. The mirror transform [cv2.flip(frame, 1)] is a horizontal flip
    and a function of the frame alone: it keeps the number of rows, keeps
    every row in place and of the same length, and puts at column [j] the
    pixel that was at column [len - 1 - j] of that row.  The loop applies
    it to the camera image exactly when mirror mode is on, and what it
    then shows and hands to the preview encoder is drawn on that image.
    The flip is an involution; the key 'm' toggles mirror mode, toggling
    flips what the loop acquires from a given camera image, and toggling
    twice restores both the flag and the acquired orientation. *)
Theorem mirror_flip_is_involution (s : HandTracker) (raw : Frame) :
  List.length (cv2_flip raw) = List.length raw
  /\ (forall i row,
        nth_error raw i = Some row ->
        exists row',
          nth_error (cv2_flip raw) i = Some row'
          /\ List.length row' = List.length row
          /\ forall j, (j < List.length row)%nat ->
               nth_error row' j
               = nth_error row (List.length row - 1 - j)%nat)
  /\ (forall loc e d,
        env_read e = ReadFrame raw ->
        In (EvImshow d) (events_of (cycle s loc e)) ->
        base d = if mirror_mode s then cv2_flip raw else raw)
  /\ (forall loc e p q,
        env_read e = ReadFrame raw ->
        In (EvImencode p q) (events_of (cycle s loc e)) ->
        base p = if mirror_mode s then cv2_flip raw else raw)
  /\ (forall k, Z.land k 255 = ord "m" ->
        snd (fst (handle_key s k)) = toggle_mirror s)
  /\ cv2_flip (cv2_flip raw) = raw
  /\ mirrored (toggle_mirror s) raw = cv2_flip (mirrored s raw)
  /\ mirrored (toggle_mirror (toggle_mirror s)) raw = mirrored s raw
  /\ mirror_mode (toggle_mirror (toggle_mirror s)) = mirror_mode s.
Proof.
  assert (Hpic : forall loc e flow s' loc' evs,
             cycle s loc e = (flow, s', loc', evs) ->
             env_read e = ReadFrame raw ->
             exists s2 pic s3 ev_vid,
               base pic = mirrored s raw
               /\ _send_video_frame_to_unity s2 pic (env_t_video e)
                    (env_encode e) (env_video_net_ok e) = (s3, ev_vid)
               /\ (forall ev, In ev evs -> is_preview_effect ev = true ->
                              In ev ev_vid)
               /\ (forall d, In (EvImshow d) evs -> d = pic)).
  { intros loc e flow s' loc' evs Hc Hread.
    destruct (cycle_video _ _ _ _ _ _ _ _ Hc Hread)
      as (v & s1 & ev_pred & s2 & loc2 & pic & s3 & ev_vid
          & _ & _ & _ & _ & Hpic & Hv & _ & _ & Hsub & Hshow).
    exists s2, pic, s3, ev_vid. split; [|split; [exact Hv|split]].
    - subst pic. destruct (show_window s); [|reflexivity].
      destruct (draw_overlay s2 (of_frame (mirrored s raw))
                  (fv_hand_landmarks_draw v) (fv_letter v) (fv_confidence v))
        as [buf display] eqn:Hov.
      now destruct (draw_overlay_annotated _ _ _ _ _ _ _ Hov) as (B & _).
    - exact Hsub.
    - intros d Hd. now apply Hshow in Hd. }
  split; [apply cv2_flip_shape|].
  split; [intros i row; apply cv2_flip_pixels|].
  split; [|split; [|split; [|split; [|split; [|split]]]]].
  - intros loc e d Hread Hin.
    destruct (cycle s loc e) as [[[flow s'] loc'] evs] eqn:Hc.
    cbn [events_of] in Hin.
    destruct (Hpic _ _ _ _ _ _ Hc Hread)
      as (s2 & pic & s3 & ev_vid & Hb & _ & _ & Hshow).
    rewrite (Hshow d Hin). exact Hb.
  - intros loc e p q Hread Hin.
    destruct (cycle s loc e) as [[[flow s'] loc'] evs] eqn:Hc.
    cbn [events_of] in Hin.
    destruct (Hpic _ _ _ _ _ _ Hc Hread)
      as (s2 & pic & s3 & ev_vid & Hb & Hv & Hsub & _).
    specialize (Hsub _ Hin eq_refl).
    assert (Hp : p = shrink s2 pic).
    { apply send_video_events in Hv
        as [-> | [-> | (vp & payload & ok & _ & _ & _ & ->)]];
        simpl in Hsub.
      - contradiction.
      - destruct Hsub as [Hsub|[]]. now injection Hsub as <- _.
      - destruct Hsub as [Hsub|[Hsub|[]]]; [|discriminate].
        now injection Hsub as <- _. }
    subst p. rewrite (proj1 (shrink_keeps_drawing s2 pic)). exact Hb.
  - intros k Hk. unfold handle_key. rewrite Hk. reflexivity.
  - apply cv2_flip_involutive.
  - unfold mirrored, toggle_mirror, set_mirror_mode; simpl.
    destruct (mirror_mode s); simpl;
      [now rewrite cv2_flip_involutive | reflexivity].
  - now rewrite toggle_mirror_involutive.
  - now rewrite toggle_mirror_involutive.
Qed.

(** ** Keyboard *)

(** With the debug window shown, an iteration never calls [cv2.waitKey]:
    it cannot leave the loop by [break] and leaves mirror mode alone. *)
Lemma window_cycle_never_polls s loc e :
  show_window s = true ->
  Forall (fun ev => is_waitkey ev = false) (events_of (cycle s loc e))
  /\ flow_of (cycle s loc e) <> FlowBreak
  /\ mirror_mode (state_of (cycle s loc e)) = mirror_mode s.
Proof.
  intro Hwin.
  destruct (cycle s loc e) as [[[flow s'] loc'] evs] eqn:Hc. simpl.
  cycle_paths Hc;
    try (repeat split; [repeat constructor | discriminate]).
  - pose proof (detect_events _ _ _ _ _ Hd) as E1.
    apply detect_wiring in Hd as (_ & M1 & _).
    apply update_fps_wiring in Hu as (_ & M2 & _).
    pose proof (send_video_events _ _ _ _ _ _ _ Hv) as Ev.
    apply send_video_wiring in Hv as (_ & M3 & _).
    destruct (send_to_unity_events s1 (fv_landmarks v) (fv_letter v)
                (fv_confidence v) (fv_hand_detected v) (env_t_msg e)
                (env_net_ok e)) as (data & k & prints & -> & Hp & _).
    split; [|split; [discriminate | congruence]].
    rewrite !Forall_app. repeat split.
    + eapply Forall_impl; [|exact E1]. intros []; cbv; congruence.
    + constructor; [reflexivity|].
      eapply Forall_impl; [|exact Hp]. intros []; cbv; congruence.
    + constructor; [reflexivity|].
      destruct Ev as [-> | [-> | (vp & payload & ok & _ & _ & _ & ->)]];
        repeat constructor.
  - exfalso.
    apply detect_wiring in Hd as (W1 & _).
    apply update_fps_wiring in Hu as (W2 & _).
    pose proof (wiring_fields s s2 ltac:(congruence)) as (_&_&_&_&_&S&_).
    congruence.
Qed.

Lemma window_loop_pending (envs : list CycleEnv) : forall s loc,
  show_window s = true ->
  is_running s = true ->
  Forall (fun e => env_read e = ReadFail \/ exists raw, env_read e = ReadFrame raw)
         envs ->
  fst (fst (run_loop s loc envs)) = LoopPending.
Proof.
  induction envs as [|e envs IH]; intros s loc Hwin Hrun Hreads; simpl;
    rewrite Hrun; simpl; [reflexivity|].
  inversion Hreads as [|? ? He Hrest]; subst.
  destruct (cycle s loc e) as [[[flow s1] loc1] ev1] eqn:Hc.
  pose proof (wiring_fields _ _ (cycle_wiring _ _ _ _ _ _ _ Hc))
    as (_ & _ & _ & _ & _ & Hw1 & Hr1 & _).
  assert (Hflow : flow = FlowNext).
  { destruct (window_cycle_never_polls s loc e Hwin) as (_ & Hnb & _).
    rewrite Hc in Hnb. simpl in Hnb.
    destruct He as [He | (raw & He)].
    - unfold cycle in Hc. rewrite He in Hc. now injection Hc as <- _ _ _.
    - destruct (cycle_frame_flow s loc e raw He) as [H | H];
        rewrite Hc in H; simpl in H; congruence. }
  subst flow.
  specialize (IH s1 loc1 ltac:(congruence) ltac:(congruence) Hrest).
  destruct (run_loop s1 loc1 envs) as [[r s2] ev2]. exact IH.
Qed.

(** With the debug window shown and a working camera, no sequence of key
    presses ends the run: as long as frames keep being read (or skipped)
    the loop is still running. *)
Lemma window_run_cannot_be_quit s t0 envs :
  cap_opened (cap s) = true ->
  show_window s = true ->
  Forall (fun e => env_read e = ReadFail \/ exists raw, env_read e = ReadFrame raw)
         envs ->
  fst (fst (run s t0 envs)) = RunPending.
Proof.
  intros Hcap Hwin Hreads. unfold run. rewrite Hcap. simpl.
  pose proof (window_loop_pending envs (set_is_running s true)
                (mkLoopVars t0 0) Hwin eq_refl Hreads) as H.
  destruct (run_loop (set_is_running s true) (mkLoopVars t0 0) envs)
    as [[r s2] evs]. simpl in H. now subst r.
Qed.

(** Without the window, two 'm' presses restore the tracker. *)
Lemma handle_key_m_twice s k :
  Z.land k 255 = ord "m" ->
  snd (fst (handle_key (snd (fst (handle_key s k))) k)) = s.
Proof.
  intro Hk. unfold handle_key. rewrite Hk. simpl.
  apply toggle_mirror_involutive.
Qed.

(** C1 (the code departs from the claim). Default tracker, 'q' pressed
    during three consecutive iterations, then 'm' during one:
    - with the debug window enabled the run is still in its loop, no
      [cv2.waitKey] call was made, and mirror mode did not change;
    - with the debug window disabled the key is polled, the first 'q'
      ends the run, and 'm' toggles mirror mode. *)
Theorem keys_polled_only_without_window :
  let s := Sample.tracker true Sample.ienv in
  let s_headless := Sample.tracker false Sample.ienv in
  let qqq := [Sample.press "q"; Sample.press "q"; Sample.press "q"] in
  fst (fst (run s 0%Q qqq)) = RunPending
  /\ filter is_waitkey (snd (run s 0%Q qqq)) = []
  /\ mirror_mode (state_of (cycle s Sample.loc0 (Sample.press "m")))
     = mirror_mode s
  /\ fst (fst (run s_headless 0%Q qqq)) = RunReturned
  /\ filter is_waitkey (snd (run s_headless 0%Q qqq)) = [EvWaitKey (ord "q")]
  /\ mirror_mode (state_of (cycle s_headless Sample.loc0 (Sample.press "m")))
     = negb (mirror_mode s_headless).
Proof.
  vm_compute. repeat split.
Qed.

(** ** Teardown *)

Lemma cleanup_releases_all s :
  let s' := fst (cleanup s) in
  is_running s' = false
  /\ cap_opened (cap s') = false
  /\ hands_closed (hands s') = true
  /\ sock_closed (sock s') = true
  /\ filter is_release (snd (cleanup s))
     = [EvCapRelease; EvHandsClose; EvSockClose (sock_fd (sock s));
        EvDestroyAllWindows].
Proof.
  simpl. repeat split.
Qed.

(** Once the loop has been entered, every way of leaving it ([break],
    KeyboardInterrupt, any other exception) runs [cleanup] last. *)
Lemma loop_exit_runs_cleanup s t0 envs r s' evs :
  cap_opened (cap s) = true ->
  run s t0 envs = (r, s', evs) ->
  r <> RunPending ->
  exists before s2,
    evs = before ++ snd (cleanup s2)
    /\ s' = fst (cleanup s2)
    /\ (r = RunReturned \/ exists what, r = RunRaised what).
Proof.
  intros Hcap Hrun Hr. unfold run in Hrun. rewrite Hcap in Hrun. simpl in Hrun.
  destruct (run_loop (set_is_running s true) (mkLoopVars t0 0) envs)
    as [[[| | |what] s2] pre]; injection Hrun as <- <- <-.
  - congruence.
  - exists pre, s2. auto.
  - exists (pre ++ [EvPrint InfoInterrupt]), s2.
    rewrite <- app_assoc. auto.
  - exists pre, s2. repeat split. right. now exists what.
Qed.

(** C2 (the code departs from the claim). When the camera could not be
    opened, [run] returns before its [try]/[finally]: it prints one line,
    [cleanup] is not invoked, and the socket and the MediaPipe session
    acquired by [__init__] stay as they were. *)
Theorem camera_failure_skips_cleanup
    (s : HandTracker) (t0 : Q) (envs : list CycleEnv) :
  cap_opened (cap s) = false ->
  run s t0 envs = (RunAborted, s, [EvPrint ErrNoCamera])
  /\ filter is_release (snd (run s t0 envs)) = []
  /\ sock (snd (fst (run s t0 envs))) = sock s
  /\ hands (snd (fst (run s t0 envs))) = hands s.
Proof.
  intro Hcap. unfold run. rewrite Hcap. simpl. repeat split.
Qed.

Lemma camera_failure_skips_cleanup_witness :
  run (Sample.tracker true Sample.ienv_no_camera) 0%Q [Sample.press "q"]
  = (RunAborted, Sample.tracker true Sample.ienv_no_camera,
     [EvPrint ErrNoCamera])
  /\ filter is_release
       (snd (run (Sample.tracker true Sample.ienv_no_camera) 0%Q
               [Sample.press "q"])) = []
  /\ sock (snd (fst (run (Sample.tracker true Sample.ienv_no_camera) 0%Q
                       [Sample.press "q"])))
     = mkSocket 3 false
  /\ hands (snd (fst (run (Sample.tracker true Sample.ienv_no_camera) 0%Q
                        [Sample.press "q"])))
     = mkHands false.
Proof.
  apply (camera_failure_skips_cleanup
           (Sample.tracker true Sample.ienv_no_camera) 0%Q [Sample.press "q"]).
  reflexivity.
Defined.

(* ===================================================================== *)
(** * Further properties of the code *)

(** ** [landmarks_to_vectors] *)

Lemma list_ind3 (P : list Q -> Prop) :
  P [] -> (forall a, P [a]) -> (forall a b, P [a; b]) ->
  (forall a b c r, P r -> P (a :: b :: c :: r)) ->
  forall l, P l.
Proof.
  intros H0 H1 H2 H3. fix IH 1.
  intros [|a [|b [|c r]]];
    [apply H0 | apply H1 | apply H2 | apply H3, IH].
Qed.

Lemma range3_step (n : nat) :
  ((S (S (S n)) + 2) / 3 = S ((n + 2) / 3))%nat.
Proof.
  replace (S (S (S n)) + 2)%nat with (n + 2 + 1 * 3)%nat by lia.
  rewrite Nat.div_add by lia. lia.
Qed.

Lemma nth_error_past (pre rest : list Q) (j t : nat) :
  List.length pre = (3 * j)%nat ->
  nth_error (pre ++ rest) (3 * j + t) = nth_error rest t.
Proof.
  intro Hlen. rewrite nth_error_app2 by lia. f_equal. lia.
Qed.

Lemma l2v_loop (rest : list Q) : forall (pre : list Q) (acc : list (Q * Q * Q)) (j : nat),
  List.length pre = (3 * j)%nat ->
  fold_left
    (fun vectors i =>
       match vectors with
       | Raise what => Raise what
       | Ok vs =>
           match nth_error (pre ++ rest) i,
                 nth_error (pre ++ rest) (i + 1),
                 nth_error (pre ++ rest) (i + 2) with
           | Some a, Some b, Some c => Ok (vs ++ [(a, b, c)])
           | _, _, _ => Raise "IndexError"
           end
       end)
    (map (fun k => (3 * k)%nat) (seq j ((List.length rest + 2) / 3))) (Ok acc)
  = match chunks3 rest with
    | Ok vs => Ok (acc ++ vs)
    | Raise what => Raise what
    end.
Proof.
  induction rest as [|a|a b|a b c rest IH] using list_ind3;
    intros pre acc j Hlen.
  - simpl. now rewrite app_nil_r.
  - cbn [List.length]. change ((1 + 2) / 3)%nat with 1%nat. cbn [seq map fold_left].
    replace (3 * j)%nat with (3 * j + 0)%nat at 1 by lia.
    rewrite !nth_error_past by exact Hlen. reflexivity.
  - cbn [List.length]. change ((2 + 2) / 3)%nat with 1%nat. cbn [seq map fold_left].
    replace (3 * j)%nat with (3 * j + 0)%nat at 1 by lia.
    rewrite !nth_error_past by exact Hlen. reflexivity.
  - cbn [List.length]. rewrite range3_step. cbn [seq map fold_left].
    replace (3 * j)%nat with (3 * j + 0)%nat at 1 by lia.
    rewrite !nth_error_past by exact Hlen. cbn [nth_error].
    replace (pre ++ a :: b :: c :: rest) with ((pre ++ [a; b; c]) ++ rest)
      by now rewrite <- app_assoc.
    rewrite (IH (pre ++ [a; b; c]) (acc ++ [(a, b, c)]) (S j)).
    + cbn [chunks3]. destruct (chunks3 rest) as [vs|what]; [|reflexivity].
      now rewrite <- app_assoc.
    + rewrite length_app. cbn [List.length]. lia.
Qed.

Lemma landmarks_to_vectors_chunks (l : list Q) :
  landmarks_to_vectors l = chunks3 l.
Proof.
  unfold landmarks_to_vectors, range3.
  pose proof (l2v_loop l [] [] 0 eq_refl) as H. cbn [app] in H.
  rewrite H. now destruct (chunks3 l).
Qed.

Lemma chunks3_flat (vs : list (Q * Q * Q)) :
  chunks3 (flat_map flat3 vs) = Ok vs.
Proof.
  induction vs as [|[[a b] c] vs IH]; [reflexivity|].
  cbn [flat_map flat3 app chunks3]. now rewrite IH.
Qed.

Lemma chunks3_ok (l : list Q) : forall vs,
  chunks3 l = Ok vs -> l = flat_map flat3 vs.
Proof.
  induction l as [|a|a b|a b c l IH] using list_ind3; intros vs H;
    cbn [chunks3] in H; try discriminate.
  - now injection H as <-.
  - destruct (chunks3 l) as [vs'|what]; [|discriminate].
    injection H as <-. cbn [flat_map flat3 app]. now rewrite (IH vs' eq_refl).
Qed.

Lemma flat3_length (vs : list (Q * Q * Q)) :
  List.length (flat_map flat3 vs) = (3 * List.length vs)%nat.
Proof.
  induction vs as [|[[a b] c] vs IH]; [reflexivity|].
  cbn [flat_map flat3 app List.length]. rewrite IH. lia.
Qed.

Lemma chunks3_raises (l : list Q) :
  (exists what, chunks3 l = Raise what) <-> (List.length l mod 3 <> 0)%nat.
Proof.
  induction l as [|a|a b|a b c l IH] using list_ind3.
  - split; [intros [w H]; discriminate | intro H; now destruct H].
  - split; [intros _; discriminate | intros _; now eexists].
  - split; [intros _; discriminate | intros _; now eexists].
  - cbn [chunks3 List.length].
    replace (S (S (S (List.length l)))) with (List.length l + 1 * 3)%nat by lia.
    rewrite Nat.Div0.mod_add. rewrite <- IH.
    destruct (chunks3 l) as [vs|what]; split; intros [w H];
      try discriminate; now eexists.
Qed.

(** X1. Splitting the flat list produced by [extract_landmarks] gives
    back the keypoints of the hand, one (x, y, z) tuple each, in order. *)
Theorem vectors_of_extracted_landmarks (h : Hand) :
  landmarks_to_vectors (extract_landmarks h) = Ok (map point (landmark h)).
Proof.
  rewrite landmarks_to_vectors_chunks, extract_landmarks_flat.
  replace (flat_map xyz (landmark h))
    with (flat_map flat3 (map point (landmark h))).
  - apply chunks3_flat.
  - induction (landmark h) as [|lm l IH]; [reflexivity|].
    cbn [map flat_map]. now rewrite IH.
Qed.

(** X2. [landmarks_to_vectors] succeeds exactly on the lists that are a
    sequence of triples laid out flat, and then returns those triples (a
    third as many as there are values); on every list whose length is not
    a multiple of 3 it raises [IndexError], and on no other. *)
Theorem landmarks_to_vectors_total_on_triples (landmarks : list Q) :
  (forall vs, landmarks_to_vectors landmarks = Ok vs
              <-> landmarks = flat_map flat3 vs)
  /\ (forall vs, landmarks_to_vectors landmarks = Ok vs ->
                 List.length landmarks = (3 * List.length vs)%nat)
  /\ ((exists what, landmarks_to_vectors landmarks = Raise what)
      <-> (List.length landmarks mod 3 <> 0)%nat)
  /\ (forall what, landmarks_to_vectors landmarks = Raise what ->
                   what = "IndexError").
Proof.
  rewrite landmarks_to_vectors_chunks. repeat split.
  - apply chunks3_ok.
  - intros ->. apply chunks3_flat.
  - intros vs H. apply chunks3_ok in H. subst. apply flat3_length.
  - apply chunks3_raises.
  - apply chunks3_raises.
  - revert landmarks.
    induction landmarks as [|a|a b|a b c l IH] using list_ind3;
      intros what H; cbn [chunks3] in H; try discriminate;
      try (now injection H as <-).
    destruct (chunks3 l) as [vs|w]; [discriminate|].
    injection H as <-. now apply IH.
Qed.

(** ** Preview encoder: resizing and quality *)

Lemma ops_shape_resize (l : list ImgOp) : forall sh w h,
  ops_shape sh (l ++ [OpResize w h]) = (h, w).
Proof.
  induction l as [|o l IH]; intros sh w h; [reflexivity|].
  destruct o; simpl; apply IH.
Qed.

Lemma pic_shape_resize (p : Picture) (w h : Z) :
  pic_shape (apply_op p (OpResize w h)) = (h, w).
Proof.
  unfold pic_shape, apply_op. simpl. apply ops_shape_resize.
Qed.

(** X3. The resize step of the preview sender is idempotent, is switched
    off by a target width of 0 or less, leaves alone every picture that
    is not wider than the target, and otherwise yields a picture exactly
    as wide as the target and at least one pixel high: with a positive
    target no picture wider than it reaches the encoder. *)
Theorem shrink_never_widens (s : HandTracker) (p : Picture) :
  shrink s (shrink s p) = shrink s p
  /\ (video_width s <= 0 -> shrink s p = p)
  /\ (snd (pic_shape p) <= video_width s -> shrink s p = p)
  /\ (0 < video_width s -> snd (pic_shape (shrink s p)) <= video_width s)
  /\ (shrink s p <> p ->
      snd (pic_shape (shrink s p)) = video_width s
      /\ 1 <= fst (pic_shape (shrink s p))).
Proof.
  destruct (pic_shape p) as [h w] eqn:Hp.
  destruct ((0 <? video_width s) && (video_width s <? w)) eqn:Hc.
  - assert (E : exists new_h,
               shrink s p = apply_op p (OpResize (video_width s) (Z.max 1 new_h))).
    { unfold shrink. rewrite Hp, Hc. now eexists. }
    destruct E as [new_h E]. rewrite E.
    apply andb_prop in Hc as [H0 Hw].
    apply Z.ltb_lt in H0. apply Z.ltb_lt in Hw.
    rewrite !pic_shape_resize, ?Hp. simpl.
    repeat split; try lia.
    unfold shrink. rewrite pic_shape_resize.
    now rewrite Z.ltb_irrefl, andb_false_r.
  - assert (Hsame : shrink s p = p) by (unfold shrink; now rewrite Hp, Hc).
    rewrite !Hsame, ?Hp. simpl.
    apply andb_false_iff in Hc.
    repeat split; auto; try congruence.
    intro H0.
    destruct Hc as [Hc | Hc]; apply Z.ltb_ge in Hc; lia.
Qed.

Lemma wiring_preview_settings s s' :
  wiring s' = wiring s ->
  video_jpeg_quality s' = video_jpeg_quality s
  /\ video_width s' = video_width s
  /\ udp_video_port s' = udp_video_port s.
Proof.
  unfold wiring. intro H. repeat split; congruence.
Qed.

(** Whatever an iteration does on the preview channel is done by one call
    of the preview sender, on a tracker wired like the one the iteration
    started with. *)
Lemma cycle_preview_effect s loc e flow s' loc' evs ev :
  cycle s loc e = (flow, s', loc', evs) ->
  In ev evs -> is_preview_effect ev = true ->
  exists s2 pic s3 ev_vid,
    wiring s2 = wiring s
    /\ _send_video_frame_to_unity s2 pic (env_t_video e) (env_encode e)
         (env_video_net_ok e) = (s3, ev_vid)
    /\ In ev ev_vid.
Proof.
  intros Hc Hin He.
  destruct (env_read e) as [raw| |what|] eqn:Hread.
  2-4: exfalso;
    destruct (cycle_no_frame _ _ _ _ _ _ _ Hc) as (_ & Hk);
    [intros raw; congruence|];
    exact (no_preview_effect_among _ _ Hk Hin He).
  destruct (cycle_video _ _ _ _ _ _ _ _ Hc Hread)
    as (v & s1 & ev_pred & s2 & loc2 & pic & s3 & ev_vid
        & _ & _ & W & _ & _ & Hv & _ & _ & Hsub & _).
  exists s2, pic, s3, ev_vid. auto.
Qed.

Lemma quality_ok_housekeeping s ev : housekeeping ev = true -> quality_ok s ev.
Proof.
  destruct ev; simpl; auto; discriminate.
Qed.

Lemma cycle_quality s loc e flow s' loc' evs :
  cycle s loc e = (flow, s', loc', evs) -> Forall (quality_ok s) evs.
Proof.
  intro Hc. apply Forall_forall.
  intros [fd data host port ok|p|p q|k| | |fd| |m] Hin; simpl; auto.
  destruct (cycle_preview_effect _ _ _ _ _ _ _ _ Hc Hin eq_refl)
    as (s2 & pic & s3 & ev_vid & W & Hv & Hin').
  apply wiring_preview_settings in W as (Wq & _).
  apply send_video_events in Hv
    as [-> | [-> | (vp & payload & ok & _ & _ & _ & ->)]];
    simpl in Hin'.
  - contradiction.
  - destruct Hin' as [Hin'|[]]. injection Hin' as _ <-.
    rewrite Wq. unfold np_clip. lia.
  - destruct Hin' as [Hin'|[Hin'|[]]]; [|discriminate].
    injection Hin' as _ <-. rewrite Wq. unfold np_clip. lia.
Qed.

(** X4. In every run, each time the JPEG encoder is invoked the quality
    it is given is the configured quality clamped to [10, 95]: it always
    lies in that range, and it is the configured value whenever that one
    does. *)
Theorem encoder_quality_clamped
    (s : HandTracker) (t0 : Q) (envs : list CycleEnv) (p : Picture) (q : Z) :
  In (EvImencode p q) (snd (run s t0 envs)) ->
  10 <= q <= 95
  /\ q = np_clip (video_jpeg_quality s) 10 95
  /\ (10 <= video_jpeg_quality s <= 95 -> q = video_jpeg_quality s)
  /\ (video_jpeg_quality s < 10 -> q = 10)
  /\ (95 < video_jpeg_quality s -> q = 95).
Proof.
  intro Hin.
  assert (Hall : Forall (quality_ok s) (snd (run s t0 envs))).
  { apply (run_lift (fun s' => wiring s' = wiring (set_is_running s true))
                    (quality_ok s) envs); [| |reflexivity].
    - intros s1 loc e flow s' loc' evs Hs _ Hc. split.
      + apply cycle_wiring in Hc. congruence.
      + apply cycle_quality in Hc. eapply Forall_impl; [|exact Hc].
        apply wiring_preview_settings in Hs as (Wq & _). simpl in Wq.
        intros [] Hev; simpl in *; auto. now rewrite <- Wq.
    - apply quality_ok_housekeeping. }
  rewrite Forall_forall in Hall. specialize (Hall _ Hin). simpl in Hall.
  destruct Hall as [Hr ->]. unfold np_clip in *. repeat split; lia.
Qed.

Lemma encoder_quality_clamped_witness :
  10 <= 55 <= 95
  /\ 55 = np_clip (video_jpeg_quality (Sample.tracker false Sample.ienv)) 10 95
  /\ (10 <= video_jpeg_quality (Sample.tracker false Sample.ienv) <= 95 ->
      55 = video_jpeg_quality (Sample.tracker false Sample.ienv))
  /\ (video_jpeg_quality (Sample.tracker false Sample.ienv) < 10 -> 55 = 10)
  /\ (95 < video_jpeg_quality (Sample.tracker false Sample.ienv) -> 55 = 95).
Proof.
  apply (encoder_quality_clamped (Sample.tracker false Sample.ienv) 0%Q
           [Sample.press "x"] (of_frame (cv2_flip Sample.frame)) 55).
  vm_compute. right. left. reflexivity.
Defined.

(** ** Preview channel switched off *)

Lemma send_video_disabled s pic now enc net :
  udp_video_port s = None ->
  _send_video_frame_to_unity s pic now enc net = (s, []).
Proof.
  unfold _send_video_frame_to_unity. now intros ->.
Qed.

(** X5. With the preview channel switched off (no video port) a run
    never invokes the JPEG encoder and never sends a datagram of raw
    bytes; this is what a program started with [--no-video] does. *)
Theorem no_video_no_preview :
  (forall s t0 envs,
      udp_video_port s = None ->
      Forall (fun ev => is_preview_effect ev = false) (snd (run s t0 envs)))
  /\ (forall args ienv t0 envs,
        arg_no_video args = true ->
        Forall (fun ev => is_preview_effect ev = false)
               (snd (main args ienv t0 envs))).
Proof.
  assert (Hrun : forall s t0 envs,
             udp_video_port s = None ->
             Forall (fun ev => is_preview_effect ev = false)
                    (snd (run s t0 envs))).
  { intros s t0 envs Hnone.
    apply (run_lift (fun s' => udp_video_port s' = None)
                    (fun ev => is_preview_effect ev = false) envs);
      [| |exact Hnone].
    - intros s1 loc e flow s' loc' evs Hs _ Hc. split.
      + apply cycle_wiring, wiring_preview_settings in Hc as (_ & _ & W).
        congruence.
      + apply Forall_forall. intros ev Hin.
        destruct (is_preview_effect ev) eqn:He; [|reflexivity].
        destruct (cycle_preview_effect _ _ _ _ _ _ _ _ Hc Hin He)
          as (s2 & pic & s3 & ev_vid & W & Hv & Hin').
        apply wiring_preview_settings in W as (_ & _ & W).
        rewrite send_video_disabled in Hv by congruence.
        injection Hv as _ <-. contradiction.
    - apply housekeeping_not_preview_effect. }
  split; [exact Hrun|].
  intros args ienv t0 envs Hnv. unfold main. apply Hrun. simpl.
  now rewrite Hnv.
Qed.

Lemma no_video_no_preview_witness :
  Forall (fun ev => is_preview_effect ev = false)
         (snd (run Scenario.tracker_no_video 0%Q
                 [Sample.press "x"; Sample.press "x"]))
  /\ Forall (fun ev => is_preview_effect ev = false)
            (snd (main (mkArgs 0 UDP_PORT UDP_VIDEO_PORT true 10%Q 320 55
                          UDP_IP false false)
                    Sample.ienv 0%Q [Sample.press "x"])).
Proof.
  split.
  - apply (proj1 no_video_no_preview). reflexivity.
  - apply (proj2 no_video_no_preview). reflexivity.
Defined.


(** ** Telemetry is sent once per frame *)

Lemma telemetry_fds_app (a b : list Event) :
  telemetry_fds (a ++ b) = telemetry_fds a ++ telemetry_fds b.
Proof.
  induction a as [|ev a IH]; [reflexivity|].
  destruct ev as [fd [d|bs] host port ok| | | | | | | |]; simpl;
    now rewrite IH.
Qed.

Lemma telemetry_fds_housekeeping (evs : list Event) :
  Forall (fun ev => housekeeping ev = true) evs -> telemetry_fds evs = [].
Proof.
  induction 1 as [|ev evs Hev _ IH]; [reflexivity|].
  destruct ev; simpl; try exact IH; discriminate.
Qed.

Lemma telemetry_fds_video s pic now enc net s3 evs :
  _send_video_frame_to_unity s pic now enc net = (s3, evs) ->
  telemetry_fds evs = [].
Proof.
  intro H. apply send_video_events in H
    as [-> | [-> | (vp & payload & ok & _ & _ & _ & ->)]]; reflexivity.
Qed.

Lemma cycle_telemetry_count s loc e :
  List.length (telemetry_fds (events_of (cycle s loc e)))
  = if is_frame (env_read e) then 1%nat else 0%nat.
Proof.
  destruct (cycle s loc e) as [[[flow s'] loc'] evs] eqn:Hc.
  cbn [events_of].
  cycle_paths Hc; rewrite Hrd; cbn [is_frame]; try reflexivity.
  - destruct (send_to_unity_events s1 (fv_landmarks v) (fv_letter v)
                (fv_confidence v) (fv_hand_detected v) (env_t_msg e)
                (env_net_ok e)) as (data & k & prints & -> & Hp & _).
    rewrite !telemetry_fds_app. cbn [telemetry_fds].
    rewrite (telemetry_fds_housekeeping _ (detect_events _ _ _ _ _ Hd)).
    rewrite (telemetry_fds_housekeeping _ Hp).
    now rewrite (telemetry_fds_video _ _ _ _ _ _ _ Hv).
  - destruct (send_to_unity_events s1 (fv_landmarks v) (fv_letter v)
                (fv_confidence v) (fv_hand_detected v) (env_t_msg e)
                (env_net_ok e)) as (data & k & prints & -> & Hp & _).
    apply handle_key_events in Hk as (pk & -> & Hpk).
    rewrite !telemetry_fds_app. cbn [telemetry_fds].
    rewrite (telemetry_fds_housekeeping _ (detect_events _ _ _ _ _ Hd)).
    rewrite (telemetry_fds_housekeeping _ Hp).
    rewrite (telemetry_fds_video _ _ _ _ _ _ _ Hv).
    now rewrite (telemetry_fds_housekeeping _ Hpk).
Qed.

Lemma run_loop_telemetry_count (envs : list CycleEnv) : forall s loc,
  (List.length (telemetry_fds (snd (run_loop s loc envs))) <= frames_read envs)%nat
  /\ (fst (fst (run_loop s loc envs)) = LoopPending ->
      List.length (telemetry_fds (snd (run_loop s loc envs)))
      = frames_read envs).
Proof.
  induction envs as [|e envs IH]; intros s loc; simpl.
  - destruct (negb (is_running s)); simpl; split; auto.
  - destruct (negb (is_running s)); simpl; [split; [lia | discriminate]|].
    pose proof (cycle_telemetry_count s loc e) as Hn.
    destruct (cycle s loc e) as [[[flow s1] loc1] ev1]. simpl in Hn.
    unfold frames_read in *. simpl.
    destruct flow.
    + specialize (IH s1 loc1).
      destruct (run_loop s1 loc1 envs) as [[r s2] ev2]. simpl in *.
      rewrite telemetry_fds_app, length_app, Hn.
      destruct (is_frame (env_read e)); simpl; split; intros; lia || (f_equal; tauto) || tauto.
    + simpl. rewrite Hn.
      destruct (is_frame (env_read e)); simpl; split; try lia; discriminate.
    + simpl. rewrite Hn.
      destruct (is_frame (env_read e)); simpl; split; try lia; discriminate.
    + simpl. rewrite Hn.
      destruct (is_frame (env_read e)); simpl; split; try lia; discriminate.
Qed.

(** X6. Telemetry is not rate limited: an iteration makes exactly one
    telemetry [sendto] call when a frame was read and none otherwise, so
    a run never makes more telemetry calls than frames were delivered,
    and a run that is still in its loop has made exactly one per frame
    read. *)
Theorem telemetry_once_per_frame (s : HandTracker) (t0 : Q)
    (envs : list CycleEnv) :
  (forall loc e,
      List.length (telemetry_fds (events_of (cycle s loc e)))
      = if is_frame (env_read e) then 1%nat else 0%nat)
  /\ (List.length (telemetry_fds (snd (run s t0 envs))) <= frames_read envs)%nat
  /\ (fst (fst (run s t0 envs)) = RunPending ->
      List.length (telemetry_fds (snd (run s t0 envs))) = frames_read envs).
Proof.
  split; [intros; apply cycle_telemetry_count|].
  unfold run. destruct (negb (cap_opened (cap s))); simpl.
  - split; [lia | discriminate].
  - destruct (run_loop_telemetry_count envs (set_is_running s true)
                (mkLoopVars t0 0)) as [Hle Heq].
    destruct (run_loop (set_is_running s true) (mkLoopVars t0 0) envs)
      as [[r s2] evs]. simpl in *.
    destruct r; simpl; rewrite ?telemetry_fds_app, ?length_app; simpl;
      split; try lia; try discriminate; auto.
Qed.

Lemma telemetry_once_per_frame_witness :
  List.length
    (telemetry_fds
       (snd (run (Sample.tracker true Sample.ienv) 0%Q
               [Sample.press "q"; Scenario.env_read_fails; Sample.press "m"])))
  = frames_read [Sample.press "q"; Scenario.env_read_fails; Sample.press "m"].
Proof.
  apply (proj2 (proj2 (telemetry_once_per_frame
                         (Sample.tracker true Sample.ienv) 0%Q
                         [Sample.press "q"; Scenario.env_read_fails;
                          Sample.press "m"]))).
  reflexivity.
Defined.

Lemma cycle_show_window s loc e flow s' loc' evs :
  cycle s loc e = (flow, s', loc', evs) -> show_window s' = show_window s.
Proof.
  intro Hc. apply cycle_wiring, wiring_fields in Hc. tauto.
Qed.

(** ** Mirror mode and the remembered prediction *)

Lemma handle_key_mirror s k :
  mirror_mode (snd (fst (handle_key s k)))
  = if Z.land k 255 =? ord "m" then negb (mirror_mode s) else mirror_mode s.
Proof.
  unfold handle_key.
  destruct (Z.eqb_spec (Z.land k 255) (ord "q")) as [Hq | Hq].
  - rewrite Hq. reflexivity.
  - now destruct (_ =? ord "m").
Qed.

(** X8. Mirror mode is changed by nothing but the 'm' key, and only in
    an iteration that read a frame with the window disabled: such an
    iteration negates the flag, every other iteration leaves it as it
    was. The frame of the iteration itself was acquired before the
    toggle. *)
Theorem mirror_changes_only_by_m_key (s : HandTracker) (loc : LoopVars)
    (e : CycleEnv) :
  mirror_mode (state_of (cycle s loc e))
  = if negb (show_window s) && is_frame (env_read e)
       && (Z.land (env_key e) 255 =? ord "m")
    then negb (mirror_mode s)
    else mirror_mode s.
Proof.
  destruct (cycle s loc e) as [[[flow s'] loc'] evs] eqn:Hc.
  cbn [state_of].
  pose proof (cycle_show_window _ _ _ _ _ _ _ Hc) as Hsw.
  cycle_paths Hc; rewrite Hrd; cbn [is_frame];
    rewrite ?andb_false_r; cbn [andb]; try reflexivity.
  - apply detect_wiring in Hd as (_ & M1 & _).
    apply update_fps_wiring in Hu as (_ & M2 & _).
    pose proof (send_video_wiring _ _ _ _ _ _ _ Hv) as (W3 & M3 & _).
    apply wiring_fields in W3 as (_ & _ & _ & _ & _ & W3 & _).
    assert (Hs : show_window s = true) by congruence.
    rewrite Hs. cbn [negb andb]. congruence.
  - apply detect_wiring in Hd as (_ & M1 & _).
    apply update_fps_wiring in Hu as (_ & M2 & _).
    pose proof (send_video_wiring _ _ _ _ _ _ _ Hv) as (W3 & M3 & _).
    apply wiring_fields in W3 as (_ & _ & _ & _ & _ & W3 & _).
    pose proof (handle_key_wiring _ _ _ _ _ Hk) as (W4 & _).
    apply wiring_fields in W4 as (_ & _ & _ & _ & _ & W4 & _).
    assert (Hs : show_window s = false) by congruence.
    rewrite Hs. cbn [negb andb].
    pose proof (handle_key_mirror s3 (env_key e)) as Hm.
    rewrite Hk in Hm. cbn [fst snd] in Hm. rewrite Hm.
    destruct (_ =? ord "m"); congruence.
Qed.

Lemma update_fps_prediction s loc t s2 loc2 :
  update_fps s loc t = (s2, loc2) ->
  current_letter s2 = current_letter s /\ confidence s2 = confidence s.
Proof.
  unfold update_fps. destruct (Qgeb _ _); intro H; injection H as <- <-; auto.
Qed.

Lemma send_video_prediction s pic now enc net s3 evs :
  _send_video_frame_to_unity s pic now enc net = (s3, evs) ->
  current_letter s3 = current_letter s /\ confidence s3 = confidence s.
Proof.
  unfold _send_video_frame_to_unity.
  destruct (udp_video_port s) as [vp|]; [|intro H; injection H as <- <-; auto].
  destruct (Qltb 0 (video_fps s) && _); [intro H; injection H as <- <-; auto|].
  destruct enc as [what|[|] payload]; try (intro H; injection H as <- <-; auto).
  destruct (_ >? 65000); [intro H; injection H as <- <-; auto|].
  unfold sendto. destruct (negb _ && net); intro H; injection H as <- <-; auto.
Qed.

Lemma handle_key_prediction s k flow s4 evs :
  handle_key s k = (flow, s4, evs) ->
  current_letter s4 = current_letter s /\ confidence s4 = confidence s.
Proof.
  unfold handle_key.
  destruct (_ =? ord "q"); [intro H; injection H as <- <- <-; auto|].
  destruct (_ =? ord "m"); intro H; injection H as <- <- <-; auto.
Qed.

(** X9. The tracker remembers the last prediction: an iteration that
    finds a hand stores the letter and confidence that [predict_letter]
    returned for it (the same pair it puts in the telemetry), and an
    iteration that finds none, or reads no frame, leaves the stored pair
    untouched. *)
Theorem prediction_remembered (s : HandTracker) (loc : LoopVars)
    (e : CycleEnv) :
  (current_letter (state_of (cycle s loc e)),
   confidence (state_of (cycle s loc e)))
  = match env_read e, env_hands e with
    | ReadFrame _, hand :: _ =>
        fst (predict_letter s (extract_landmarks hand))
    | _, _ => (current_letter s, confidence s)
    end.
Proof.
  destruct (cycle s loc e) as [[[flow s'] loc'] evs] eqn:Hc.
  cbn [state_of].
  cycle_paths Hc; rewrite Hrd; try reflexivity.
  - apply update_fps_prediction in Hu as (U1 & U2).
    apply send_video_prediction in Hv as (V1 & V2).
    rewrite V1, V2, U1, U2.
    unfold detect in Hd. destruct (env_hands e) as [|hand more].
    + now injection Hd as <- <- <-.
    + destruct (predict_letter s (extract_landmarks hand)) as [[l c] evp].
      now injection Hd as <- <- <-.
  - apply update_fps_prediction in Hu as (U1 & U2).
    apply send_video_prediction in Hv as (V1 & V2).
    apply handle_key_prediction in Hk as (K1 & K2).
    rewrite K1, K2, V1, V2, U1, U2.
    unfold detect in Hd. destruct (env_hands e) as [|hand more].
    + now injection Hd as <- <- <-.
    + destruct (predict_letter s (extract_landmarks hand)) as [[l c] evp].
      now injection Hd as <- <- <-.
Qed.

(** ** Telemetry without a model *)

Lemma cycle_degraded s loc e flow s' loc' evs :
  onnx_session s = None ->
  cycle s loc e = (flow, s', loc', evs) -> Forall degraded_telemetry evs.
Proof.
  intros Hnone Hc. apply Forall_forall.
  intros [fd [d|b] host port ok| | | | | | | |] Hin; simpl; auto.
  destruct (cycle_telemetry _ _ _ _ _ _ _ _ _ _ _ _ Hc Hin)
    as (v & s1 & ev_pred & Hd & F1 & _ & F3 & F4).
  apply detect_vars in Hd. destruct (env_hands e) as [|hand more].
  - subst v. simpl in *. auto.
  - destruct Hd as (D1 & _ & _ & D4).
    unfold predict_letter in D4. rewrite Hnone in D4.
    injection D4 as D4l D4c _. rewrite <- D4l in F3. rewrite <- D4c in F4.
    rewrite D1 in F1. auto.
Qed.

(** X10. When the model could not be loaded, every telemetry datagram of
    a run carries confidence 0.0 and either the empty letter with
    [hand_detected] false or the sentinel "?" with [hand_detected] true:
    detection goes on, classification is replaced by the sentinel. *)
Theorem telemetry_without_model
    (s : HandTracker) (t0 : Q) (envs : list CycleEnv)
    (fd : nat) (d : list (string * json)) (host : string) (port : Z)
    (ok : bool) :
  onnx_session s = None ->
  In (EvSendto fd (PJson d) host port ok) (snd (run s t0 envs)) ->
  field "confidence" d = Some (JNum 0%Q)
  /\ ((field "hand_detected" d = Some (JBool false)
       /\ field "letter" d = Some (JStr ""))
      \/ (field "hand_detected" d = Some (JBool true)
          /\ field "letter" d = Some (JStr "?"))).
Proof.
  intros Hnone Hin.
  assert (Hall : Forall degraded_telemetry (snd (run s t0 envs))).
  { apply (run_lift (fun s' => onnx_session s' = None) degraded_telemetry envs);
      [| |exact Hnone].
    - intros s1 loc e flow s' loc' evs Hs _ Hc. split.
      + apply cycle_wiring, wiring_fields in Hc. intuition congruence.
      + eapply cycle_degraded; eauto.
    - intros [] Hh; simpl; auto; discriminate. }
  rewrite Forall_forall in Hall. exact (Hall _ Hin).
Qed.

Lemma telemetry_without_model_witness :
  field "confidence"
    [ ("hand_detected", JBool true);
      ("landmarks", JArr (map JNum (extract_landmarks Sample.hand)));
      ("letter", JStr "?");
      ("confidence", JNum 0%Q);
      ("timestamp", JNum 100%Q) ] = Some (JNum 0%Q)
  /\ ((field "hand_detected"
         [ ("hand_detected", JBool true);
           ("landmarks", JArr (map JNum (extract_landmarks Sample.hand)));
           ("letter", JStr "?");
           ("confidence", JNum 0%Q);
           ("timestamp", JNum 100%Q) ] = Some (JBool false)
       /\ field "letter"
            [ ("hand_detected", JBool true);
              ("landmarks", JArr (map JNum (extract_landmarks Sample.hand)));
              ("letter", JStr "?");
              ("confidence", JNum 0%Q);
              ("timestamp", JNum 100%Q) ] = Some (JStr ""))
      \/ (field "hand_detected"
            [ ("hand_detected", JBool true);
              ("landmarks", JArr (map JNum (extract_landmarks Sample.hand)));
              ("letter", JStr "?");
              ("confidence", JNum 0%Q);
              ("timestamp", JNum 100%Q) ] = Some (JBool true)
          /\ field "letter"
               [ ("hand_detected", JBool true);
                 ("landmarks", JArr (map JNum (extract_landmarks Sample.hand)));
                 ("letter", JStr "?");
                 ("confidence", JNum 0%Q);
                 ("timestamp", JNum 100%Q) ] = Some (JStr "?"))).
Proof.
  apply (telemetry_without_model Sample.tracker_no_model 0%Q
           [Sample.press "x"] 3%nat _ UDP_IP UDP_PORT true eq_refl).
  vm_compute. left. reflexivity.
Defined.


(** ** Rolling FPS *)







(** ** Leaving the loop *)

Lemma run_loop_wiring (envs : list CycleEnv) s loc :
  wiring (snd (fst (run_loop s loc envs))) = wiring s.
Proof.
  destruct (run_loop s loc envs) as [[r s2] evs] eqn:Hr.
  destruct (run_loop_lift (fun s' => wiring s' = wiring s) (fun _ => True)
              envs) with (s := s) (loc := loc) (r := r) (s' := s2) (evs := evs)
    as [H _]; auto.
  intros s1 loc1 e flow s' loc' ev1 Hs _ Hc. split.
  - apply cycle_wiring in Hc. congruence.
  - apply Forall_forall. auto.
Qed.

(** X12. Whenever [run] has come back after entering its loop, by a
    normal return or with an exception, its last action was [cleanup]:
    the trace ends with the release of the capture, the MediaPipe session,
    the tracker's socket and the windows, and the tracker is left not
    running with all three resources released. *)
Theorem finished_run_released (s : HandTracker) (t0 : Q)
    (envs : list CycleEnv) :
  (fst (fst (run s t0 envs)) = RunReturned
   \/ exists what, fst (fst (run s t0 envs)) = RunRaised what) ->
  is_running (snd (fst (run s t0 envs))) = false
  /\ cap_opened (cap (snd (fst (run s t0 envs)))) = false
  /\ hands_closed (hands (snd (fst (run s t0 envs)))) = true
  /\ sock (snd (fst (run s t0 envs))) = mkSocket (sock_fd (sock s)) true
  /\ exists before,
       snd (run s t0 envs)
       = before ++ [ EvPrint InfoCleaning; EvCapRelease; EvHandsClose;
                     EvSockClose (sock_fd (sock s)); EvDestroyAllWindows;
                     EvPrint OkReleased ].
Proof.
  unfold run. destruct (negb (cap_opened (cap s))).
  - simpl. intros [H | [w H]]; discriminate.
  - pose proof (run_loop_wiring envs (set_is_running s true) (mkLoopVars t0 0))
      as W.
    destruct (run_loop (set_is_running s true) (mkLoopVars t0 0) envs)
      as [[r s2] evs]. simpl in W.
    apply wiring_fields in W as (W1 & _). simpl in W1.
    destruct r; simpl; intros [H | [w H]]; try discriminate;
      rewrite W1; repeat split.
    + now exists evs.
    + exists (evs ++ [EvPrint InfoInterrupt]). now rewrite <- app_assoc.
    + now exists evs.
Qed.

Lemma finished_run_released_witness :
  is_running (snd (fst (run (Sample.tracker false Sample.ienv) 0%Q
                          [Sample.press "q"]))) = false
  /\ cap_opened (cap (snd (fst (run (Sample.tracker false Sample.ienv) 0%Q
                                  [Sample.press "q"])))) = false
  /\ hands_closed (hands (snd (fst (run (Sample.tracker false Sample.ienv) 0%Q
                                      [Sample.press "q"])))) = true
  /\ sock (snd (fst (run (Sample.tracker false Sample.ienv) 0%Q
                       [Sample.press "q"])))
     = mkSocket (sock_fd (sock (Sample.tracker false Sample.ienv))) true
  /\ exists before,
       snd (run (Sample.tracker false Sample.ienv) 0%Q [Sample.press "q"])
       = before ++ [ EvPrint InfoCleaning; EvCapRelease; EvHandsClose;
                     EvSockClose
                       (sock_fd (sock (Sample.tracker false Sample.ienv)));
                     EvDestroyAllWindows; EvPrint OkReleased ].
Proof.
  apply (finished_run_released (Sample.tracker false Sample.ienv) 0%Q
           [Sample.press "q"]).
  left. reflexivity.
Defined.

(** X13. A finished run is final: calling [run] again on the tracker it
    left behind stops at the camera guard, so it sends nothing, polls
    nothing and releases nothing a second time. *)
Theorem finished_run_is_terminal (s : HandTracker) (t0 t1 : Q)
    (envs envs' : list CycleEnv) :
  (fst (fst (run s t0 envs)) = RunReturned
   \/ exists what, fst (fst (run s t0 envs)) = RunRaised what) ->
  run (snd (fst (run s t0 envs))) t1 envs'
  = (RunAborted, snd (fst (run s t0 envs)), [EvPrint ErrNoCamera]).
Proof.
  intro Hdone.
  assert (Hcap : cap_opened (cap (snd (fst (run s t0 envs)))) = false).
  { unfold run in *. destruct (negb (cap_opened (cap s))).
    - simpl in Hdone. destruct Hdone as [H | [w H]]; discriminate.
    - destruct (run_loop (set_is_running s true) (mkLoopVars t0 0) envs)
        as [[r s2] evs].
      destruct r; simpl in *; try reflexivity.
      destruct Hdone as [H | [w H]]; discriminate. }
  unfold run at 1. now rewrite Hcap.
Qed.

Lemma finished_run_is_terminal_witness :
  run (snd (fst (run (Sample.tracker false Sample.ienv) 0%Q
                   [Sample.press "q"]))) 200%Q [Sample.press "x"]
  = (RunAborted,
     snd (fst (run (Sample.tracker false Sample.ienv) 0%Q [Sample.press "q"])),
     [EvPrint ErrNoCamera]).
Proof.
  apply (finished_run_is_terminal (Sample.tracker false Sample.ienv)
           0%Q 200%Q [Sample.press "q"] [Sample.press "x"]).
  left. reflexivity.
Defined.

(** ** Keyboard codes *)

Lemma land_255_mod (k : Z) : Z.land k 255 = k mod 256.
Proof.
  change 255 with (Z.ones 8). now rewrite Z.land_ones by lia.
Qed.

(** X15. The key handler looks only at the low byte of what
    [cv2.waitKey] returns: codes that differ by a multiple of 256 are
    treated alike, so 'q' and 'm' are recognised with modifier bits set;
    any other code, the -1 of "no key" included, changes nothing. *)
Theorem handle_key_low_byte (s : HandTracker) (k n : Z) :
  fst (handle_key s (k + 256 * n)) = fst (handle_key s k)
  /\ (k mod 256 <> ord "q" -> k mod 256 <> ord "m" ->
      handle_key s k = (FlowNext, s, [EvWaitKey k]))
  /\ handle_key s (-1) = (FlowNext, s, [EvWaitKey (-1)])
  /\ (k mod 256 = ord "q" -> fst (fst (handle_key s k)) = FlowBreak)
  /\ (k mod 256 = ord "m" ->
      fst (handle_key s k) = (FlowNext, toggle_mirror s)).
Proof.
  unfold handle_key. rewrite !land_255_mod.
  replace ((k + 256 * n) mod 256) with (k mod 256)
    by (rewrite Z.mul_comm, Z_mod_plus_full; reflexivity).
  repeat split.
  - destruct (_ =? ord "q"); [reflexivity|]. now destruct (_ =? ord "m").
  - intros Hq Hm.
    apply Z.eqb_neq in Hq. apply Z.eqb_neq in Hm. now rewrite Hq, Hm.
  - intro Hq. apply Z.eqb_eq in Hq. now rewrite Hq.
  - intro Hm. rewrite Hm. reflexivity.
Qed.

(** ** Confidence range *)

(** X16. If every probability the engine reports for a feature vector
    lies between 0 and 1, so does the confidence that [predict_letter]
    returns for it, on every path: greatest probability, the 0.0 of an
    empty distribution or of the sentinel, the 1.0 of a missing one. *)
Theorem confidence_in_unit_interval (s : HandTracker) (landmarks : list Q) :
  (forall session outputs d rows tl,
      onnx_session s = Some session ->
      session_run session landmarks = EngineReturns outputs ->
      out_rest outputs = ProbRows (RowDict d :: rows) :: tl ->
      Forall (fun v => (0 <= v <= 1)%Q) (map snd d)) ->
  (0 <= snd (fst (predict_letter s landmarks)) <= 1)%Q.
Proof.
  intro Hprob. unfold predict_letter.
  destruct (onnx_session s) as [session|] eqn:Hs; [|simpl; lra].
  unfold predict_try.
  destruct (session_run session landmarks) as [what|outputs] eqn:Hrun;
    [simpl; lra|].
  destruct (out_labels outputs) as [|label more]; [simpl; lra|].
  destruct (out_rest outputs) as [|[|rows] tl] eqn:Hrest; try (simpl; lra).
  destruct rows as [|[d|a] rows]; try (simpl; lra).
  specialize (Hprob session outputs d rows tl eq_refl Hrun Hrest).
  destruct (py_max (map snd d)) as [m|] eqn:Hm; [|simpl; lra].
  apply py_max_is_max in Hm as [Hin _].
  rewrite Forall_forall in Hprob. simpl. exact (Hprob m Hin).
Qed.

Lemma confidence_in_unit_interval_witness :
  (0 <= snd (fst (predict_letter (Sample.tracker true Sample.ienv)
                    (extract_landmarks Sample.hand))) <= 1)%Q.
Proof.
  apply (confidence_in_unit_interval (Sample.tracker true Sample.ienv)
           (extract_landmarks Sample.hand)).
  intros session outputs d rows tl Hs Hrun Hrest.
  injection Hs as <-. simpl in Hrun. injection Hrun as <-.
  simpl in Hrest. injection Hrest as <- _ _.
  repeat constructor; simpl; discriminate.
Defined.


(** ** Spacing of preview datagrams over a run *)

Lemma cycle_rate s loc e flow s' loc' evs :
  cycle s loc e = (flow, s', loc', evs) ->
  (existsb preview_sent evs = true ->
   _last_video_send_time s' = env_t_video e
   /\ ((0 < video_fps s)%Q ->
       (fl (1 / video_fps s)
        <= fl (env_t_video e - _last_video_send_time s))%Q))
  /\ (existsb preview_sent evs = false ->
      _last_video_send_time s' = _last_video_send_time s).
Proof.
  intro Hc.
  destruct (env_read e) as [raw| |w|] eqn:Hread.
  2-4: destruct (cycle_no_frame _ _ _ _ _ _ _ Hc) as (-> & Hk);
    [intros raw; congruence|]; split; [|reflexivity];
    intro Hex; apply existsb_exists in Hex as (ev & Hin & Hs);
    apply preview_sent_effect in Hs;
    now destruct (no_preview_effect_among _ _ Hk Hin Hs).
  destruct (cycle_video _ _ _ _ _ _ _ _ Hc Hread)
    as (v & s1 & ev_pred & s2 & loc2 & pic & s3 & ev_vid
        & _ & _ & W & L & _ & Hv & L' & Hincl & Hsub & _).
  apply wiring_fields in W as (_ & _ & _ & _ & W5 & _).
  destruct (send_video_gate _ _ _ _ _ _ _ Hv) as (Ga & Gb & _).
  rewrite W5, L in Ga. rewrite L in Gb. rewrite L'. split.
  - intro Hex. apply existsb_exists in Hex as (ev & Hin & Hs).
    pose proof (Hsub ev Hin (preview_sent_effect _ Hs)) as Hin'.
    destruct Gb as [(_ & Gn) | (Gl & _)].
    + rewrite (Gn ev Hin') in Hs. discriminate.
    + split; [exact Gl|]. intro HF. apply Ga; [exact HF|].
      intro Hnil. now rewrite Hnil in Hin'.
  - intro Hex. destruct Gb as [(Gl & _) | (_ & fd & b & host & port & Gin)];
      [exact Gl|].
    exfalso. apply Hincl in Gin.
    assert (Ht : existsb preview_sent evs = true)
      by (apply existsb_exists; eexists; split; [exact Gin | reflexivity]).
    congruence.
Qed.

(** X17. Over a whole run of the loop with preview fps F > 0, the clock
    readings at which preview datagrams were accepted pass the limiter's
    test one after the other, the first against the last-send time the
    loop started with: the double difference of two consecutive readings
    is not below the double [1.0 / F], and their exact difference is at
    least [(1/F) * (1 - 2^-52) - 2^-1073]. *)
Theorem preview_sends_spaced (envs : list CycleEnv) :
  forall (s : HandTracker) (loc : LoopVars),
    (0 < video_fps s)%Q ->
    spaced (1 / video_fps s) (_last_video_send_time s)
           (accepted_times s loc envs).
Proof.
  induction envs as [|e envs IH]; intros s loc HF; simpl.
  - now destruct (negb (is_running s)).
  - destruct (negb (is_running s)); [exact I|].
    destruct (cycle s loc e) as [[[flow s1] loc1] ev1] eqn:Hc.
    destruct (cycle_rate _ _ _ _ _ _ _ Hc) as [Hsent Hnot].
    pose proof (wiring_fields _ _ (cycle_wiring _ _ _ _ _ _ _ Hc))
      as (_ & _ & _ & _ & W5 & _).
    assert (Hrest : spaced (1 / video_fps s) (_last_video_send_time s1)
                      match flow with
                      | FlowNext => accepted_times s1 loc1 envs
                      | _ => []
                      end).
    { destruct flow; try exact I.
      rewrite <- W5. apply IH. now rewrite W5. }
    destruct (existsb preview_sent ev1).
    + destruct (Hsent eq_refl) as [Hl Hgap]. simpl.
      split; [|now rewrite <- Hl].
      split; [now apply Hgap|].
      apply gate_tolerance; [now apply period_pos | now apply Hgap].
    + simpl. now rewrite <- (Hnot eq_refl).
Qed.

Lemma preview_sends_spaced_witness :
  spaced (1 / video_fps (set_is_running (Sample.tracker true Sample.ienv) true))
         (_last_video_send_time
            (set_is_running (Sample.tracker true Sample.ienv) true))
         (accepted_times (set_is_running (Sample.tracker true Sample.ienv) true)
            Sample.loc0
            [ Sample.env 100%Q (EncResult true Sample.jpeg) (-1);
              Sample.env 100.0625%Q (EncResult true Sample.jpeg) (-1);
              Sample.env 100.125%Q (EncResult true Sample.jpeg) (-1) ]).
Proof.
  apply (preview_sends_spaced
           [ Sample.env 100%Q (EncResult true Sample.jpeg) (-1);
             Sample.env 100.0625%Q (EncResult true Sample.jpeg) (-1);
             Sample.env 100.125%Q (EncResult true Sample.jpeg) (-1) ]
           (set_is_running (Sample.tracker true Sample.ienv) true)
           Sample.loc0).
  reflexivity.
Defined.

(** The three readings above give two accepted datagrams. *)
Example accepted_times_example :
  List.length
    (accepted_times (set_is_running (Sample.tracker true Sample.ienv) true)
       Sample.loc0
       [ Sample.env 100%Q (EncResult true Sample.jpeg) (-1);
         Sample.env 100.0625%Q (EncResult true Sample.jpeg) (-1);
         Sample.env 100.125%Q (EncResult true Sample.jpeg) (-1) ]) = 2%nat.
Proof. vm_compute. reflexivity. Qed.


(** ** Wire format of a telemetry datagram *)

Lemma send_to_unity_exact s landmarks letter c detected now net :
  exists prints,
    send_to_unity s landmarks letter c detected now net
    = EvSendto (sock_fd (sock s))
        (PJson
           [ ("hand_detected", JBool detected);
             ("landmarks", JArr (if detected then map JNum landmarks else []));
             ("letter", JStr letter);
             ("confidence", JNum c);
             ("timestamp", JNum now) ])
        (udp_ip s) (udp_port s) (negb (sock_closed (sock s)) && net)
      :: prints
    /\ prints = (if negb (sock_closed (sock s)) && net
                 then [] else [EvPrint ErrUdp]).
Proof.
  unfold send_to_unity, sendto.
  destruct (negb (sock_closed (sock s)) && net); eexists; split; reflexivity.
Qed.

(** Closes the cases of an event that cannot be where it is said to be. *)
Ltac not_there Hin :=
  solve
    [ discriminate Hin
    | contradiction
    | exfalso;
      match goal with
      | H : Forall (fun ev => housekeeping ev = true) ?l, Hin' : In _ ?l |- _ =>
          rewrite Forall_forall in H; specialize (H _ Hin'); discriminate H
      end
    | exfalso;
      match goal with
      | H : _send_video_frame_to_unity _ _ _ _ _ = (_, ?l), Hin' : In _ ?l |- _ =>
          apply send_video_events in H
            as [-> | [-> | (? & ? & ? & _ & _ & _ & ->)]];
          simpl in Hin'; intuition discriminate
      end ].

Lemma cycle_telemetry_exact s loc e flow s' loc' evs fd d host port ok :
  cycle s loc e = (flow, s', loc', evs) ->
  In (EvSendto fd (PJson d) host port ok) evs ->
  exists v s1 ev_pred,
    detect s (env_hands e) = (v, s1, ev_pred)
    /\ d = [ ("hand_detected", JBool (fv_hand_detected v));
             ("landmarks",
              JArr (if fv_hand_detected v
                    then map JNum (fv_landmarks v) else []));
             ("letter", JStr (fv_letter v));
             ("confidence", JNum (fv_confidence v));
             ("timestamp", JNum (env_t_msg e)) ].
Proof.
  intros Hc Hin.
  cycle_paths Hc; try (simpl in Hin; intuition discriminate).
  all: pose proof (detect_events _ _ _ _ _ Hd) as E1;
    exists v, s1, ev_pred; (split; [exact Hd|]);
    destruct (send_to_unity_exact s1 (fv_landmarks v) (fv_letter v)
                (fv_confidence v) (fv_hand_detected v) (env_t_msg e)
                (env_net_ok e)) as (prints & E & Hp);
    rewrite E in Hin;
    assert (Hp' : Forall (fun ev => housekeeping ev = true) prints)
      by (rewrite Hp; destruct (negb _ && _); repeat constructor);
    clear Hp E.
  - revert Hin. in_events.
    intros [Hin | [Hin | [Hin | [Hin | Hin]]]]; try not_there Hin.
    now injection Hin as _ <- _ _ _.
  - apply handle_key_events in Hk as (pk & -> & Hpk).
    revert Hin. in_events.
    intros [Hin | [Hin | [Hin | [Hin | [Hin | Hin]]]]]; try not_there Hin.
    now injection Hin as _ <- _ _ _.
Qed.

(** X18. Every telemetry datagram of an iteration is a dict with exactly
    the keys hand_detected, landmarks, letter, confidence, timestamp, in
    that order; its timestamp is the clock reading taken when the message
    was built; and when no hand was found it is exactly the default
    message: false, no landmarks, empty letter, confidence 0.0. *)
Theorem telemetry_schema
    (s : HandTracker) (loc : LoopVars) (e : CycleEnv)
    (fd : nat) (d : list (string * json)) (host : string) (port : Z)
    (ok : bool) :
  In (EvSendto fd (PJson d) host port ok) (events_of (cycle s loc e)) ->
  map fst d
  = ["hand_detected"; "landmarks"; "letter"; "confidence"; "timestamp"]
  /\ field "timestamp" d = Some (JNum (env_t_msg e))
  /\ (env_hands e = [] ->
      d = [ ("hand_detected", JBool false);
            ("landmarks", JArr []);
            ("letter", JStr "");
            ("confidence", JNum 0%Q);
            ("timestamp", JNum (env_t_msg e)) ]).
Proof.
  intro Hin.
  destruct (cycle s loc e) as [[[flow s'] loc'] evs] eqn:Hc.
  cbn [events_of] in Hin.
  destruct (cycle_telemetry_exact _ _ _ _ _ _ _ _ _ _ _ _ Hc Hin)
    as (v & s1 & ev_pred & Hd & ->).
  repeat split.
  intro Hnone. rewrite Hnone in Hd. simpl in Hd.
  now injection Hd as <- _ _.
Qed.

Lemma telemetry_schema_witness :
  map fst
    [ ("hand_detected", JBool false);
      ("landmarks", JArr []);
      ("letter", JStr "");
      ("confidence", JNum 0%Q);
      ("timestamp", JNum 100%Q) ]
  = ["hand_detected"; "landmarks"; "letter"; "confidence"; "timestamp"]
  /\ field "timestamp"
       [ ("hand_detected", JBool false);
         ("landmarks", JArr []);
         ("letter", JStr "");
         ("confidence", JNum 0%Q);
         ("timestamp", JNum 100%Q) ]
     = Some (JNum (env_t_msg
                     (Sample.env_no_hand 100%Q (EncResult true Sample.jpeg) (-1))))
  /\ (env_hands (Sample.env_no_hand 100%Q (EncResult true Sample.jpeg) (-1)) = [] ->
      [ ("hand_detected", JBool false);
        ("landmarks", JArr []);
        ("letter", JStr "");
        ("confidence", JNum 0%Q);
        ("timestamp", JNum 100%Q) ]
      = [ ("hand_detected", JBool false);
          ("landmarks", JArr []);
          ("letter", JStr "");
          ("confidence", JNum 0%Q);
          ("timestamp",
           JNum (env_t_msg
                   (Sample.env_no_hand 100%Q (EncResult true Sample.jpeg) (-1)))) ]).
Proof.
  apply (telemetry_schema (Sample.tracker true Sample.ienv) Sample.loc0
           (Sample.env_no_hand 100%Q (EncResult true Sample.jpeg) (-1))
           3%nat _ UDP_IP UDP_PORT true).
  vm_compute. left. reflexivity.
Defined.

(** ** What gets logged *)

Lemma send_video_silent s pic now enc net :
  Forall (fun ev => is_print ev = false)
         (snd (_send_video_frame_to_unity s pic now enc net)).
Proof.
  destruct (_send_video_frame_to_unity s pic now enc net) as [s3 evs] eqn:H.
  apply send_video_events in H
    as [-> | [-> | (vp & payload & ok & _ & _ & _ & ->)]];
    repeat constructor.
Qed.

Lemma predict_letter_no_udp_error s landmarks :
  ~ In (EvPrint ErrUdp) (snd (predict_letter s landmarks)).
Proof.
  unfold predict_letter. destruct (onnx_session s) as [session|]; simpl; auto.
  destruct (predict_try session landmarks); simpl; intuition discriminate.
Qed.

Lemma detect_no_udp_error s hs :
  ~ In (EvPrint ErrUdp) (snd (detect s hs)).
Proof.
  unfold detect. destruct hs as [|h hs]; simpl; auto.
  pose proof (predict_letter_no_udp_error s (extract_landmarks h)) as H.
  now destruct (predict_letter s (extract_landmarks h)) as [[l c] evp].
Qed.

Lemma handle_key_no_udp_error s k :
  ~ In (EvPrint ErrUdp) (snd (handle_key s k)).
Proof.
  unfold handle_key.
  destruct (_ =? ord "q"); [|destruct (_ =? ord "m")]; simpl;
    intuition discriminate.
Qed.

Lemma send_video_no_udp_error s pic now enc net :
  ~ In (EvPrint ErrUdp) (snd (_send_video_frame_to_unity s pic now enc net)).
Proof.
  intro Hin. pose proof (send_video_silent s pic now enc net) as H.
  rewrite Forall_forall in H. specialize (H _ Hin). discriminate.
Qed.

(** X19. A failed telemetry send is logged and nothing else is: the UDP
    error line is printed in an iteration exactly when a frame was read
    and the telemetry [sendto] failed (socket closed or datagram refused).
    The preview sender never prints anything, whatever fails in it. *)
Theorem only_telemetry_failures_are_logged (s : HandTracker)
    (loc : LoopVars) (e : CycleEnv) :
  (In (EvPrint ErrUdp) (events_of (cycle s loc e))
   <-> is_frame (env_read e) = true
       /\ negb (sock_closed (sock s)) && env_net_ok e = false)
  /\ (forall s' pic now enc net,
        Forall (fun ev => is_print ev = false)
               (snd (_send_video_frame_to_unity s' pic now enc net))).
Proof.
  split; [|intros; apply send_video_silent].
  destruct (cycle s loc e) as [[[flow s'] loc'] evs] eqn:Hc.
  cbn [events_of].
  cycle_paths Hc; rewrite Hrd; cbn [is_frame];
    try (split; [simpl; intuition discriminate | intros [H _]; discriminate]).
  - pose proof (detect_no_udp_error s (env_hands e)) as N1.
    rewrite Hd in N1. cbn [snd] in N1.
    pose proof (send_video_no_udp_error s2 display (env_t_video e)
                  (env_encode e) (env_video_net_ok e)) as N3.
    rewrite Hv in N3. cbn [snd] in N3.
    apply detect_wiring in Hd as (W1 & _).
    apply wiring_fields in W1 as (W1 & _).
    destruct (send_to_unity_exact s1 (fv_landmarks v) (fv_letter v)
                (fv_confidence v) (fv_hand_detected v) (env_t_msg e)
                (env_net_ok e)) as (prints & -> & ->).
    rewrite W1. in_events.
    destruct (negb (sock_closed (sock s)) && env_net_ok e); cbn [In];
      intuition discriminate.
  - pose proof (detect_no_udp_error s (env_hands e)) as N1.
    rewrite Hd in N1. cbn [snd] in N1.
    pose proof (send_video_no_udp_error s2 (of_frame (mirrored s fr))
                  (env_t_video e) (env_encode e) (env_video_net_ok e)) as N3.
    rewrite Hv in N3. cbn [snd] in N3.
    pose proof (handle_key_no_udp_error s3 (env_key e)) as N4.
    rewrite Hk in N4. cbn [snd] in N4.
    apply detect_wiring in Hd as (W1 & _).
    apply wiring_fields in W1 as (W1 & _).
    destruct (send_to_unity_exact s1 (fv_landmarks v) (fv_letter v)
                (fv_confidence v) (fv_hand_detected v) (env_t_msg e)
                (env_net_ok e)) as (prints & -> & ->).
    rewrite W1. in_events.
    destruct (negb (sock_closed (sock s)) && env_net_ok e); cbn [In];
      intuition discriminate.
Qed.


(** ** The limiter lets through what is due *)



